(** * Unplanned Hospital Visits dashboard (uhv6_dash.py)

    A shallow embedding of the data path of the dashboard script: the two
    loaders, the sidebar filter, and the tables computed under the five tabs.
    The script is a pandas program, so the first part of the file is a small
    model of the pandas operations the script calls; the second part is the
    script itself, written with those operations; the third part names what
    the properties speak of and gives example tables; the fourth part states
    and proves the properties of the specification.

    Conventions of the model.
    - A cell is absent ([NaN]), a number ([Num], exact rationals stand for
      float64: rounding is not modelled) or text ([Str]).
    - A row maps column labels to cells; a frame is a header (the column
      labels that exist) and a list of rows, each with its index label.
    - An operation that raises in pandas returns [Raise]: [KeyError] for a
      column that is not in the frame, [TypeError] for arithmetic or ordering
      over a column that holds text where numbers are needed, [ValueError]
      for a reshape whose value column already exists.
    - Two pieces of pandas are parameters of the model: the text-to-number
      parser behind [read_csv] and [to_numeric], and the sorting algorithm
      behind [sort_values] (the default one is not stable, so only "the result
      is a sorted permutation" is assumed of it). *)

From Stdlib Require Import List String Ascii Bool Arith Lia ZArith QArith.
From Stdlib Require Import Permutation Sorted.
Import ListNotations.

Open Scope string_scope.
Open Scope list_scope.
Open Scope nat_scope.

(* ================================================================== *)
(** * Part 1: a model of the pandas operations used by the script     *)
(* ================================================================== *)

Inductive cell : Type :=
| NaN
| Num (q : Q)
| Str (s : string).

Definition row : Type := string -> cell.

(** A row together with its index label. *)
Definition irow : Type := (nat * row)%type.

Record DataFrame : Type := mkDF {
  columns : list string;
  rows : list irow
}.

Inductive error : Type :=
| KeyError (c : string)
| TypeError (c : string)
| ValueError (c : string).

Inductive result (A : Type) : Type :=
| Ok (a : A)
| Raise (e : error).

Arguments Ok {A} a.
Arguments Raise {A} e.

Definition bind {A B : Type} (m : result A) (k : A -> result B) : result B :=
  match m with
  | Ok a => k a
  | Raise e => Raise e
  end.

Declare Scope pandas_scope.
Delimit Scope pandas_scope with pandas.
Notation "x <- m ;; k" := (bind m (fun x => k))
  (at level 61, m at next level, right associativity) : pandas_scope.
Notation "m ;;; k" := (bind m (fun _ => k))
  (at level 61, right associativity) : pandas_scope.
Open Scope pandas_scope.

(** ** Cells *)

Definition notna (v : cell) : bool :=
  match v with NaN => false | _ => true end.

Definition isna (v : cell) : bool := negb (notna v).

Definition is_str (v : cell) : bool :=
  match v with Str _ => true | _ => false end.

Definition is_num (v : cell) : bool :=
  match v with Num _ => true | _ => false end.

Definition mem_string (s : string) (l : list string) : bool :=
  existsb (String.eqb s) l.

(** [Series.isin(values)] for a list of strings. *)
Definition isin (values : list string) (v : cell) : bool :=
  match v with
  | Str s => mem_string s values
  | _ => false
  end.

(** [Series.fillna(other)], cell by cell. *)
Definition fillna (v other : cell) : cell :=
  match v with NaN => other | _ => v end.

(** [replace(values, np.nan)]: only text equal to one of the values changes. *)
Definition replace_with_nan (values : list string) (v : cell) : cell :=
  match v with
  | Str s => if mem_string s values then NaN else v
  | _ => v
  end.

(** Equality of values as pandas groups and deduplicates them. *)
Definition cell_eqb (a b : cell) : bool :=
  match a, b with
  | NaN, NaN => true
  | Num p, Num q => Qeq_bool p q
  | Str s, Str t => String.eqb s t
  | _, _ => false
  end.

(** Ascending order of sort keys: numbers by value, text by code point,
    absent values last.  Numbers are put before text to make the order
    total; [sort_values] raises before comparing a number with text. *)
Definition cell_leb (a b : cell) : bool :=
  match a, b with
  | _, NaN => true
  | NaN, _ => false
  | Num p, Num q => Qle_bool p q
  | Num _, Str _ => true
  | Str _, Num _ => false
  | Str s, Str t => String.leb s t
  end.

(** Descending order of sort keys; absent values are still last. *)
Definition cell_geb (a b : cell) : bool :=
  match a, b with
  | _, NaN => true
  | NaN, _ => false
  | _, _ => cell_leb b a
  end.

Definition key_order (ascending : bool) : cell -> cell -> bool :=
  if ascending then cell_leb else cell_geb.

(** ** Frames *)

Definition has_column (c : string) (df : DataFrame) : bool :=
  mem_string c (columns df).

(** [df[c]] raises KeyError when the frame has no column [c]. *)
Definition require (c : string) (df : DataFrame) : result unit :=
  if has_column c df then Ok tt else Raise (KeyError c).

Fixpoint require_all (cs : list string) (df : DataFrame) : result unit :=
  match cs with
  | [] => Ok tt
  | c :: cs' => require c df ;;; require_all cs' df
  end.

Definition column (c : string) (df : DataFrame) : list cell :=
  map (fun r : irow => snd r c) (rows df).

(** [df[mask]] where the mask is computed row by row. *)
Definition select (p : row -> bool) (df : DataFrame) : DataFrame :=
  mkDF (columns df) (filter (fun r : irow => p (snd r)) (rows df)).

Definition set_cell (c : string) (v : cell) (r : row) : row :=
  fun c' => if String.eqb c' c then v else r c'.

(** [df[c] = f(row)]: the column is appended when it is new. *)
Definition assign (c : string) (f : row -> cell) (df : DataFrame) : DataFrame :=
  mkDF (if has_column c df then columns df else columns df ++ [c])
       (map (fun r : irow => (fst r, set_cell c (f (snd r)) (snd r))) (rows df)).

(** [df[[c1; ...; cn]]]. *)
Definition getitems (cs : list string) (df : DataFrame) : result DataFrame :=
  require_all cs df ;;;
  Ok (mkDF cs (map (fun r : irow =>
                      (fst r, fun c => if mem_string c cs then snd r c else NaN))
                   (rows df))).

Definition head (n : nat) (df : DataFrame) : DataFrame :=
  mkDF (columns df) (firstn n (rows df)).

Definition tail (n : nat) (df : DataFrame) : DataFrame :=
  mkDF (columns df) (skipn (List.length (rows df) - n) (rows df)).

(** [dropna(subset=cs)] (how="any"). *)
Definition dropna_any (cs : list string) (df : DataFrame) : result DataFrame :=
  require_all cs df ;;;
  Ok (select (fun r => forallb (fun c => notna (r c)) cs) df).

(** [dropna(subset=cs, how="all")]: a row goes only when every listed cell
    is absent. *)
Definition dropna_all (cs : list string) (df : DataFrame) : result DataFrame :=
  require_all cs df ;;;
  Ok (select (fun r => negb (forallb (fun c => isna (r c)) cs)) df).

(** A numeric reduction or ordering over a column that holds text raises. *)
Definition require_numeric (c : string) (df : DataFrame) : result unit :=
  if existsb is_str (column c df) then Raise (TypeError c) else Ok tt.

Fixpoint numbers (l : list cell) : list Q :=
  match l with
  | [] => []
  | Num q :: l' => q :: numbers l'
  | _ :: l' => numbers l'
  end.

Definition Qsum (l : list Q) : Q := fold_right Qplus 0%Q l.

(** [mean()] of numbers: absent for no numbers. *)
Definition mean (l : list Q) : cell :=
  match l with
  | [] => NaN
  | _ => Num (Qsum l / inject_Z (Z.of_nat (List.length l)))%Q
  end.

(** [mean()] of a boolean series: the fraction of [True]. *)
Definition bool_mean (l : list bool) : cell :=
  mean (map (fun b : bool => if b then 1%Q else 0%Q) l).

(** [sum()] of a column, skipping absent values. *)
Definition sum_cells (l : list cell) : Q := Qsum (numbers l).

(** [unique()]: first occurrences, in order. *)
Fixpoint unique_from {K : Type} (eqb : K -> K -> bool) (seen l : list K) : list K :=
  match l with
  | [] => []
  | x :: l' =>
      if existsb (eqb x) seen then unique_from eqb seen l'
      else x :: unique_from eqb (x :: seen) l'
  end.

Definition unique {K : Type} (eqb : K -> K -> bool) (l : list K) : list K :=
  unique_from eqb [] l.

(** [nunique()]: distinct values, absent ones not counted. *)
Definition nunique (l : list cell) : nat :=
  List.length (unique cell_eqb (filter notna l)).

(** ** Grouping *)

Definition key : Type := list cell.

Definition key_of (by_ : list string) (r : row) : key := map r by_.

Fixpoint key_eqb (a b : key) : bool :=
  match a, b with
  | [], [] => true
  | x :: a', y :: b' => cell_eqb x y && key_eqb a' b'
  | _, _ => false
  end.

(** Lexicographic order of group keys. *)
Fixpoint key_leb (a b : key) : bool :=
  match a, b with
  | [], _ => true
  | _ :: _, [] => false
  | x :: a', y :: b' =>
      if cell_eqb x y then key_leb a' b' else cell_leb x y
  end.

Fixpoint insert_by {A : Type} (le : A -> A -> bool) (x : A) (l : list A) : list A :=
  match l with
  | [] => [x]
  | y :: l' => if le x y then x :: l else y :: insert_by le x l'
  end.

Fixpoint isort_by {A : Type} (le : A -> A -> bool) (l : list A) : list A :=
  match l with
  | [] => []
  | x :: l' => insert_by le x (isort_by le l')
  end.

(** [groupby(by_)]: rows with an absent key are left out, the groups come in
    key order, and the rows of a group keep their order.  (Group keys are
    distinct, so the way they are sorted does not show.) *)
Definition groupby (by_ : list string) (df : DataFrame)
  : result (list (key * list irow)) :=
  require_all by_ df ;;;
  let kept := filter (fun r : irow => forallb notna (key_of by_ (snd r))) (rows df) in
  let keys := isort_by key_leb (unique key_eqb (map (fun r : irow => key_of by_ (snd r)) kept)) in
  Ok (map (fun k => (k, filter (fun r : irow => key_eqb (key_of by_ (snd r)) k) kept))
          keys).

(** [.size()] of a grouping. *)
Definition size (g : list (key * list irow)) : list (key * nat) :=
  map (fun kg => (fst kg, List.length (snd kg))) g.

(** [[c].mean()] of a grouping: the mean of the present values of each
    group; text in a group raises. *)
Definition group_mean (c : string) (g : list (key * list irow))
  : result (list (key * cell)) :=
  if existsb (fun kg : key * list irow =>
                existsb is_str (map (fun r : irow => snd r c) (snd kg))) g
  then Raise (TypeError c)
  else Ok (map (fun kg : key * list irow =>
                  (fst kg, mean (numbers (map (fun r : irow => snd r c) (snd kg)))))
               g).

(** ** Melt *)

(** [melt(id_vars, value_vars, var_name, value_name)]: one block of rows per
    value column, in the order of [value_vars]; within a block the rows keep
    their order; the index is renumbered.  A frame that already has a column
    called [value_name] is refused. *)
Definition melt_row (id_vars : list string) (var_name value_name v : string)
  (r : row) : row :=
  fun c =>
    if String.eqb c var_name then Str v
    else if String.eqb c value_name then r v
    else if mem_string c id_vars then r c
    else NaN.

Definition melt (id_vars value_vars : list string) (var_name value_name : string)
  (df : DataFrame) : result DataFrame :=
  if has_column value_name df then Raise (ValueError value_name) else
  require_all id_vars df ;;;
  require_all value_vars df ;;;
  let long := flat_map (fun v => map (fun r : irow =>
                                        melt_row id_vars var_name value_name v (snd r))
                                     (rows df))
                       value_vars in
  Ok (mkDF (id_vars ++ [var_name; value_name])
           (combine (seq 0 (List.length long)) long)).

(** ** Group aggregates as frames *)

(** The cell of a group key under one of the grouping columns. *)
Fixpoint key_cell (c : string) (by_ : list string) (k : key) : cell :=
  match by_, k with
  | b :: by', v :: k' => if String.eqb c b then v else key_cell c by' k'
  | _, _ => NaN
  end.

(** [reset_index()] of a group aggregate named [value]: one row per group,
    the grouping columns followed by the value column, labelled 0, 1, ... *)
Definition reset_index (by_ : list string) (value : string)
  (g : list (key * cell)) : DataFrame :=
  mkDF (by_ ++ [value])
       (combine (seq 0 (List.length g))
                (map (fun kv : key * cell =>
                        fun c => if mem_string c by_ then key_cell c by_ (fst kv)
                                 else if String.eqb c value then snd kv
                                 else NaN)
                     g)).

(** [rename(columns={old: new})]. *)
Definition rename (old new : string) (df : DataFrame) : DataFrame :=
  mkDF (map (fun c => if String.eqb c old then new else c) (columns df))
       (map (fun r : irow =>
               (fst r, fun c => if String.eqb c new then snd r old
                                else if String.eqb c old then NaN
                                else snd r c))
            (rows df)).

(** ** Reading a CSV file *)

(** A CSV file after tokenising: a header line and the records. *)
Record csv : Type := mkCSV {
  header : list string;
  records : list (list string)
}.

(** The texts [read_csv] reads as absent by default. *)
Definition STR_NA_VALUES : list string :=
  [ ""; "#N/A"; "#N/A N/A"; "#NA"; "-1.#IND"; "-1.#QNAN"; "-NaN"; "-nan";
    "1.#IND"; "1.#QNAN"; "<NA>"; "N/A"; "NA"; "NULL"; "NaN"; "None";
    "n/a"; "nan"; "null" ].

Definition is_na_text (t : string) : bool := mem_string t STR_NA_VALUES.

Fixpoint index_of (c : string) (hdr : list string) : option nat :=
  match hdr with
  | [] => None
  | h :: hdr' =>
      if String.eqb c h then Some 0
      else option_map S (index_of c hdr')
  end.

(** The text of a record under a column; a short record reads as empty
    fields. *)
Definition field (hdr : list string) (rec : list string) (c : string)
  : option string :=
  option_map (fun i => nth i rec "") (index_of c hdr).

Section Script.

(** The number parser of pandas (the one behind [read_csv]'s column typing and
    [to_numeric]): [None] when the text is not a number. *)
Variable to_number : string -> option Q.

(** The sorting algorithm of [sort_values], applied to the rows of a frame
    with the order of the sort key. *)
Variable sort_by : (irow -> irow -> bool) -> list irow -> list irow.

(** A column is read as numbers when every text in it is absent or parses. *)
Definition numeric_text (t : string) : bool :=
  is_na_text t || match to_number t with Some _ => true | None => false end.

Definition infer_numeric (f : csv) (c : string) : bool :=
  forallb (fun rec => match field (header f) rec c with
                      | Some t => numeric_text t
                      | None => true
                      end)
          (records f).

Definition read_cell (numeric : bool) (t : string) : cell :=
  if is_na_text t then NaN
  else if numeric then
         match to_number t with Some q => Num q | None => Str t end
       else Str t.

Definition read_record (f : csv) (rec : list string) : row :=
  fun c => match field (header f) rec c with
           | Some t => read_cell (infer_numeric f c) t
           | None => NaN
           end.

(** [pd.read_csv(path)] with default options: default absent texts, column
    types inferred, rows labelled 0, 1, 2, ... *)
Definition read_csv (f : csv) : DataFrame :=
  mkDF (header f)
       (combine (seq 0 (List.length (records f)))
                (map (read_record f) (records f))).

(** [pd.to_numeric(_, errors="coerce")], cell by cell. *)
Definition to_numeric (v : cell) : cell :=
  match v with
  | Str s => match to_number s with Some q => Num q | None => NaN end
  | _ => v
  end.

(** [df.replace(values, np.nan, inplace=True)]. *)
Definition df_replace (values : list string) (df : DataFrame) : DataFrame :=
  mkDF (columns df)
       (map (fun r : irow => (fst r, fun c => replace_with_nan values (snd r c)))
            (rows df)).

(** The loop [for c in num_cols: if c in df.columns: df[c] = to_numeric(df[c])]. *)
Definition coerce_columns (num_cols : list string) (df : DataFrame) : DataFrame :=
  fold_left (fun d c => if has_column c d
                        then assign c (fun r => to_numeric (r c)) d
                        else d)
            num_cols df.

(** [sort_values(c, ascending=...)]: absent keys last; a column mixing
    numbers and text cannot be ordered. *)
Definition sort_values (c : string) (ascending : bool) (df : DataFrame)
  : result DataFrame :=
  require c df ;;;
  if existsb is_num (column c df) && existsb is_str (column c df)
  then Raise (TypeError c)
  else Ok (mkDF (columns df)
                (sort_by (fun a b : irow => key_order ascending (snd a c) (snd b c))
                         (rows df))).

(* ================================================================== *)
(** * Part 2: the script                                              *)
(* ================================================================== *)

(** ** Data loading and cleaning *)

Definition na_vals : list string :=
  [ "Not Available";
    "Not Applicable";
    "NA";
    "";
    "Too Few to Report";
    "Number of Cases Too Small";
    "Number of cases too small" ].

Definition load_data_num_cols : list string :=
  [ "Score";
    "Denominator";
    "Number of Patients";
    "Number of Patients Returned";
    "Lower Estimate";
    "Higher Estimate" ].

Definition load_data (f : csv) : DataFrame :=
  let df := read_csv f in
  let df := df_replace na_vals df in
  coerce_columns load_data_num_cols df.

Definition load_state_level_data_num_cols : list string :=
  [ "Number of Hospitals Worse";
    "Number of Hospitals Same";
    "Number of Hospitals Better";
    "Number of Hospitals Too Few";
    "Number of Hospitals Fewer";
    "Number of Hospitals Average";
    "Number of Hospitals More";
    "Number of Hospitals Too Small" ].

Definition load_state_level_data (f : csv) : DataFrame :=
  let df := read_csv f in
  coerce_columns load_state_level_data_num_cols df.

(** ** Measure groups *)

Definition EDAC : string := "EDAC – Excess Hospital Return Days".
Definition HWR : string := "Hospital-Wide Readmission Ratio".
Definition PROCEDURE : string := "Procedure / Outpatient Visit Rates".
Definition CONDITION : string := "Condition-Specific 30-Day Readmission Rates".

Definition MEASURE_GROUPS : list (string * list string) :=
  [ (EDAC,
     [ "Hospital return days for heart attack patients";
       "Hospital return days for heart failure patients";
       "Hospital return days for pneumonia patients" ]);
    (HWR,
     [ "Hybrid Hospital-Wide All-Cause Readmission Measure (HWR)" ]);
    (PROCEDURE,
     [ "Rate of unplanned hospital visits after colonoscopy (per 1,000 colonoscopies)";
       "Rate of inpatient admissions for patients receiving outpatient chemotherapy";
       "Rate of emergency department (ED) visits for patients receiving outpatient chemotherapy";
       "Ratio of unplanned hospital visits after hospital outpatient surgery" ]);
    (CONDITION,
     [ "Acute Myocardial Infarction (AMI) 30-Day Readmission Rate";
       "Heart failure (HF) 30-Day Readmission Rate";
       "Pneumonia (PN) 30-Day Readmission Rate";
       "Rate of readmission for CABG";
       "Rate of readmission for chronic obstructive pulmonary disease (COPD) patients";
       "Rate of readmission after hip/knee replacement" ]) ].

(** Dictionary lookup. *)
Fixpoint lookup {V : Type} (k : string) (d : list (string * V)) : option V :=
  match d with
  | [] => None
  | (k', v) :: d' => if String.eqb k k' then Some v else lookup k d'
  end.

(** The options of the "Measure Group" select box. *)
Definition group_options : list string := map fst MEASURE_GROUPS.

(** ** Sidebar filters (lines 180-182; lines 529-536 are the same code on the
    state table) *)

Definition apply_filters (df_raw : DataFrame)
  (selected_measures selected_states : list string) : result DataFrame :=
  require "Measure Name" df_raw ;;;
  let df := select (fun r => isin selected_measures (r "Measure Name")) df_raw in
  match selected_states with
  | [] => Ok df
  | _ :: _ =>
      require "State" df ;;;
      Ok (select (fun r => isin selected_states (r "State")) df)
  end.

(** ** KPI row *)

Record kpi_row : Type := mkKPI {
  kpi_hospitals : nat;
  kpi_measures : nat;
  kpi_coverage : cell;            (* valid_score.mean() *)
  kpi_average : option cell       (* None is the "N/A" label *)
}.

Definition valid_score (df : DataFrame) : list bool :=
  map notna (column "Score" df).

Definition kpi (df : DataFrame) : result kpi_row :=
  require "Score" df ;;;
  require "Facility ID" df ;;;
  require "Measure Name" df ;;;
  let hospitals := nunique (column "Facility ID" df) in
  let measures := nunique (column "Measure Name" df) in
  let coverage := bool_mean (valid_score df) in
  if existsb (fun b : bool => b) (valid_score df) then
    require_numeric "Score" df ;;;
    Ok (mkKPI hospitals measures coverage
              (Some (mean (numbers (column "Score"
                                      (select (fun r => notna (r "Score")) df))))))
  else
    Ok (mkKPI hospitals measures coverage None).

(** ** Tab 1: performance against the national benchmark *)

Definition perf (df : DataFrame) : result (list (key * nat)) :=
  let df_perf := df in
  require "Compared to National" df_perf ;;;
  let df_perf :=
    assign "Compared to National Display"
           (fun r => fillna (r "Compared to National") (Str "Not Available"))
           df_perf in
  g <- groupby ["Measure Name"; "Compared to National Display"] df_perf ;;
  Ok (size g).

(** ** Tab 2: volume *)

Inductive volume : Type :=
| VolumeNotApplicable
| VolumeData (df_scatter top_vol : DataFrame).

Definition tab2 (selected_group : string) (df : DataFrame) : result volume :=
  if negb (String.eqb selected_group "EDAC – Excess Hospital Return Days") then
    Ok VolumeNotApplicable
  else
    df_scatter <- dropna_any ["Score"; "Number of Patients"] df ;;
    require "Number of Patients Returned" df_scatter ;;;
    let df_scatter :=
      assign "bubble_size"
             (fun r => fillna (r "Number of Patients Returned")
                              (r "Number of Patients"))
             df_scatter in
    sorted <- sort_values "Number of Patients" false df_scatter ;;
    let top_vol := head 15 sorted in
    shown <- getitems ["Facility Name"; "State"; "Number of Patients"; "Score"]
                      top_vol ;;
    Ok (VolumeData df_scatter shown).

(** ** Tab 3: state averages *)

Definition state_avg (df : DataFrame) : result (list (key * cell)) :=
  require "Score" df ;;;
  let scored := select (fun r => notna (r "Score")) df in
  g <- groupby ["State"] scored ;;
  group_mean "Score" g.

(** ** Tab 4: rankings *)

Definition ranked (df : DataFrame) : result DataFrame :=
  require "Score" df ;;;
  sort_values "Score" false (select (fun r => notna (r "Score")) df).

Definition tab4 (df : DataFrame) : result (DataFrame * DataFrame) :=
  rk <- ranked df ;;
  worst_10 <- getitems ["Facility Name"; "State"; "Score"] (head 10 rk) ;;
  best_10 <- sort_values "Score" true (tail 10 rk) ;;
  best_10 <- getitems ["Facility Name"; "State"; "Score"] best_10 ;;
  Ok (worst_10, best_10).

(** ** Tab 5: state benchmark *)

Record benchmark_config : Type := mkConfig {
  cfg_columns : list string;
  cfg_colors : list (string * string)
}.

Definition GREEN : string := "rgba(102, 187, 106, 0.75)".
Definition BLUE : string := "rgba(100, 181, 246, 0.75)".
Definition RED : string := "rgba(239, 83, 80, 0.75)".
Definition GREY : string := "rgba(189, 189, 189, 0.6)".

Definition edac_config : benchmark_config :=
  mkConfig [ "Number of Hospitals Fewer";
             "Number of Hospitals Average";
             "Number of Hospitals More";
             "Number of Hospitals Too Small" ]
           [ ("Number of Hospitals Fewer", GREEN);
             ("Number of Hospitals Average", BLUE);
             ("Number of Hospitals More", RED);
             ("Number of Hospitals Too Small", GREY) ].

Definition rate_config : benchmark_config :=
  mkConfig [ "Number of Hospitals Better";
             "Number of Hospitals Same";
             "Number of Hospitals Worse";
             "Number of Hospitals Too Small" ]
           [ ("Number of Hospitals Better", GREEN);
             ("Number of Hospitals Same", BLUE);
             ("Number of Hospitals Worse", RED);
             ("Number of Hospitals Too Small", GREY) ].

Definition STATE_BENCHMARK_CONFIG : list (string * benchmark_config) :=
  [ ("EDAC – Excess Hospital Return Days", edac_config);
    ("Hospital-Wide Readmission Ratio", rate_config);
    ("Procedure / Outpatient Visit Rates", rate_config);
    ("Condition-Specific 30-Day Readmission Rates", rate_config) ].

Inductive benchmark : Type :=
| BenchmarkUnavailable
| BenchmarkData (state_filtered state_long table : DataFrame).

Definition tab5 (selected_group : string)
  (selected_measures selected_states : list string) (df_state : DataFrame)
  : result benchmark :=
  match lookup selected_group STATE_BENCHMARK_CONFIG with
  | None => Ok BenchmarkUnavailable
  | Some config =>
      let value_cols := cfg_columns config in
      state_filtered <- apply_filters df_state selected_measures selected_states ;;
      state_filtered <- dropna_all value_cols state_filtered ;;
      state_long <- melt ["State"; "Measure Name"] value_cols
                         "Performance" "Hospitals" state_filtered ;;
      table <- getitems (["State"; "Measure Name"] ++ value_cols) state_filtered ;;
      table <- sort_values (nth (List.length value_cols - 2) value_cols "") false
                           table ;;
      Ok (BenchmarkData state_filtered state_long table)
  end.

(** ** Sidebar (lines 160-177) *)



(** The options of the "State" multiselect:
    [sorted(df_raw["State"].dropna().unique())].  Sorting numbers together
    with text raises. *)
Definition state_options (df_raw : DataFrame) : result (list cell) :=
  require "State" df_raw ;;;
  let states := unique cell_eqb (filter notna (column "State" df_raw)) in
  if existsb is_num states && existsb is_str states
  then Raise (TypeError "State")
  else Ok (isort_by cell_leb states).

(** ** Tab 3: the table under the map (lines 386-390) *)

Definition tab3_state_table (df : DataFrame) : result DataFrame :=
  avg <- state_avg df ;;
  let state_avg_frame := reset_index ["State"] "Score" avg in
  sorted <- sort_values "Score" false state_avg_frame ;;
  Ok (rename "Score" "Average Score" sorted).

(** ** Tab 5: order of the legend (lines 499-511) *)

Definition PERF_ORDER_STATE : list string :=
  [ "Number of Hospitals Fewer";
    "Number of Hospitals Better";
    "Number of Hospitals Average";
    "Number of Hospitals Same";
    "Number of Hospitals More";
    "Number of Hospitals Worse";
    "Number of Hospitals Too Small";
    "Not Available" ].

(** ** The script from top to bottom

    What one run computes from the two files and the choices of the sidebar;
    a step that raises ends the run. *)



End Script.

(** ** An instance of the two parameters

    A parser for plain decimal numbers ("12", "15.2", "-3.50") and insertion
    sort ([isort_by], above): enough to run the script on concrete tables. *)

Definition digit_of (a : ascii) : option Z :=
  let n := nat_of_ascii a in
  if (48 <=? n) && (n <=? 57) then Some (Z.of_nat (n - 48)) else None.

Fixpoint parse_fraction (s : string) (num : Z) (den : positive) : option Q :=
  match s with
  | EmptyString => Some (num # den)
  | String a s' =>
      match digit_of a with
      | Some d => parse_fraction s' (10 * num + d)%Z (10 * den)%positive
      | None => None
      end
  end.

Fixpoint parse_digits (s : string) (num : Z) (seen : bool) : option Q :=
  match s with
  | EmptyString => if seen then Some (num # 1) else None
  | String a s' =>
      if Ascii.eqb a "."%char then
        (if seen then parse_fraction s' num 1 else None)
      else
        match digit_of a with
        | Some d => parse_digits s' (10 * num + d)%Z true
        | None => None
        end
  end.

Definition parse_decimal (s : string) : option Q :=
  match s with
  | String a s' =>
      if Ascii.eqb a "-"%char then option_map Qopp (parse_digits s' 0%Z false)
      else parse_digits s 0%Z false
  | EmptyString => None
  end.

(* ================================================================== *)
(** * Part 3: the vocabulary of the properties                        *)
(* ================================================================== *)

(** ** Loaded tables *)

(** The columns the script reads from the hospital table. *)
Definition HOSPITAL_COLUMNS : list string :=
  [ "Facility ID"; "Facility Name"; "State"; "Measure Name"; "Score";
    "Number of Patients"; "Number of Patients Returned";
    "Compared to National" ].

(** The columns the script reads from the state table. *)
Definition STATE_COLUMNS : list string :=
  "State" :: "Measure Name" :: load_state_level_data_num_cols.

Definition numeric_column (c : string) (df : DataFrame) : bool :=
  negb (existsb is_str (column c df)).

Fixpoint distinct (l : list nat) : bool :=
  match l with
  | [] => true
  | x :: l' => negb (existsb (Nat.eqb x) l') && distinct l'
  end.

(** What a loaded table is to the rest of the script: it has the columns
    that are read, the coerced columns hold no text, and the index labels are
    distinct; the state table has no column called "Hospitals", the name tab 5
    gives to the value column of its long form.  The loaders return such
    tables ([load_data_hospital_table], [load_state_level_data_state_table]
    below) and the filter keeps them. *)
Definition hospital_table (df : DataFrame) : bool :=
  forallb (fun c => has_column c df) HOSPITAL_COLUMNS
  && forallb (fun c => numeric_column c df) load_data_num_cols
  && distinct (map fst (rows df)).

Definition state_table (df : DataFrame) : bool :=
  forallb (fun c => has_column c df) STATE_COLUMNS
  && negb (has_column "Hospitals" df)
  && forallb (fun c => numeric_column c df) load_state_level_data_num_cols
  && distinct (map fst (rows df)).

(** Two lists of rows with the same labels whose cells are related, column by
    column, by [F]. *)
Definition cellwise (F : string -> cell -> cell) (l l' : list irow) : Prop :=
  Forall2 (fun a b : irow => fst b = fst a /\ forall c, snd b c = F c (snd a c))
          l l'.

(** ** The filter *)

Definition measure_in (selected_measures : list string) (r : irow) : bool :=
  isin selected_measures (snd r "Measure Name").

Definition state_in (selected_states : list string) (r : irow) : bool :=
  match selected_states with
  | [] => true
  | _ :: _ => isin selected_states (snd r "State")
  end.

(** ** Orders and groups *)

(** The order [sort_values] sorts the rows by. *)
Definition by_key (ascending : bool) (c : string) : irow -> irow -> bool :=
  fun a b => key_order ascending (snd a c) (snd b c).

(** A column read in descending (ascending) order of its numbers. *)
Definition descending (c : string) (df : DataFrame) : Prop :=
  exists qs, column c df = map Num qs
             /\ StronglySorted (fun p q => (q <= p)%Q) qs.

Definition ascending (c : string) (df : DataFrame) : Prop :=
  exists qs, column c df = map Num qs
             /\ StronglySorted (fun p q => (p <= q)%Q) qs.

(** The rows of a grouping whose key is complete. *)
Definition kept_rows (by_ : list string) (df : DataFrame) : list irow :=
  filter (fun r : irow => forallb notna (key_of by_ (snd r))) (rows df).

Definition count_true (l : list bool) : nat :=
  List.length (filter (fun b : bool => b) l).

(** ** The tables of the tabs *)

(** The category a row is counted under in the performance chart. *)
Definition display_category (r : row) : cell :=
  fillna (r "Compared to National") (Str "Not Available").

Definition perf_key (r : row) : key := [r "Measure Name"; display_category r].

(** The performance counts as the specification words them: counted over the
    rows with a score only. *)
Definition perf_scored_only (df : DataFrame) : result (list (key * nat)) :=
  perf (select (fun r => notna (r "Score")) df).

(** The rows that enter the average of a state: that state and a score. *)
Definition averaged (k : key) (r : irow) : bool :=
  key_eqb [snd r "State"] k && notna (snd r "Score").

(** A row of the state table has benchmark data when one of the counters of
    the group is present. *)
Definition has_benchmark_data (value_cols : list string) (r : irow) : bool :=
  existsb (fun c => notna (snd r c)) value_cols.

(** The long form of a list of rows, as tab 5 melts them. *)
Definition melted (value_cols : list string) (rs : list irow) : list row :=
  flat_map (fun v => map (fun r : irow =>
                            melt_row ["State"; "Measure Name"]
                                     "Performance" "Hospitals" v (snd r))
                         rs)
           value_cols.

(** Rows of a state and a measure, and the two totals of the reshape: the
    "Hospitals" values of the long form under a state and a measure, and the
    counters of one wide row. *)
Definition same_state_measure (s m : cell) (r : irow) : bool :=
  cell_eqb (snd r "State") s && cell_eqb (snd r "Measure Name") m.

Definition long_total (s m : cell) (state_long : DataFrame) : Q :=
  sum_cells (map (fun r : irow => snd r "Hospitals")
                 (filter (same_state_measure s m) (rows state_long))).

Definition wide_total (value_cols : list string) (r : irow) : Q :=
  sum_cells (map (snd r) value_cols).

(** Per kept row of tab 5: the long-form total of its state and measure, and
    the total of its own counters. *)
Definition benchmark_totals (value_cols : list string) (b : benchmark)
  : list (Q * Q) :=
  match b with
  | BenchmarkUnavailable => []
  | BenchmarkData state_filtered state_long _ =>
      map (fun r : irow =>
             (Qred (long_total (snd r "State") (snd r "Measure Name") state_long),
              Qred (wide_total value_cols r)))
          (rows state_filtered)
  end.

(** ** Orders of the tables *)

(** [x] may come before [y] in a column sorted in descending order: absent
    values are last, numbers go down. *)
Definition descends (x y : cell) : Prop :=
  match x, y with
  | _, NaN => True
  | Num p, Num q => (q <= p)%Q
  | _, _ => False
  end.

(** Two rows with the same label and the same cells in the columns [cs]. *)
Definition same_on (cs : list string) (x y : irow) : Prop :=
  fst y = fst x /\ forall c, In c cs -> snd y c = snd x c.

(** ** Example tables *)

Definition PN30 : string := "Pneumonia (PN) 30-Day Readmission Rate".

Definition RETURN_DAYS_PN : string := "Hospital return days for pneumonia patients".

(** The example of the specification: three hospitals, one without score
    and category. *)
Definition hospital_csv : csv :=
  mkCSV [ "Facility ID"; "Facility Name"; "State"; "Measure Name"; "Score";
          "Number of Patients"; "Number of Patients Returned";
          "Compared to National" ]
        [ [ "F1"; "First"; "CA"; PN30; "15.2"; "Not Applicable";
            "Not Applicable"; "Worse than expected" ];
          [ "F2"; "Second"; "CA"; PN30; "Not Available"; "Not Applicable";
            "Not Applicable"; "Not Available" ];
          [ "F3"; "Third"; "TX"; PN30; "10.0"; "Not Applicable";
            "Not Applicable"; "Better than expected" ] ].

(** An EDAC file: return days, with the number of patients and of patients
    returned. *)
Definition edac_csv : csv :=
  mkCSV [ "Facility ID"; "Facility Name"; "State"; "Measure Name"; "Score";
          "Number of Patients"; "Number of Patients Returned";
          "Compared to National" ]
        [ [ "F1"; "First"; "CA"; RETURN_DAYS_PN; "12.5"; "100"; "12";
            "More Days Than Average per 100 Discharges" ];
          [ "F2"; "Second"; "CA"; RETURN_DAYS_PN; "Not Available";
            "Not Available"; "Not Available"; "Number of Cases Too Small" ];
          [ "F3"; "Third"; "TX"; RETURN_DAYS_PN; "-4.1"; "250"; "Not Available";
            "Fewer Days Than Average per 100 Discharges" ] ].

(** A state file: a row whose four counters of the group are all absent,
    between two rows with data. *)
Definition state_csv : csv :=
  mkCSV ("State" :: "Measure Name" :: load_state_level_data_num_cols)
        [ [ "AL"; PN30; "1"; "2"; "3"; "Not Applicable";
            "Not Applicable"; "Not Applicable"; "Not Applicable"; "4" ];
          [ "AK"; PN30; "Not Available"; "Not Available"; "Not Available";
            "Not Applicable"; "Not Applicable"; "Not Applicable";
            "Not Applicable"; "Not Available" ];
          [ "AZ"; PN30; "Not Available"; "7"; "Not Available"; "Not Applicable";
            "Not Applicable"; "Not Applicable"; "Not Applicable"; "5" ] ].

(** A state file in which one state and measure come in two rows. *)
Definition state_csv_two_rows : csv :=
  mkCSV ("State" :: "Measure Name" :: load_state_level_data_num_cols)
        [ [ "AL"; PN30; "1"; "2"; "3"; "Not Applicable";
            "Not Applicable"; "Not Applicable"; "Not Applicable"; "4" ];
          [ "AL"; PN30; "10"; "20"; "30"; "Not Applicable";
            "Not Applicable"; "Not Applicable"; "Not Applicable"; "40" ] ].

(** A state file with a sentinel in a counter column and in a text column. *)
Definition state_csv_footnote : csv :=
  mkCSV [ "State"; "Measure Name"; "Number of Hospitals Worse"; "Footnote" ]
        [ [ "AL"; PN30; "Not Available"; "Not Available" ] ].

(** The loaded example tables, and the hospital tables after the filter. *)
Definition hospital_df : DataFrame := load_data parse_decimal hospital_csv.

Definition hospital_selection : DataFrame :=
  select (fun r => isin [PN30] (r "Measure Name")) hospital_df.

Definition edac_df : DataFrame := load_data parse_decimal edac_csv.

Definition edac_selection : DataFrame :=
  select (fun r => isin [RETURN_DAYS_PN] (r "Measure Name")) edac_df.

Definition state_df : DataFrame := load_state_level_data parse_decimal state_csv.

(** Twenty-four hospitals with the scores 0, 1, ..., 23. *)
Definition ranking_df : DataFrame :=
  mkDF HOSPITAL_COLUMNS
       (map (fun i : nat =>
               (i, fun c : string =>
                     if String.eqb c "Score" then Num (inject_Z (Z.of_nat i))
                     else if String.eqb c "Measure Name" then Str PN30
                     else if mem_string c ["Facility ID"; "Facility Name"; "State";
                                           "Compared to National"]
                          then Str "x"
                          else NaN))
            (seq 0 24)).

Definition ranking_selection : DataFrame :=
  select (fun r => isin [PN30] (r "Measure Name")) ranking_df.

(* ================================================================== *)
(** * Part 4: properties                                              *)
(* ================================================================== *)

(** ** Basic facts about the model *)

Lemma mem_string_iff (s : string) (l : list string) :
  mem_string s l = true <-> In s l.
Proof.
  unfold mem_string. rewrite existsb_exists. split.
  - intros (x & Hx & E). apply String.eqb_eq in E. now subst.
  - intros H. exists s. split; [assumption | apply String.eqb_refl].
Qed.

Lemma require_all_ok (cs : list string) (df : DataFrame) :
  require_all cs df = Ok tt <-> forallb (fun c => has_column c df) cs = true.
Proof.
  induction cs as [|c cs IH]; simpl.
  - tauto.
  - unfold require. destruct (has_column c df); simpl.
    + exact IH.
    + split; discriminate.
Qed.

Lemma require_all_incl (cs cs' : list string) (df : DataFrame) :
  incl cs cs' ->
  forallb (fun c => has_column c df) cs' = true ->
  require_all cs df = Ok tt.
Proof.
  intros Hi H. apply require_all_ok. rewrite forallb_forall in *.
  intros c Hc. apply H, Hi, Hc.
Qed.

Lemma cellwise_map (F : string -> cell -> cell) (l : list irow) :
  cellwise F l (map (fun r : irow => (fst r, fun c => F c (snd r c))) l).
Proof.
  induction l as [|a l IH]; simpl; constructor; auto.
Qed.

Lemma cellwise_id (l : list irow) : cellwise (fun _ v => v) l l.
Proof.
  induction l; constructor; auto.
Qed.

Lemma cellwise_trans (F G : string -> cell -> cell) (l1 l2 l3 : list irow) :
  cellwise F l1 l2 -> cellwise G l2 l3 ->
  cellwise (fun c v => G c (F c v)) l1 l3.
Proof.
  intros H. revert l3. induction H as [|a b l1 l2 [Hl Hc] _ IH]; intros l3 H3.
  - inversion H3. constructor.
  - inversion H3 as [|b' c' l2' l3' [Hl' Hc'] Hrest]; subst.
    constructor.
    + split; [congruence|]. intros c. now rewrite Hc', Hc.
    + now apply IH.
Qed.

Lemma cellwise_ext (F G : string -> cell -> cell) (l l' : list irow) :
  (forall c v, F c v = G c v) -> cellwise F l l' -> cellwise G l l'.
Proof.
  intros E H. induction H as [|a b l l' [Hl Hc] _ IH]; constructor; auto.
  split; [assumption|]. intros c. now rewrite Hc, E.
Qed.

Lemma cellwise_nth_error (F : string -> cell -> cell) (l l' : list irow)
  (i : nat) (a : irow) :
  cellwise F l l' -> nth_error l i = Some a ->
  exists b, nth_error l' i = Some b /\ fst b = fst a
            /\ forall c, snd b c = F c (snd a c).
Proof.
  intros H. revert i. induction H as [|x y l l' Hxy _ IH]; intros [|i] Hi;
    simpl in *; try discriminate.
  - injection Hi as <-. exists y. tauto.
  - now apply IH.
Qed.

Lemma cellwise_In (F : string -> cell -> cell) (l l' : list irow) (b : irow) :
  cellwise F l l' -> In b l' ->
  exists a, In a l /\ fst b = fst a /\ forall c, snd b c = F c (snd a c).
Proof.
  intros H. induction H as [|x y l l' Hxy _ IH]; simpl; intros Hb.
  - contradiction.
  - destruct Hb as [<-|Hb].
    + exists x. tauto.
    + destruct (IH Hb) as (a & Ha & Hrest). exists a. tauto.
Qed.

Lemma cellwise_labels (F : string -> cell -> cell) (l l' : list irow) :
  cellwise F l l' -> map fst l' = map fst l.
Proof.
  intros H. induction H as [|x y l l' [Hl _] _ IH]; simpl; congruence.
Qed.

Section Loading.

Variable to_number : string -> option Q.

Lemma to_numeric_idem (v : cell) :
  to_numeric to_number (to_numeric to_number v) = to_numeric to_number v.
Proof.
  destruct v as [|q|s]; simpl; try reflexivity.
  destruct (to_number s); reflexivity.
Qed.

Lemma to_numeric_not_str (v : cell) : is_str (to_numeric to_number v) = false.
Proof.
  destruct v as [|q|s]; simpl; try reflexivity.
  destruct (to_number s); reflexivity.
Qed.

Lemma coerce_columns_columns (cols : list string) (df : DataFrame) :
  columns (coerce_columns to_number cols df) = columns df.
Proof.
  unfold coerce_columns. revert df.
  induction cols as [|c cols IH]; intros df; simpl; [reflexivity|].
  rewrite IH. destruct (has_column c df) eqn:E; [|reflexivity].
  simpl. now rewrite E.
Qed.

(** The coercion loop, cell by cell: a cell changes exactly when its column
    is listed and exists. *)
Lemma coerce_columns_cells (cols : list string) (df : DataFrame) :
  cellwise (fun c v => if mem_string c cols && has_column c df
                       then to_numeric to_number v else v)
           (rows df) (rows (coerce_columns to_number cols df)).
Proof.
  unfold coerce_columns. revert df.
  induction cols as [|c cols IH]; intros df; simpl.
  - apply cellwise_id.
  - set (d := if has_column c df then _ else df).
    assert (Hcols : columns d = columns df).
    { unfold d. destruct (has_column c df) eqn:E; [|reflexivity].
      simpl. now rewrite E. }
    assert (Hstep : cellwise (fun c' v => if String.eqb c' c && has_column c df
                                          then to_numeric to_number v else v)
                             (rows df) (rows d)).
    { unfold d. destruct (has_column c df) eqn:E.
      - simpl. apply cellwise_ext with
          (F := fun c' v => if String.eqb c' c then to_numeric to_number v else v).
        + intros c' v. now rewrite andb_true_r.
        + generalize (rows df) as l.
          induction l as [|a l IHl]; simpl; constructor; auto.
          split; [reflexivity|]. intros c'. unfold set_cell. simpl.
          destruct (String.eqb c' c) eqn:Ec; [|reflexivity].
          apply String.eqb_eq in Ec. now subst.
      - apply cellwise_ext with (F := fun _ v => v).
        + intros c' v. now rewrite andb_false_r.
        + apply cellwise_id. }
    eapply cellwise_ext; [|exact (cellwise_trans _ _ _ _ _ Hstep (IH d))].
    intros c' v. simpl. unfold has_column in *. rewrite Hcols.
    destruct (String.eqb c' c) eqn:Ec; simpl; [|reflexivity].
    apply String.eqb_eq in Ec. subst c'.
    destruct (mem_string c (columns df)); simpl.
    + destruct (mem_string c cols); simpl;
        [apply to_numeric_idem | reflexivity].
    + now rewrite andb_false_r.
Qed.

Lemma combine_seq_nth {A : Type} (l : list A) (k i : nat) (x : A) :
  nth_error l i = Some x ->
  nth_error (combine (seq k (List.length l)) l) i = Some (k + i, x).
Proof.
  revert k i. induction l as [|y l IH]; intros k [|i] H; simpl in *;
    try discriminate.
  - injection H as ->. now rewrite Nat.add_0_r.
  - rewrite (IH (S k) i H). f_equal. f_equal. lia.
Qed.

Lemma read_csv_nth (f : csv) (i : nat) (rec : list string) :
  nth_error (records f) i = Some rec ->
  nth_error (rows (read_csv to_number f)) i
  = Some (i, read_record to_number f rec).
Proof.
  intros H. unfold read_csv. simpl.
  rewrite <- (length_map (read_record to_number f)).
  apply (combine_seq_nth _ 0). now rewrite nth_error_map, H.
Qed.

(** The cell of the loaded hospital table at record [i], column [c]. *)
Lemma load_data_cell (f : csv) (i : nat) (rec : list string) :
  nth_error (records f) i = Some rec ->
  exists r, nth_error (rows (load_data to_number f)) i = Some (i, r)
    /\ forall c,
         r c = let v := replace_with_nan na_vals (read_record to_number f rec c) in
               if mem_string c load_data_num_cols && mem_string c (header f)
               then to_numeric to_number v else v.
Proof.
  intros H. apply read_csv_nth in H.
  pose proof (coerce_columns_cells load_data_num_cols
                (df_replace na_vals (read_csv to_number f))) as Hc.
  pose proof (cellwise_map (fun _ v => replace_with_nan na_vals v)
                (rows (read_csv to_number f))) as Hr.
  pose proof (cellwise_trans _ _ _ _ _ Hr Hc) as Hrc.
  destruct (cellwise_nth_error _ _ _ _ _ Hrc H) as ([j r] & Hn & Hl & Hcell).
  simpl in Hl. subst j. exists r. split; [exact Hn|].
  intros c. apply Hcell.
Qed.

Lemma load_data_cell_inv (f : csv) (r : irow) :
  In r (rows (load_data to_number f)) ->
  exists rec, nth_error (records f) (fst r) = Some rec
    /\ forall c,
         snd r c = let v := replace_with_nan na_vals (read_record to_number f rec c) in
                   if mem_string c load_data_num_cols && mem_string c (header f)
                   then to_numeric to_number v else v.
Proof.
  intros H. apply In_nth_error in H. destruct H as [i Hi].
  destruct (nth_error (records f) i) as [rec|] eqn:E.
  - destruct (load_data_cell f i rec E) as (r' & Hn & Hc).
    rewrite Hn in Hi. injection Hi as <-. simpl. eauto.
  - exfalso. apply nth_error_None in E.
    assert (Hlen : List.length (rows (load_data to_number f))
                   = List.length (records f)).
    { pose proof (coerce_columns_cells load_data_num_cols
                    (df_replace na_vals (read_csv to_number f))) as Hc.
      apply Forall2_length in Hc. unfold load_data. rewrite <- Hc. simpl.
      rewrite length_map. unfold read_csv, irow. simpl.
      rewrite length_combine, length_seq, length_map. lia. }
    assert (i < List.length (rows (load_data to_number f))).
    { apply nth_error_Some. congruence. }
    lia.
Qed.

(** The same for the state table, which goes through no replacement. *)
Lemma load_state_level_data_cell (f : csv) (i : nat) (rec : list string) :
  nth_error (records f) i = Some rec ->
  exists r, nth_error (rows (load_state_level_data to_number f)) i = Some (i, r)
    /\ forall c,
         r c = let v := read_record to_number f rec c in
               if mem_string c load_state_level_data_num_cols
                  && mem_string c (header f)
               then to_numeric to_number v else v.
Proof.
  intros H. apply read_csv_nth in H.
  pose proof (coerce_columns_cells load_state_level_data_num_cols
                (read_csv to_number f)) as Hc.
  destruct (cellwise_nth_error _ _ _ _ _ Hc H) as ([j r] & Hn & Hl & Hcell).
  simpl in Hl. subst j. exists r. split; [exact Hn|].
  intros c. apply Hcell.
Qed.

Lemma replace_with_nan_clean (values : list string) (v : cell) (t : string) :
  In t values -> replace_with_nan values v <> Str t.
Proof.
  intros Ht. destruct v as [|q|s]; simpl; try discriminate.
  destruct (mem_string s values) eqn:E; [discriminate|].
  intros [= ->]. apply mem_string_iff in Ht. congruence.
Qed.

Lemma read_cell_cases (numeric : bool) (t : string) :
  read_cell to_number numeric t = NaN
  \/ read_cell to_number numeric t = Str t
  \/ exists q, to_number t = Some q /\ read_cell to_number numeric t = Num q.
Proof.
  unfold read_cell. destruct (is_na_text t); [now left|].
  destruct numeric; [|now right; left].
  destruct (to_number t) as [q|]; [right; right; eauto | now right; left].
Qed.

End Loading.

(** ** Loading: missing-value sentinels *)

Section Sentinels.

Variable to_number : string -> option Q.

(** No sentinel is the text of a number. *)
Hypothesis sentinel_not_number : forall t, In t na_vals -> to_number t = None.

(** C1 (as amended).  A cell of the hospital file whose text is a sentinel is
    absent in the loaded hospital table, in every column, and no cell of that
    table is a sentinel text.  In the loaded state table this holds for the
    eight counter columns, which are coerced to numbers, and for the texts
    "NA" and "" that [read_csv] reads as absent in every column; the counter
    columns hold no text at all; any other sentinel in any other column of
    the state file stays in the table as it is. *)
Theorem load_replaces_sentinels (f : csv) (i : nat) (rec : list string)
  (c t : string) :
  nth_error (records f) i = Some rec ->
  field (header f) rec c = Some t ->
  In t na_vals ->
  (exists r, nth_error (rows (load_data to_number f)) i = Some (i, r)
             /\ r c = NaN)
  /\ (forall r c' t', In r (rows (load_data to_number f)) ->
                      In t' na_vals -> snd r c' <> Str t')
  /\ (exists r, nth_error (rows (load_state_level_data to_number f)) i = Some (i, r)
               /\ (In c load_state_level_data_num_cols \/ t = "NA" \/ t = ""
                   -> r c = NaN)
               /\ (~ In c load_state_level_data_num_cols -> t <> "NA" -> t <> ""
                   -> r c = Str t))
  /\ (forall r c', In r (rows (load_state_level_data to_number f)) ->
                   In c' load_state_level_data_num_cols ->
                   is_str (snd r c') = false).
Proof.
  intros Hrec Hfield Ht.
  assert (Hhdr : mem_string c (header f) = true).
  { apply mem_string_iff. unfold field in Hfield.
    destruct (index_of c (header f)) as [k|] eqn:E; [|discriminate].
    clear - E. revert k E. induction (header f) as [|h l IH]; intros k E;
      simpl in *; [discriminate|].
    destruct (String.eqb c h) eqn:Ec.
    - left. symmetry. now apply String.eqb_eq.
    - right. destruct (index_of c l); [eapply IH; reflexivity | discriminate]. }
  assert (Hread : read_record to_number f rec c = NaN
                  \/ read_record to_number f rec c = Str t).
  { unfold read_record. rewrite Hfield.
    destruct (read_cell_cases to_number (infer_numeric to_number f c) t)
      as [H|[H|(q & Hq & _)]]; auto.
    rewrite (sentinel_not_number t Ht) in Hq. discriminate. }
  split; [|split; [|split]].
  - destruct (load_data_cell to_number f i rec Hrec) as (r & Hn & Hc).
    exists r. split; [exact Hn|]. rewrite Hc. cbv zeta.
    assert (Hv : replace_with_nan na_vals (read_record to_number f rec c) = NaN).
    { destruct Hread as [-> | ->]; [reflexivity|]. unfold replace_with_nan.
      apply mem_string_iff in Ht. now rewrite Ht. }
    rewrite Hv. now destruct (_ && _).
  - intros r c' t' Hr Ht'.
    destruct (load_data_cell_inv to_number f r Hr) as (rec' & _ & Hc).
    rewrite Hc. cbv zeta. destruct (_ && _).
    + intros E. pose proof (to_numeric_not_str to_number
        (replace_with_nan na_vals (read_record to_number f rec' c'))) as Hs.
      rewrite E in Hs. discriminate.
    + now apply replace_with_nan_clean.
  - destruct (load_state_level_data_cell to_number f i rec Hrec) as (r & Hn & Hc).
    exists r. split; [exact Hn|]. split.
    + intros Hcase. rewrite Hc. cbv zeta.
      destruct Hread as [-> | Hstr]; [now destruct (_ && _)|].
      destruct Hcase as [Hcol | Hna].
      * apply mem_string_iff in Hcol. rewrite Hcol, Hhdr, Hstr. simpl.
        now rewrite (sentinel_not_number t Ht).
      * exfalso. unfold read_record in Hstr. rewrite Hfield in Hstr.
        unfold read_cell in Hstr.
        assert (Hna' : is_na_text t = true)
          by (destruct Hna as [-> | ->]; reflexivity).
        rewrite Hna' in Hstr. discriminate.
    + intros Hcol Hna Hempty. rewrite Hc. cbv zeta.
      assert (Hmem : mem_string c load_state_level_data_num_cols = false).
      { destruct (mem_string c load_state_level_data_num_cols) eqn:E;
          [|reflexivity].
        apply mem_string_iff in E. contradiction. }
      rewrite Hmem. cbn [andb].
      unfold read_record. rewrite Hfield. unfold read_cell.
      assert (Hna' : is_na_text t = false).
      { simpl in Ht.
        repeat (destruct Ht as [<- | Ht]; [try reflexivity; congruence|]).
        contradiction. }
      rewrite Hna', (sentinel_not_number t Ht).
      now destruct (infer_numeric to_number f c).
  - intros r c' Hr Hc'.
    apply In_nth_error in Hr. destruct Hr as [j Hj].
    pose proof (coerce_columns_cells to_number load_state_level_data_num_cols
                  (read_csv to_number f)) as Hcw.
    destruct (cellwise_In _ _ _ r Hcw) as (a & Ha & _ & Hcell).
    { eapply nth_error_In. exact Hj. }
    rewrite Hcell. apply mem_string_iff in Hc'. rewrite Hc'.
    rewrite andb_true_l.
    destruct (has_column c' (read_csv to_number f)) eqn:Eh.
    + apply to_numeric_not_str.
    + (* a column that is not in the file reads as absent *)
      apply In_nth_error in Ha. destruct Ha as [k Hk].
      unfold read_csv in Hk. simpl in Hk.
      assert (Hsnd : exists rec', snd a = read_record to_number f rec').
      { apply nth_error_In in Hk. destruct a as [la ra].
        apply in_combine_r in Hk. simpl.
        apply in_map_iff in Hk. destruct Hk as (rec' & <- & _). eauto. }
      destruct Hsnd as (rec' & ->). unfold read_record, field.
      unfold has_column, read_csv in Eh. simpl in Eh.
      assert (Hidx : index_of c' (header f) = None).
      { clear - Eh. induction (header f) as [|h l IH]; [reflexivity|].
        simpl in *. destruct (String.eqb c' h); [discriminate|].
        simpl in Eh. now rewrite IH. }
      now rewrite Hidx.
Qed.

End Sentinels.

Lemma parse_decimal_sentinel (t : string) :
  In t na_vals -> parse_decimal t = None.
Proof.
  simpl. intros H.
  repeat (destruct H as [<- | H]; [reflexivity|]). contradiction.
Qed.

(** C1, an instance: the absent score of the second hospital. *)
Lemma load_replaces_sentinels_witness :
  exists r, nth_error (rows (load_data parse_decimal hospital_csv)) 1 = Some (1, r)
            /\ r "Score" = NaN.
Proof.
  refine (proj1 (load_replaces_sentinels parse_decimal parse_decimal_sentinel
                   hospital_csv 1
                   [ "F2"; "Second"; "CA"; PN30; "Not Available";
                     "Not Applicable"; "Not Applicable"; "Not Available" ]
                   "Score" "Not Available" _ _ _)).
  - reflexivity.
  - reflexivity.
  - simpl. tauto.
Defined.

(** C1 as stated fails on the state table: a sentinel outside the counter
    columns stays in the loaded table as it is (while the one in the counter
    column is absent). *)
Lemma load_state_level_data_keeps_sentinel :
  In "Not Available" na_vals
  /\ column "Footnote" (load_state_level_data parse_decimal state_csv_footnote)
     = [Str "Not Available"]
  /\ column "Number of Hospitals Worse"
            (load_state_level_data parse_decimal state_csv_footnote)
     = [NaN].
Proof.
  split; [simpl; tauto|]. split; reflexivity.
Qed.

(** ** Orders on cells *)

Lemma ascii_compare_N (a b : ascii) :
  Ascii.compare a b = N.compare (N_of_ascii a) (N_of_ascii b).
Proof. reflexivity. Qed.

Lemma string_leb_trans (s1 s2 s3 : string) :
  String.leb s1 s2 = true -> String.leb s2 s3 = true -> String.leb s1 s3 = true.
Proof.
  unfold String.leb. revert s2 s3.
  induction s1 as [|c1 s1 IH]; intros [|c2 s2] [|c3 s3]; simpl;
    try reflexivity; try discriminate.
  rewrite !ascii_compare_N.
  destruct (N.compare_spec (N_of_ascii c1) (N_of_ascii c2)) as [E12|L12|G12];
    destruct (N.compare_spec (N_of_ascii c2) (N_of_ascii c3)) as [E23|L23|G23];
    destruct (N.compare_spec (N_of_ascii c1) (N_of_ascii c3)) as [E13|L13|G13];
    try reflexivity; try discriminate; try lia.
  apply IH.
Qed.

Lemma cell_leb_total (a b : cell) : cell_leb a b = true \/ cell_leb b a = true.
Proof.
  destruct a as [|p|s], b as [|q|t]; simpl; auto.
  - rewrite !Qle_bool_iff. destruct (Qlt_le_dec p q) as [H|H]; auto.
    left. now apply Qlt_le_weak.
  - apply String.leb_total.
Qed.

Lemma cell_leb_trans (a b c : cell) :
  cell_leb a b = true -> cell_leb b c = true -> cell_leb a c = true.
Proof.
  destruct a as [|p|s], b as [|q|t], c as [|r|u]; simpl; auto; try discriminate.
  - rewrite !Qle_bool_iff. apply Qle_trans.
  - apply string_leb_trans.
Qed.

Lemma cell_geb_total (a b : cell) : cell_geb a b = true \/ cell_geb b a = true.
Proof.
  destruct a as [|p|s], b as [|q|t]; simpl; auto.
  - destruct (cell_leb_total (Num p) (Num q)); auto.
  - destruct (cell_leb_total (Str s) (Str t)); auto.
Qed.

Lemma cell_geb_trans (a b c : cell) :
  cell_geb a b = true -> cell_geb b c = true -> cell_geb a c = true.
Proof.
  destruct a as [|p|s], b as [|q|t], c as [|r|u]; simpl; auto; try discriminate.
  - rewrite !Qle_bool_iff. intros H1 H2. eapply Qle_trans; eassumption.
  - intros H1 H2. eapply string_leb_trans; eassumption.
Qed.

Lemma by_key_total (asc : bool) (c : string) (a b : irow) :
  by_key asc c a b = true \/ by_key asc c b a = true.
Proof.
  unfold by_key, key_order. destruct asc;
    [apply cell_leb_total | apply cell_geb_total].
Qed.

Lemma by_key_trans (asc : bool) (c : string) (x y z : irow) :
  by_key asc c x y = true -> by_key asc c y z = true -> by_key asc c x z = true.
Proof.
  unfold by_key, key_order. destruct asc;
    [apply cell_leb_trans | apply cell_geb_trans].
Qed.

(** ** Insertion sort is a sorting algorithm *)

Lemma insert_by_perm {A : Type} (le : A -> A -> bool) (x : A) (l : list A) :
  Permutation (x :: l) (insert_by le x l).
Proof.
  induction l as [|y l IH]; simpl; [reflexivity|].
  destruct (le x y); [reflexivity|].
  rewrite perm_swap. now constructor.
Qed.

Lemma isort_by_perm {A : Type} (le : A -> A -> bool) (l : list A) :
  Permutation l (isort_by le l).
Proof.
  induction l as [|x l IH]; simpl; [reflexivity|].
  rewrite <- insert_by_perm. now constructor.
Qed.

Lemma insert_by_sorted {A : Type} (le : A -> A -> bool) (x : A) (l : list A) :
  (forall a b, le a b = true \/ le b a = true) ->
  (forall a b c, le a b = true -> le b c = true -> le a c = true) ->
  StronglySorted (fun a b => le a b = true) l ->
  StronglySorted (fun a b => le a b = true) (insert_by le x l).
Proof.
  intros Htot Htr. induction 1 as [|y l Hs IH Hy]; simpl.
  - constructor; constructor.
  - destruct (le x y) eqn:E.
    + constructor; [constructor; assumption|].
      constructor; [assumption|].
      rewrite Forall_forall in *. intros z Hz. eapply Htr; eauto.
    + constructor; [assumption|].
      rewrite Forall_forall in *. intros z Hz.
      apply (Permutation_in _ (Permutation_sym (insert_by_perm le x l))) in Hz.
      destruct Hz as [<- | Hz]; [|auto].
      destruct (Htot x y) as [H|H]; [congruence | assumption].
Qed.

Lemma isort_by_sorted {A : Type} (le : A -> A -> bool) (l : list A) :
  (forall a b, le a b = true \/ le b a = true) ->
  (forall a b c, le a b = true -> le b c = true -> le a c = true) ->
  StronglySorted (fun a b => le a b = true) (isort_by le l).
Proof.
  intros Htot Htr. induction l as [|x l IH]; simpl.
  - constructor.
  - now apply insert_by_sorted.
Qed.

(** ** Frames: selection keeps what a table is *)

Lemma distinct_NoDup (l : list nat) : distinct l = true <-> NoDup l.
Proof.
  induction l as [|x l IH]; simpl.
  - split; [constructor | reflexivity].
  - rewrite andb_true_iff, negb_true_iff, IH. split.
    + intros [Hx Hl]. constructor; [|assumption].
      intros Hin. assert (existsb (Nat.eqb x) l = true); [|congruence].
      apply existsb_exists. exists x. split; [assumption | apply Nat.eqb_refl].
    + intros H. inversion H as [|? ? Hx Hl]; subst. split; [|assumption].
      destruct (existsb (Nat.eqb x) l) eqn:E; [|reflexivity].
      apply existsb_exists in E. destruct E as (y & Hy & Exy).
      apply Nat.eqb_eq in Exy. subst. contradiction.
Qed.

Lemma NoDup_map_filter {A B : Type} (f : A -> B) (p : A -> bool) (l : list A) :
  NoDup (map f l) -> NoDup (map f (filter p l)).
Proof.
  induction l as [|x l IH]; simpl; intros H; [constructor|].
  inversion H as [|? ? Hx Hl]; subst.
  destruct (p x); simpl; [|auto].
  constructor; [|auto].
  intros Hin. apply Hx. apply in_map_iff in Hin.
  destruct Hin as (y & Ey & Hy). apply filter_In in Hy.
  apply in_map_iff. exists y. tauto.
Qed.

Lemma existsb_filter_false {A : Type} (q p : A -> bool) (l : list A) :
  existsb q l = false -> existsb q (filter p l) = false.
Proof.
  induction l as [|x l IH]; simpl; [reflexivity|].
  rewrite orb_false_iff. intros [Hx Hl].
  destruct (p x); simpl; [rewrite Hx|]; auto.
Qed.

Lemma numeric_column_select (c : string) (p : row -> bool) (df : DataFrame) :
  numeric_column c df = true -> numeric_column c (select p df) = true.
Proof.
  unfold numeric_column, column, select. simpl.
  rewrite !negb_true_iff.
  intros H. destruct (existsb is_str (map _ (filter _ _))) eqn:E; [|reflexivity].
  apply existsb_exists in E. destruct E as (v & Hv & Hs).
  apply in_map_iff in Hv. destruct Hv as (r & <- & Hr). apply filter_In in Hr.
  assert (existsb is_str (map (fun r : irow => snd r c) (rows df)) = true).
  { apply existsb_exists. exists (snd r c). split; [|assumption].
    apply in_map_iff. exists r. tauto. }
  congruence.
Qed.

Lemma hospital_table_select (p : row -> bool) (df : DataFrame) :
  hospital_table df = true -> hospital_table (select p df) = true.
Proof.
  unfold hospital_table. rewrite !andb_true_iff. intros [[Hc Hn] Hd].
  repeat split.
  - exact Hc.
  - rewrite forallb_forall in *. intros c Hin.
    apply numeric_column_select. auto.
  - apply distinct_NoDup. apply NoDup_map_filter. now apply distinct_NoDup.
Qed.

Lemma state_table_select (p : row -> bool) (df : DataFrame) :
  state_table df = true -> state_table (select p df) = true.
Proof.
  unfold state_table. rewrite !andb_true_iff. intros [[[Hc Hh] Hn] Hd].
  repeat split.
  - exact Hc.
  - exact Hh.
  - rewrite forallb_forall in *. intros c Hin.
    apply numeric_column_select. auto.
  - apply distinct_NoDup. apply NoDup_map_filter. now apply distinct_NoDup.
Qed.

Lemma filter_true {A : Type} (l : list A) : filter (fun _ => true) l = l.
Proof.
  induction l as [|x l IH]; simpl; congruence.
Qed.

(** The filter never raises on a table that has the two columns, and keeps
    the rows that pass both tests. *)
Lemma apply_filters_ok (df_raw : DataFrame) (sm ss : list string) :
  has_column "Measure Name" df_raw = true ->
  has_column "State" df_raw = true ->
  exists df, apply_filters df_raw sm ss = Ok df
    /\ columns df = columns df_raw
    /\ rows df = filter (state_in ss) (filter (measure_in sm) (rows df_raw)).
Proof.
  intros Hm Hs. unfold apply_filters, require. rewrite Hm. simpl.
  destruct ss as [|s ss].
  - eexists. split; [reflexivity|]. split; [reflexivity|].
    simpl. unfold state_in. now rewrite filter_true.
  - unfold has_column in *. simpl. unfold has_column. simpl. rewrite Hs. simpl.
    eexists. split; [reflexivity|]. split; reflexivity.
Qed.

Lemma hospital_table_columns (df : DataFrame) (c : string) :
  hospital_table df = true -> In c HOSPITAL_COLUMNS -> has_column c df = true.
Proof.
  unfold hospital_table. rewrite !andb_true_iff. intros [[Hc _] _] Hin.
  rewrite forallb_forall in Hc. auto.
Qed.

Lemma state_table_columns (df : DataFrame) (c : string) :
  state_table df = true -> In c STATE_COLUMNS -> has_column c df = true.
Proof.
  unfold state_table. rewrite !andb_true_iff. intros [[[Hc _] _] _] Hin.
  rewrite forallb_forall in Hc. auto.
Qed.

Lemma apply_filters_hospital (df_raw df : DataFrame) (sm ss : list string) :
  hospital_table df_raw = true ->
  apply_filters df_raw sm ss = Ok df ->
  hospital_table df = true
  /\ rows df = filter (state_in ss) (filter (measure_in sm) (rows df_raw)).
Proof.
  intros Ht Hf.
  destruct (apply_filters_ok df_raw sm ss) as (df' & Hf' & Hc & Hr).
  - apply hospital_table_columns; [assumption | simpl; tauto].
  - apply hospital_table_columns; [assumption | simpl; tauto].
  - rewrite Hf in Hf'. injection Hf' as <-. split; [|assumption].
    pose proof (hospital_table_select (fun r => state_in ss (0, r))
                  (select (fun r => measure_in sm (0, r)) df_raw)
                  (hospital_table_select _ _ Ht)) as H.
    unfold hospital_table in *. unfold has_column, numeric_column, column in *.
    simpl in H. unfold measure_in, state_in in *. simpl in *.
    rewrite Hc, Hr. exact H.
Qed.

Section LoadedTables.

Variable to_number : string -> option Q.

(** *** The loaders return tables *)

Lemma index_of_None (c : string) (hdr : list string) :
  mem_string c hdr = false -> index_of c hdr = None.
Proof.
  induction hdr as [|h l IH]; simpl; [reflexivity|].
  destruct (String.eqb c h); [discriminate|]. simpl.
  intros H. now rewrite IH.
Qed.

Lemma read_record_missing (f : csv) (rec : list string) (c : string) :
  mem_string c (header f) = false -> read_record to_number f rec c = NaN.
Proof.
  intros H. unfold read_record, field. now rewrite (index_of_None _ _ H).
Qed.

Lemma read_csv_rows_In (f : csv) (a : irow) :
  In a (rows (read_csv to_number f)) ->
  exists rec, In rec (records f) /\ snd a = read_record to_number f rec.
Proof.
  unfold read_csv. cbn [rows]. destruct a as [i r]. intros H.
  apply in_combine_r in H. apply in_map_iff in H.
  destruct H as (rec & <- & Hrec). eauto.
Qed.

Lemma map_fst_combine_seq {A : Type} (k : nat) (l : list A) :
  map fst (combine (seq k (List.length l)) l) = seq k (List.length l).
Proof.
  revert k. induction l as [|x l IH]; intros k; simpl; [reflexivity|].
  now rewrite IH.
Qed.

Lemma read_csv_labels (f : csv) :
  map fst (rows (read_csv to_number f)) = seq 0 (List.length (records f)).
Proof.
  unfold read_csv. cbn [rows].
  rewrite <- (length_map (read_record to_number f)).
  apply map_fst_combine_seq.
Qed.

Lemma numeric_column_cells (c : string) (df : DataFrame) :
  (forall r, In r (rows df) -> is_str (snd r c) = false) ->
  numeric_column c df = true.
Proof.
  intros H. unfold numeric_column, column. apply negb_true_iff.
  destruct (existsb is_str _) eqn:E; [|reflexivity].
  apply existsb_exists in E. destruct E as (v & Hv & Hs).
  apply in_map_iff in Hv. destruct Hv as (r & <- & Hr).
  rewrite (H r Hr) in Hs. discriminate.
Qed.

(** A hospital file with the columns the script reads loads into a hospital
    table. *)
Lemma load_data_hospital_table (f : csv) :
  forallb (fun c => mem_string c (header f)) HOSPITAL_COLUMNS = true ->
  hospital_table (load_data to_number f) = true.
Proof.
  intros Hhdr. unfold hospital_table. rewrite !andb_true_iff.
  pose proof (coerce_columns_cells to_number load_data_num_cols
                (df_replace na_vals (read_csv to_number f))) as Hcw.
  fold (load_data to_number f) in Hcw.
  split; [split|].
  - unfold has_column, load_data. rewrite coerce_columns_columns. exact Hhdr.
  - apply forallb_forall. intros c Hc. apply numeric_column_cells.
    intros r Hr. destruct (cellwise_In _ _ _ r Hcw Hr) as (a & Ha & _ & Hcell).
    rewrite Hcell. apply mem_string_iff in Hc. rewrite Hc. cbn [andb].
    destruct (has_column c (df_replace na_vals (read_csv to_number f))) eqn:E.
    + apply (to_numeric_not_str to_number).
    + unfold df_replace in Ha. cbn [rows] in Ha. apply in_map_iff in Ha.
      destruct Ha as (b & <- & Hb). cbn [snd].
      destruct (read_csv_rows_In f b Hb) as (rec & _ & ->).
      rewrite read_record_missing; [reflexivity | exact E].
  - apply distinct_NoDup. rewrite (cellwise_labels _ _ _ Hcw).
    unfold df_replace. cbn [rows]. rewrite map_map. cbn [fst].
    rewrite read_csv_labels. apply seq_NoDup.
Qed.


End LoadedTables.

(** ** KPI row: data coverage *)

Lemma filter_none {A : Type} (p : A -> bool) (l : list A) :
  (forall x, In x l -> p x = false) -> filter p l = [].
Proof.
  induction l as [|x l IH]; simpl; intros H; [reflexivity|].
  rewrite (H x (or_introl eq_refl)). auto.
Qed.

Lemma filter_all {A : Type} (p : A -> bool) (l : list A) :
  (forall x, In x l -> p x = true) -> filter p l = l.
Proof.
  induction l as [|x l IH]; simpl; intros H; [reflexivity|].
  rewrite (H x (or_introl eq_refl)). f_equal. auto.
Qed.

Lemma Qsum_indicator (l : list bool) :
  (Qsum (map (fun b : bool => if b then 1 else 0) l)
   == inject_Z (Z.of_nat (count_true l)))%Q.
Proof.
  unfold count_true. induction l as [|b l IH]; simpl; [reflexivity|].
  rewrite IH. destruct b; simpl List.length.
  - rewrite Nat2Z.inj_succ, <- Z.add_1_l, inject_Z_plus. reflexivity.
  - apply Qplus_0_l.
Qed.

Lemma count_true_le (l : list bool) : count_true l <= List.length l.
Proof. apply filter_length_le. Qed.

Lemma bool_mean_nil : bool_mean [] = NaN.
Proof. reflexivity. Qed.

Lemma bool_mean_ratio (l : list bool) :
  l <> [] ->
  exists q, bool_mean l = Num q
    /\ (q == inject_Z (Z.of_nat (count_true l))
            / inject_Z (Z.of_nat (List.length l)))%Q
    /\ (0 <= q)%Q /\ (q <= 1)%Q.
Proof.
  intros Hl. unfold bool_mean, mean.
  destruct (map _ l) as [|x m] eqn:E.
  { destruct l; [contradiction | discriminate]. }
  rewrite <- E. eexists. split; [reflexivity|].
  rewrite length_map.
  assert (Hlen : 0 < List.length l) by (destruct l; [contradiction | simpl; lia]).
  assert (Hpos : (0 < inject_Z (Z.of_nat (List.length l)))%Q).
  { change 0%Q with (inject_Z 0). rewrite <- Zlt_Qlt. lia. }
  assert (Heq : (Qsum (map (fun b : bool => if b then 1 else 0) l)
                 / inject_Z (Z.of_nat (List.length l))
                 == inject_Z (Z.of_nat (count_true l))
                    / inject_Z (Z.of_nat (List.length l)))%Q).
  { now rewrite Qsum_indicator. }
  split; [exact Heq|]. rewrite Heq. split.
  - apply Qle_shift_div_l; [assumption|]. rewrite Qmult_0_l.
    change 0%Q with (inject_Z 0). rewrite <- Zle_Qle. lia.
  - apply Qle_shift_div_r; [assumption|]. rewrite Qmult_1_l.
    rewrite <- Zle_Qle. pose proof (count_true_le l). lia.
Qed.

Lemma count_true_valid_score (df : DataFrame) :
  count_true (valid_score df)
  = List.length (filter (fun r : irow => notna (snd r "Score")) (rows df)).
Proof.
  unfold count_true, valid_score, column. rewrite map_map.
  induction (rows df) as [|r l IH]; simpl; [reflexivity|].
  destruct (notna (snd r "Score")); simpl; now rewrite IH.
Qed.

Lemma kpi_ok (df : DataFrame) :
  hospital_table df = true ->
  exists k, kpi df = Ok k /\ kpi_coverage k = bool_mean (valid_score df).
Proof.
  intros Ht. unfold kpi, require.
  rewrite !(hospital_table_columns df _ Ht) by (simpl; tauto). simpl.
  assert (Hn : require_numeric "Score" df = Ok tt).
  { unfold require_numeric. unfold hospital_table in Ht.
    rewrite !andb_true_iff in Ht. destruct Ht as [[_ Hn] _].
    rewrite forallb_forall in Hn.
    specialize (Hn "Score" (or_introl eq_refl)).
    unfold numeric_column in Hn. apply negb_true_iff in Hn. now rewrite Hn. }
  rewrite Hn. simpl.
  destruct (existsb _ (valid_score df)); eexists; split; reflexivity.
Qed.

(** C3 (as amended).  On a filtered hospital table with at least one row the
    coverage ratio is the number of rows with a score divided by the number
    of rows, lies in [0,1], is 0 when every score is absent and 1 when none
    is. *)
Theorem coverage_ratio (df_raw df : DataFrame) (sm ss : list string) :
  hospital_table df_raw = true ->
  apply_filters df_raw sm ss = Ok df ->
  exists k, kpi df = Ok k
    /\ (rows df <> [] ->
        exists q, kpi_coverage k = Num q
          /\ (q == inject_Z (Z.of_nat
                     (List.length (filter (fun r : irow => notna (snd r "Score"))
                                          (rows df))))
                  / inject_Z (Z.of_nat (List.length (rows df))))%Q
          /\ (0 <= q)%Q /\ (q <= 1)%Q
          /\ ((forall r, In r (rows df) -> snd r "Score" = NaN) -> (q == 0)%Q)
          /\ ((forall r, In r (rows df) -> snd r "Score" <> NaN) -> (q == 1)%Q)).
Proof.
  intros Ht Hf. destruct (apply_filters_hospital _ _ _ _ Ht Hf) as [Hdf _].
  destruct (kpi_ok df Hdf) as (k & Hk & Hcov).
  exists k. split; [exact Hk|]. rewrite Hcov.
  intros Hne.
  assert (Hv : valid_score df <> []).
  { unfold valid_score, column. destruct (rows df); [contradiction | discriminate]. }
  destruct (bool_mean_ratio _ Hv) as (q & Hq & Heq & H0 & H1).
  exists q. split; [exact Hq|].
  rewrite count_true_valid_score in Heq.
  assert (Hlen : List.length (valid_score df) = List.length (rows df)).
  { unfold valid_score, column. now rewrite !length_map. }
  rewrite Hlen in Heq.
  assert (Hpos : ~ (inject_Z (Z.of_nat (List.length (rows df))) == 0)%Q).
  { change 0%Q with (inject_Z 0). rewrite inject_Z_injective.
    destruct (rows df); [contradiction | simpl; lia]. }
  split; [exact Heq|]. split; [exact H0|]. split; [exact H1|]. split.
  - intros Hall. rewrite Heq.
    replace (filter _ (rows df)) with (@nil irow).
    + simpl. unfold Qdiv. apply Qmult_0_l.
    + symmetry. apply filter_none.
      intros r Hr. now rewrite (Hall r Hr).
  - intros Hnone. rewrite Heq.
    replace (filter _ (rows df)) with (rows df).
    + unfold Qdiv. now apply Qmult_inv_r.
    + symmetry. apply filter_all.
      intros r Hr. specialize (Hnone r Hr).
      now destruct (snd r "Score").
Qed.

(** C3, an instance: the example of the specification, coverage 2/3. *)
Lemma coverage_ratio_witness :
  exists k,
    kpi hospital_selection = Ok k
    /\ exists q, kpi_coverage k = Num q
         /\ (q == inject_Z (Z.of_nat 2) / inject_Z (Z.of_nat 3))%Q.
Proof.
  destruct (coverage_ratio hospital_df hospital_selection
              [PN30] [] eq_refl eq_refl) as (k & Hk & Hq).
  exists k. split; [exact Hk|].
  destruct (Hq ltac:(discriminate)) as (q & Hc & He & _).
  exists q. split; [exact Hc | exact He].
Defined.

(** C3 as stated fails on the empty selection: the table has no rows and the
    coverage ratio is not a number (so it is neither 0 nor 1 nor in between). *)
Lemma coverage_of_empty_table :
  (df <- apply_filters hospital_df [] [] ;;
   k <- kpi df ;;
   Ok (List.length (rows df), kpi_coverage k))
  = Ok (0, NaN).
Proof. reflexivity. Qed.

(** ** Measure groups and benchmark configuration *)

(** C9.  Every measure group of the select box has a benchmark
    configuration, so the state benchmark tab never takes its "not available"
    branch for a group that can be selected. *)
Theorem every_group_has_benchmark_config (g : string) :
  In g group_options ->
  (exists config, lookup g STATE_BENCHMARK_CONFIG = Some config)
  /\ forall sort_by sm ss df_state,
       tab5 sort_by g sm ss df_state <> Ok BenchmarkUnavailable.
Proof.
  intros Hg.
  assert (H : exists config, lookup g STATE_BENCHMARK_CONFIG = Some config).
  { simpl in Hg.
    repeat (destruct Hg as [<- | Hg]; [eexists; reflexivity|]). contradiction. }
  split; [exact H|]. destruct H as (config & Hc).
  intros sort_by sm ss df_state. unfold tab5. rewrite Hc.
  destruct (apply_filters df_state sm ss) as [d1|e]; simpl; [|discriminate].
  destruct (dropna_all (cfg_columns config) d1) as [d2|e]; simpl; [|discriminate].
  destruct (melt _ _ _ _ d2) as [d3|e]; simpl; [|discriminate].
  destruct (getitems _ d2) as [d4|e]; simpl; [|discriminate].
  destruct (sort_values _ _ _ d4) as [d5|e]; simpl; discriminate.
Qed.

(** C9, an instance: the first group of the select box. *)
Lemma every_group_has_benchmark_config_witness :
  exists config, lookup EDAC STATE_BENCHMARK_CONFIG = Some config.
Proof.
  refine (proj1 (every_group_has_benchmark_config EDAC _)).
  simpl. tauto.
Defined.

(** ** Lists: prefixes and suffixes of sorted and duplicate-free lists *)

Lemma In_firstn {A : Type} (n : nat) (l : list A) (x : A) :
  In x (firstn n l) -> In x l.
Proof.
  revert l. induction n as [|n IH]; intros [|y l]; simpl; try tauto.
  intros [H|H]; auto.
Qed.

Lemma StronglySorted_firstn {A : Type} (R : A -> A -> Prop) (n : nat) (l : list A) :
  StronglySorted R l -> StronglySorted R (firstn n l).
Proof.
  intros H. revert n. induction H as [|x l Hs IH Hx]; intros [|n]; simpl;
    try constructor; auto.
  rewrite Forall_forall in *. intros y Hy. apply Hx. eapply In_firstn. exact Hy.
Qed.

Lemma In_skipn {A : Type} (n : nat) (l : list A) (x : A) :
  In x (skipn n l) -> In x l.
Proof.
  revert l. induction n as [|n IH]; intros [|y l]; simpl; auto.
Qed.

Lemma StronglySorted_skipn {A : Type} (R : A -> A -> Prop) (n : nat) (l : list A) :
  StronglySorted R l -> StronglySorted R (skipn n l).
Proof.
  intros H. revert n. induction H as [|x l Hs IH Hx]; intros [|n]; simpl;
    try constructor; auto.
Qed.

Lemma StronglySorted_map {A B : Type} (R : B -> B -> Prop) (f : A -> B)
  (l : list A) :
  StronglySorted (fun a b => R (f a) (f b)) l -> StronglySorted R (map f l).
Proof.
  induction 1 as [|x l Hs IH Hx]; simpl; constructor; auto.
  rewrite Forall_forall in *. intros y Hy. apply in_map_iff in Hy.
  destruct Hy as (z & <- & Hz). auto.
Qed.

Lemma firstn_skipn_disjoint {A : Type} (i j : nat) (l : list A) (x : A) :
  NoDup l -> i <= j -> In x (firstn i l) -> ~ In x (skipn j l).
Proof.
  revert i j. induction l as [|y l IH]; intros i j Hnd Hij Hf Hs.
  - destruct i; contradiction.
  - inversion Hnd as [|? ? Hy Hl]; subst.
    destruct i as [|i]; [contradiction|].
    destruct j as [|j]; [lia|]. simpl in Hf, Hs.
    destruct Hf as [<- | Hf].
    + apply Hy. eapply In_skipn. exact Hs.
    + apply (IH i j Hl ltac:(lia) Hf Hs).
Qed.

(** ** Frames: columns under the operations of the script *)

Lemma numeric_column_incl (c : string) (d d' : DataFrame) :
  incl (column c d') (column c d) ->
  numeric_column c d = true -> numeric_column c d' = true.
Proof.
  unfold numeric_column. rewrite !negb_true_iff. intros Hi Hn.
  destruct (existsb is_str (column c d')) eqn:E; [|reflexivity].
  apply existsb_exists in E. destruct E as (v & Hv & Hs).
  assert (existsb is_str (column c d) = true); [|congruence].
  apply existsb_exists. exists v. split; [apply Hi|]; assumption.
Qed.

Lemma hospital_table_numeric (df : DataFrame) (c : string) :
  hospital_table df = true -> In c load_data_num_cols ->
  numeric_column c df = true.
Proof.
  unfold hospital_table. rewrite !andb_true_iff. intros [[_ Hn] _] Hin.
  rewrite forallb_forall in Hn. auto.
Qed.

Lemma hospital_table_labels (df : DataFrame) :
  hospital_table df = true -> NoDup (map fst (rows df)).
Proof.
  unfold hospital_table. rewrite !andb_true_iff. intros [_ Hd].
  now apply distinct_NoDup.
Qed.

Lemma getitems_ok (cs : list string) (df : DataFrame) :
  forallb (fun c => has_column c df) cs = true ->
  exists d, getitems cs df = Ok d
    /\ columns d = cs
    /\ map fst (rows d) = map fst (rows df)
    /\ forall c, In c cs -> column c d = column c df.
Proof.
  intros H. unfold getitems. rewrite (proj2 (require_all_ok cs df) H). simpl.
  eexists. split; [reflexivity|]. split; [reflexivity|]. split.
  - simpl. rewrite map_map. reflexivity.
  - intros c Hc. unfold column. simpl. rewrite map_map. simpl.
    apply mem_string_iff in Hc. now rewrite Hc.
Qed.

Lemma has_column_assign (c c' : string) (f : row -> cell) (df : DataFrame) :
  has_column c df = true -> has_column c (assign c' f df) = true.
Proof.
  unfold assign, has_column. cbn [columns]. intros H.
  destruct (mem_string c' (columns df)); [assumption|].
  apply mem_string_iff. apply in_or_app. left. now apply mem_string_iff.
Qed.

Lemma column_assign_other (c c' : string) (f : row -> cell) (df : DataFrame) :
  c <> c' -> column c (assign c' f df) = column c df.
Proof.
  intros Hne. unfold column, assign, set_cell. simpl. rewrite map_map. simpl.
  apply map_ext. intros r.
  destruct (String.eqb c c') eqn:E; [|reflexivity].
  apply String.eqb_eq in E. contradiction.
Qed.

(** Scores of a column, when all of them are numbers. *)
Lemma numbers_of_column (l : list cell) :
  existsb is_str l = false -> existsb isna l = false ->
  l = map Num (numbers l).
Proof.
  induction l as [|v l IH]; simpl; [reflexivity|].
  rewrite !orb_false_iff. intros [Hs Hl] [Hn Hl'].
  destruct v as [|q|s]; try discriminate. simpl. f_equal. auto.
Qed.

Lemma sorted_descending_numbers (l : list cell) :
  StronglySorted (fun a b => cell_geb a b = true) (map Num (numbers l)) ->
  StronglySorted (fun p q => (q <= p)%Q) (numbers l).
Proof.
  induction (numbers l) as [|p qs IH]; simpl; intros H; [constructor|].
  inversion H as [|? ? Hs Hp]; subst. constructor; [auto|].
  rewrite Forall_forall in *. intros q Hq.
  specialize (Hp (Num q) (in_map Num _ _ Hq)). simpl in Hp.
  now apply Qle_bool_iff.
Qed.

Lemma sorted_ascending_numbers (l : list cell) :
  StronglySorted (fun a b => cell_leb a b = true) (map Num (numbers l)) ->
  StronglySorted (fun p q => (p <= q)%Q) (numbers l).
Proof.
  induction (numbers l) as [|p qs IH]; simpl; intros H; [constructor|].
  inversion H as [|? ? Hs Hp]; subst. constructor; [auto|].
  rewrite Forall_forall in *. intros q Hq.
  specialize (Hp (Num q) (in_map Num _ _ Hq)). simpl in Hp.
  now apply Qle_bool_iff.
Qed.

Lemma descending_of_sorted (c : string) (df : DataFrame) :
  numeric_column c df = true ->
  existsb isna (column c df) = false ->
  StronglySorted (fun a b => by_key false c a b = true) (rows df) ->
  descending c df.
Proof.
  intros Hn Ha Hs. exists (numbers (column c df)).
  apply negb_true_iff in Hn.
  pose proof (numbers_of_column _ Hn Ha) as E. split; [exact E|].
  apply sorted_descending_numbers. rewrite <- E.
  unfold column. now apply StronglySorted_map.
Qed.

Lemma ascending_of_sorted (c : string) (df : DataFrame) :
  numeric_column c df = true ->
  existsb isna (column c df) = false ->
  StronglySorted (fun a b => by_key true c a b = true) (rows df) ->
  ascending c df.
Proof.
  intros Hn Ha Hs. exists (numbers (column c df)).
  apply negb_true_iff in Hn.
  pose proof (numbers_of_column _ Hn Ha) as E. split; [exact E|].
  apply sorted_ascending_numbers. rewrite <- E.
  unfold column. now apply StronglySorted_map.
Qed.

Lemma existsb_incl_false {A : Type} (p : A -> bool) (l l' : list A) :
  incl l' l -> existsb p l = false -> existsb p l' = false.
Proof.
  intros Hi H. destruct (existsb p l') eqn:E; [|reflexivity].
  apply existsb_exists in E. destruct E as (x & Hx & Hp).
  assert (existsb p l = true); [|congruence].
  apply existsb_exists. exists x. auto.
Qed.

Lemma column_incl (c : string) (d d' : DataFrame) :
  incl (rows d') (rows d) -> incl (column c d') (column c d).
Proof.
  unfold column. intros Hi v Hv. apply in_map_iff in Hv.
  destruct Hv as (r & <- & Hr). apply in_map_iff. exists r. auto.
Qed.

Lemma select_notna_column (c : string) (df : DataFrame) :
  existsb isna (column c (select (fun r => notna (r c)) df)) = false.
Proof.
  unfold column, select. simpl.
  induction (rows df) as [|r l IH]; simpl; [reflexivity|].
  destruct (notna (snd r c)) eqn:E; simpl; [|assumption].
  unfold isna at 1. now rewrite E.
Qed.

(** ** Grouping *)

Lemma cell_eqb_refl (a : cell) : cell_eqb a a = true.
Proof.
  destruct a; simpl; [reflexivity | apply Qeq_bool_refl | apply String.eqb_refl].
Qed.

Lemma cell_eqb_sym (a b : cell) : cell_eqb a b = true -> cell_eqb b a = true.
Proof.
  destruct a, b; simpl; try discriminate; auto.
  - apply Qeq_bool_sym.
  - now rewrite String.eqb_sym.
Qed.

Lemma cell_eqb_trans (a b c : cell) :
  cell_eqb a b = true -> cell_eqb b c = true -> cell_eqb a c = true.
Proof.
  destruct a, b, c; simpl; try discriminate; auto.
  - apply Qeq_bool_trans.
  - rewrite !String.eqb_eq. congruence.
Qed.

Lemma cell_eqb_str (a : cell) (s : string) :
  cell_eqb a (Str s) = true <-> a = Str s.
Proof.
  destruct a as [|q|t]; simpl; try (split; discriminate).
  rewrite String.eqb_eq. split; congruence.
Qed.

Lemma key_eqb_refl (k : key) : key_eqb k k = true.
Proof.
  induction k as [|x k IH]; simpl; [reflexivity|].
  now rewrite cell_eqb_refl, IH.
Qed.

Lemma key_eqb_sym (a b : key) : key_eqb a b = true -> key_eqb b a = true.
Proof.
  revert b. induction a as [|x a IH]; intros [|y b]; simpl; try discriminate; auto.
  rewrite !andb_true_iff. intros [H1 H2]. split; [now apply cell_eqb_sym | auto].
Qed.

Lemma key_eqb_trans (a b c : key) :
  key_eqb a b = true -> key_eqb b c = true -> key_eqb a c = true.
Proof.
  revert b c. induction a as [|x a IH]; intros [|y b] [|z c]; simpl;
    try discriminate; auto.
  rewrite !andb_true_iff. intros [H1 H2] [H3 H4].
  split; [eapply cell_eqb_trans | eapply IH]; eassumption.
Qed.

Section Unique.

Variable K : Type.
Variable eqb : K -> K -> bool.
Hypothesis eqb_refl : forall a, eqb a a = true.
Hypothesis eqb_sym : forall a b, eqb a b = true -> eqb b a = true.
Hypothesis eqb_trans : forall a b c, eqb a b = true -> eqb b c = true -> eqb a c = true.

Lemma unique_from_In (seen l : list K) (y : K) :
  In y (unique_from eqb seen l) -> In y l.
Proof.
  revert seen. induction l as [|x l IH]; intros seen; simpl; [tauto|].
  destruct (existsb (eqb x) seen).
  - intros H. right. eapply IH. exact H.
  - intros [H|H]; [now left | right; eapply IH; exact H].
Qed.

Lemma unique_from_covers (seen l : list K) (x : K) :
  In x l ->
  existsb (eqb x) seen = true
  \/ exists y, In y (unique_from eqb seen l) /\ eqb x y = true.
Proof.
  revert seen. induction l as [|x0 l IH]; intros seen; simpl; [tauto|].
  intros [<- | Hx].
  - destruct (existsb (eqb x0) seen) eqn:E; [now left|].
    right. exists x0. split; [now left | apply eqb_refl].
  - destruct (existsb (eqb x0) seen) eqn:E; [now apply IH|].
    destruct (IH (x0 :: seen) Hx) as [H | (y & Hy & Hxy)].
    + simpl in H. apply orb_true_iff in H. destruct H as [H|H]; [|now left].
      right. exists x0. split; [now left | assumption].
    + right. exists y. split; [now right | assumption].
Qed.

Lemma unique_from_once (seen l : list K) (k0 : K) :
  (existsb (eqb k0) seen = true -> filter (eqb k0) (unique_from eqb seen l) = [])
  /\ List.length (filter (eqb k0) (unique_from eqb seen l)) <= 1.
Proof.
  revert seen. induction l as [|x l IH]; intros seen; simpl; [auto|].
  destruct (existsb (eqb x) seen) eqn:E; [apply IH|].
  simpl. destruct (eqb k0 x) eqn:Ek.
  - destruct (IH (x :: seen)) as [IH1 _].
    assert (Hx : existsb (eqb k0) (x :: seen) = true) by (simpl; now rewrite Ek).
    rewrite (IH1 Hx). split; [|simpl; lia].
    intros Hs. exfalso. apply existsb_exists in Hs. destruct Hs as (s & Hs & Eks).
    assert (existsb (eqb x) seen = true); [|congruence].
    apply existsb_exists. exists s. split; [assumption|].
    eapply eqb_trans; [apply eqb_sym; exact Ek | exact Eks].
  - destruct (IH (x :: seen)) as [IH1 IH2]. split; [|exact IH2].
    intros Hs. apply IH1. simpl. now rewrite Hs, orb_true_r.
Qed.

End Unique.

Lemma Permutation_filter_length {A : Type} (p : A -> bool) (l l' : list A) :
  Permutation l l' -> List.length (filter p l) = List.length (filter p l').
Proof.
  induction 1 as [| x l l' _ IH | x y l | l1 l2 l3 _ IH1 _ IH2]; simpl.
  - reflexivity.
  - destruct (p x); simpl; congruence.
  - destruct (p x), (p y); reflexivity.
  - congruence.
Qed.

(** What [groupby] returns: one group per key that occurs, each holding the
    rows of that key; every row with a complete key is in a group; no key
    comes twice. *)
Lemma groupby_ok (by_ : list string) (df : DataFrame) :
  forallb (fun c => has_column c df) by_ = true ->
  exists g, groupby by_ df = Ok g
    /\ (forall k grp, In (k, grp) g ->
          grp = filter (fun r : irow => key_eqb (key_of by_ (snd r)) k)
                       (kept_rows by_ df)
          /\ exists r, In r (kept_rows by_ df) /\ key_of by_ (snd r) = k)
    /\ (forall r, In r (kept_rows by_ df) ->
          exists k grp, In (k, grp) g /\ key_eqb (key_of by_ (snd r)) k = true)
    /\ (forall k0, List.length (filter (fun kg : key * list irow => key_eqb k0 (fst kg)) g)
                   <= 1).
Proof.
  intros H. unfold groupby. rewrite (proj2 (require_all_ok by_ df) H).
  cbn [bind]. fold (kept_rows by_ df).
  set (kept := kept_rows by_ df).
  set (ks := unique key_eqb (map (fun r : irow => key_of by_ (snd r)) kept)).
  set (keys := isort_by key_leb ks).
  assert (Hperm : Permutation ks keys) by apply isort_by_perm.
  eexists. split; [reflexivity|]. split; [|split].
  - intros k grp Hin. apply in_map_iff in Hin. destruct Hin as (k' & E & Hk').
    injection E as -> <-. split; [reflexivity|].
    apply (Permutation_in _ (Permutation_sym Hperm)) in Hk'.
    apply unique_from_In in Hk'. apply in_map_iff in Hk'.
    destruct Hk' as (r & Hr & Hin). eauto.
  - intros r Hr.
    destruct (unique_from_covers key key_eqb key_eqb_refl []
                (map (fun r : irow => key_of by_ (snd r)) kept)
                (key_of by_ (snd r))) as [Hs | (k & Hk & Ek)].
    + apply in_map_iff. eauto.
    + discriminate.
    + exists k. eexists. split; [|exact Ek].
      apply in_map_iff. exists k. split; [reflexivity|].
      apply (Permutation_in _ Hperm). exact Hk.
  - intros k0.
    assert (E : forall l : list key,
              List.length (filter (fun kg : key * list irow => key_eqb k0 (fst kg))
                 (map (fun k => (k, filter (fun r : irow =>
                                              key_eqb (key_of by_ (snd r)) k) kept)) l))
              = List.length (filter (key_eqb k0) l)).
    { induction l as [|k l IH]; simpl; [reflexivity|].
      destruct (key_eqb k0 k); simpl; now rewrite IH. }
    rewrite E, <- (Permutation_filter_length _ _ _ Hperm).
    apply (unique_from_once key key_eqb key_eqb_sym key_eqb_trans).
Qed.

(** ** Tab 1: performance counts *)

Lemma sizes_sum {A : Type} (key_of_entry : A -> key) (g : list A)
  (f : irow -> key) (l : list irow) :
  (forall r, In r l ->
     List.length (filter (fun e => key_eqb (f r) (key_of_entry e)) g) = 1) ->
  list_sum (map (fun e => List.length
                            (filter (fun r => key_eqb (f r) (key_of_entry e)) l))
                g)
  = List.length l.
Proof.
  induction l as [|r l IH]; intros H.
  - clear. induction g as [|e g IHg]; simpl; [reflexivity | exact IHg].
  - transitivity
      (List.length (filter (fun e => key_eqb (f r) (key_of_entry e)) g)
       + list_sum (map (fun e => List.length
                                   (filter (fun r => key_eqb (f r) (key_of_entry e)) l))
                       g)).
    + clear. induction g as [|e g IHg]; simpl in *; [reflexivity|].
      destruct (key_eqb (f r) (key_of_entry e)); simpl; rewrite IHg; lia.
    + rewrite IH by (intros r' Hr'; apply H; now right).
      rewrite (H r (or_introl eq_refl)). reflexivity.
Qed.

Lemma key_eqb_strings (a b : string) (k : key) :
  key_eqb [Str a; Str b] k = true -> k = [Str a; Str b].
Proof.
  destruct k as [|x [|y [|z k]]]; simpl; try discriminate.
  - now rewrite andb_false_r.
  - rewrite andb_true_r, andb_true_iff. intros [H1 H2].
    destruct x as [|p|s]; try discriminate.
    destruct y as [|q|t]; try discriminate.
    apply String.eqb_eq in H1, H2. now subst.
  - rewrite !andb_false_r. discriminate.
Qed.

Lemma filtered_measure_name (df_raw df : DataFrame) (sm ss : list string) (r : irow) :
  hospital_table df_raw = true ->
  apply_filters df_raw sm ss = Ok df ->
  In r (rows df) ->
  exists m, snd r "Measure Name" = Str m /\ In m sm.
Proof.
  intros Ht Hf Hr. destruct (apply_filters_hospital _ _ _ _ Ht Hf) as [_ Hrows].
  rewrite Hrows in Hr. apply filter_In in Hr. destruct Hr as [Hr _].
  apply filter_In in Hr. destruct Hr as [_ Hm]. unfold measure_in, isin in Hm.
  destruct (snd r "Measure Name") as [|q|m]; try discriminate.
  exists m. split; [reflexivity | now apply mem_string_iff].
Qed.

(** Tab 1 on a hospital table in which every row has a measure name. *)
Lemma perf_ok (df : DataFrame) :
  hospital_table df = true ->
  (forall r, In r (rows df) -> exists m, snd r "Measure Name" = Str m) ->
  exists out, perf df = Ok out
    /\ (forall r, In r (rows df) ->
          exists k n, In (k, n) out /\ key_eqb (perf_key (snd r)) k = true)
    /\ (forall r, In r (rows df) -> snd r "Compared to National" = NaN ->
          exists m n, snd r "Measure Name" = Str m
                      /\ In ([Str m; Str "Not Available"], n) out)
    /\ (forall k n, In (k, n) out ->
          n = List.length (filter (fun r : irow => key_eqb (perf_key (snd r)) k)
                                  (rows df))
          /\ 0 < n)
    /\ (forall k0, List.length (filter (fun e : key * nat => key_eqb k0 (fst e)) out)
                   <= 1)
    /\ list_sum (map snd out) = List.length (rows df).
Proof.
  intros Ht Hmn.
  set (by_ := ["Measure Name"; "Compared to National Display"]).
  set (df_perf := assign "Compared to National Display"
                         (fun r => fillna (r "Compared to National")
                                          (Str "Not Available")) df).
  set (h := fun r : irow =>
              (fst r, set_cell "Compared to National Display"
                               (display_category (snd r)) (snd r))).
  assert (Hrows : rows df_perf = map h (rows df)) by reflexivity.
  assert (Hkey : forall r, key_of by_ (snd (h r)) = perf_key (snd r))
    by reflexivity.
  assert (Hcomplete : forall r, In r (rows df) ->
                        forallb notna (perf_key (snd r)) = true).
  { intros r Hr.
    destruct (Hmn r Hr) as (m & Hm).
    unfold perf_key, display_category. simpl. rewrite Hm. simpl.
    now destruct (snd r "Compared to National"). }
  assert (Hkept : kept_rows by_ df_perf = map h (rows df)).
  { unfold kept_rows. rewrite Hrows. apply filter_all.
    intros x Hx. apply in_map_iff in Hx. destruct Hx as (r & <- & Hr).
    rewrite Hkey. now apply Hcomplete. }
  assert (Hhas : forallb (fun c => has_column c df_perf) by_ = true).
  { apply forallb_forall. intros c [<- | [<- | []]].
    - apply has_column_assign. apply hospital_table_columns;
        [assumption | simpl; tauto].
    - unfold has_column, df_perf, assign. cbn [columns].
      destruct (has_column "Compared to National Display" df) eqn:E;
        [exact E|].
      apply mem_string_iff, in_or_app. right. now left. }
  destruct (groupby_ok by_ df_perf Hhas) as (g & Hg & Hgrp & Hcover & Honce).
  rewrite Hkept in Hgrp, Hcover.
  assert (Hlen : forall k,
            List.length (filter (fun r : irow => key_eqb (key_of by_ (snd r)) k)
                                (map h (rows df)))
            = List.length (filter (fun r : irow => key_eqb (perf_key (snd r)) k)
                                  (rows df))).
  { intros k. clear - Hkey. generalize (rows df) as l.
    induction l as [|r l IH]; [reflexivity|].
    cbn [map filter]. rewrite Hkey.
    destruct (key_eqb (perf_key (snd r)) k); cbn [List.length]; now rewrite IH. }
  assert (Hcov : forall r, In r (rows df) ->
            exists k n, In (k, n) (size g) /\ key_eqb (perf_key (snd r)) k = true).
  { intros r Hr.
    destruct (Hcover (h r) (in_map h _ _ Hr)) as (k & grp & Hin & Ek).
    rewrite Hkey in Ek. exists k, (List.length grp). split; [|exact Ek].
    unfold size. apply in_map_iff. exists (k, grp). auto. }
  exists (size g). split; [|split; [|split; [|split; [|split]]]].
  - unfold perf, require.
    rewrite (hospital_table_columns df "Compared to National" Ht)
      by (simpl; tauto).
    cbn [bind]. fold df_perf. fold by_. rewrite Hg. reflexivity.
  - exact Hcov.
  - intros r Hr Hna.
    destruct (Hmn r Hr) as (m & Hm).
    destruct (Hcov r Hr) as (k & n & Hin & Ek).
    unfold perf_key, display_category in Ek. rewrite Hm, Hna in Ek. simpl fillna in Ek.
    apply key_eqb_strings in Ek. subst k. eauto.
  - intros k n Hin. unfold size in Hin. apply in_map_iff in Hin.
    destruct Hin as ([k' grp] & E & Hin). simpl in E. injection E as -> <-.
    destruct (Hgrp k grp Hin) as (Egrp & r & Hr & Er).
    rewrite Egrp, Hlen. split; [reflexivity|].
    rewrite <- Hlen.
    assert (Hin' : In r (filter (fun r0 : irow => key_eqb (key_of by_ (snd r0)) k)
                                (map h (rows df)))).
    { apply filter_In. split; [assumption|]. rewrite Er. apply key_eqb_refl. }
    destruct (filter (fun r0 : irow => key_eqb (key_of by_ (snd r0)) k)
                     (map h (rows df)));
      [contradiction | simpl; lia].
  - intros k0. unfold size.
    replace (List.length _) with
      (List.length (filter (fun kg : key * list irow => key_eqb k0 (fst kg)) g));
      [apply Honce|].
    clear. induction g as [|kg g IH]; simpl; [reflexivity|].
    destruct (key_eqb k0 (fst kg)); simpl; now rewrite IH.
  - unfold size. rewrite map_map. simpl.
    rewrite (map_ext_in _ (fun kg : key * list irow =>
               List.length (filter (fun r : irow =>
                                      key_eqb (perf_key (snd r)) (fst kg))
                                   (rows df)))).
    2: { intros [k grp] Hin. simpl. destruct (Hgrp k grp Hin) as (-> & _).
         apply Hlen. }
    apply (sizes_sum fst g (fun r => perf_key (snd r))).
    intros r Hr. apply Nat.le_antisymm; [apply Honce|].
    destruct (Hcover (h r) (in_map h _ _ Hr)) as (k & grp & Hin & Ek).
    rewrite Hkey in Ek.
    assert (Hin' : In (k, grp) (filter (fun e : key * list irow =>
                                          key_eqb (perf_key (snd r)) (fst e)) g)).
    { apply filter_In. split; assumption. }
    destruct (filter (fun e : key * list irow =>
                        key_eqb (perf_key (snd r)) (fst e)) g);
      [contradiction | simpl; lia].
Qed.

(** C2 (as amended).  The performance counts are taken over all rows of the
    filtered hospital table, with or without a score: every row is counted
    under the pair of its measure name and its category, the category of a
    row without one being "Not Available"; the output holds each pair that
    occurs once, with the number of rows of that pair, and the counts add up
    to the number of rows. *)
Theorem perf_counts (df_raw df : DataFrame) (sm ss : list string) :
  hospital_table df_raw = true ->
  apply_filters df_raw sm ss = Ok df ->
  exists out, perf df = Ok out
    /\ (forall r, In r (rows df) ->
          exists k n, In (k, n) out /\ key_eqb (perf_key (snd r)) k = true)
    /\ (forall r, In r (rows df) -> snd r "Compared to National" = NaN ->
          exists m n, snd r "Measure Name" = Str m
                      /\ In ([Str m; Str "Not Available"], n) out)
    /\ (forall k n, In (k, n) out ->
          n = List.length (filter (fun r : irow => key_eqb (perf_key (snd r)) k)
                                  (rows df))
          /\ 0 < n)
    /\ (forall k0, List.length (filter (fun e : key * nat => key_eqb k0 (fst e)) out)
                   <= 1)
    /\ list_sum (map snd out) = List.length (rows df).
Proof.
  intros Hraw Hf. apply perf_ok.
  - now destruct (apply_filters_hospital _ _ _ _ Hraw Hf).
  - intros r Hr.
    destruct (filtered_measure_name _ _ _ _ r Hraw Hf Hr) as (m & Hm & _).
    eauto.
Qed.

(** ** Tab 3: state averages *)

Lemma filter_filter_and {A : Type} (p q : A -> bool) (l : list A) :
  filter p (filter q l) = filter (fun x => p x && q x) l.
Proof.
  induction l as [|x l IH]; simpl; [reflexivity|].
  destruct (q x); simpl.
  - rewrite andb_true_r. destruct (p x); now rewrite IH.
  - now rewrite andb_false_r.
Qed.

Lemma key_eqb_string (a : string) (k : key) :
  key_eqb [Str a] k = true -> k = [Str a].
Proof.
  destruct k as [|x [|y k]]; simpl; try discriminate.
  - rewrite andb_true_r. destruct x as [|p|s]; try discriminate.
    intros H. apply String.eqb_eq in H. now subst.
  - now rewrite andb_false_r.
Qed.

Lemma numbers_nonempty (l : list cell) (q : Q) :
  In (Num q) l -> numbers l <> [].
Proof.
  induction l as [|v l IH]; simpl; [tauto|].
  intros [-> | H]; [discriminate|].
  destruct v; auto. discriminate.
Qed.

Lemma mean_number (l : list Q) : l <> [] -> exists q, mean l = Num q.
Proof.
  destruct l; [contradiction|]. intros _. eexists. reflexivity.
Qed.

(** Tab 3 on a hospital table. *)
Lemma state_avg_ok (df : DataFrame) :
  hospital_table df = true ->
  exists out, state_avg df = Ok out
    /\ (forall s : string,
          (exists v, In ([Str s], v) out)
          <-> (exists r, In r (rows df) /\ snd r "State" = Str s
                         /\ notna (snd r "Score") = true))
    /\ (forall k v, In (k, v) out ->
          (exists q, v = Num q)
          /\ v = mean (numbers (map (fun r : irow => snd r "Score")
                                    (filter (averaged k) (rows df)))))
    /\ (forall k0, List.length (filter (fun e : key * cell => key_eqb k0 (fst e)) out)
                   <= 1)
    /\ (forall df', columns df' = columns df ->
          filter (fun r : irow => notna (snd r "Score")) (rows df')
          = filter (fun r : irow => notna (snd r "Score")) (rows df) ->
          state_avg df' = Ok out).
Proof.
  intros Ht.
  set (scored := select (fun r => notna (r "Score")) df).
  assert (Hsc : hospital_table scored = true) by now apply hospital_table_select.
  assert (Hhas : forallb (fun c => has_column c scored) ["State"] = true).
  { simpl. rewrite (hospital_table_columns scored "State" Hsc) by (simpl; tauto).
    reflexivity. }
  destruct (groupby_ok ["State"] scored Hhas) as (g & Hg & Hgrp & Hcover & Honce).
  assert (Hkept : forall r, In r (kept_rows ["State"] scored)
                    <-> In r (rows df) /\ notna (snd r "Score") = true
                        /\ notna (snd r "State") = true).
  { intros r. unfold kept_rows, scored, select. cbn [rows].
    rewrite !filter_In. simpl. rewrite andb_true_r. tauto. }
  assert (Hnum : forall r, In r (rows df) -> is_str (snd r "Score") = false).
  { intros r Hr.
    pose proof (hospital_table_numeric df "Score" Ht ltac:(simpl; tauto)) as Hn.
    unfold numeric_column in Hn. apply negb_true_iff in Hn.
    destruct (is_str (snd r "Score")) eqn:E; [|reflexivity].
    assert (existsb is_str (column "Score" df) = true); [|congruence].
    apply existsb_exists. exists (snd r "Score"). split; [|assumption].
    unfold column. apply in_map_iff. eauto. }
  assert (Hmean : group_mean "Score" g
                  = Ok (map (fun kg : key * list irow =>
                               (fst kg, mean (numbers (map (fun r : irow => snd r "Score")
                                                           (snd kg))))) g)).
  { unfold group_mean.
    destruct (existsb _ g) eqn:E; [|reflexivity]. exfalso.
    apply existsb_exists in E. destruct E as ([k grp] & Hin & Hs).
    apply existsb_exists in Hs. destruct Hs as (v & Hv & Hstr).
    apply in_map_iff in Hv. destruct Hv as (r & <- & Hr). simpl in Hr.
    destruct (Hgrp k grp Hin) as (-> & _). apply filter_In in Hr.
    destruct Hr as [Hr _]. apply Hkept in Hr. destruct Hr as [Hr _].
    rewrite (Hnum r Hr) in Hstr. discriminate. }
  assert (Hrun : forall d, columns d = columns df ->
            filter (fun r : irow => notna (snd r "Score")) (rows d)
            = filter (fun r : irow => notna (snd r "Score")) (rows df) ->
            state_avg d
            = Ok (map (fun kg : key * list irow =>
                         (fst kg, mean (numbers (map (fun r : irow => snd r "Score")
                                                     (snd kg))))) g)).
  { intros d Hc Hr. unfold state_avg, require, has_column. rewrite Hc.
    fold (has_column "Score" df).
    rewrite (hospital_table_columns df "Score" Ht) by (simpl; tauto).
    cbn [bind].
    replace (select (fun r => notna (r "Score")) d) with scored.
    - rewrite Hg. cbn [bind]. exact Hmean.
    - unfold scored, select. now rewrite Hc, Hr. }
  eexists. split; [apply (Hrun df); reflexivity|].
  split; [|split; [|split]].
  - intros s. split.
    + intros (v & Hin). apply in_map_iff in Hin.
      destruct Hin as ([k grp] & E & Hin). simpl in E. injection E as -> _.
      destruct (Hgrp _ grp Hin) as (_ & r & Hr & Er).
      apply Hkept in Hr. destruct Hr as (Hr & Hs & _).
      exists r. simpl in Er. injection Er as Er. auto.
    + intros (r & Hr & Hs & Hscore).
      assert (Hk : In r (kept_rows ["State"] scored)).
      { apply Hkept. rewrite Hs. auto. }
      destruct (Hcover r Hk) as (k & grp & Hin & Ek).
      simpl key_of in Ek. rewrite Hs in Ek. apply key_eqb_string in Ek. subst k.
      eexists. apply in_map_iff. exists ([Str s], grp). split; [reflexivity|].
      exact Hin.
  - intros k v Hin. apply in_map_iff in Hin.
    destruct Hin as ([k' grp] & E & Hin). simpl in E. injection E as -> <-.
    destruct (Hgrp k grp Hin) as (Egrp & r & Hr & Er).
    assert (Hsame : grp = filter (averaged k) (rows df)).
    { rewrite Egrp. unfold kept_rows, scored, select. cbn [rows].
      rewrite !filter_filter_and. apply filter_ext_in. intros x Hx.
      unfold averaged. simpl key_of.
      destruct (key_eqb [snd x "State"] k) eqn:Ek; [|reflexivity].
      simpl. rewrite andb_true_r.
      assert (Hst : notna (snd x "State") = true).
      { apply Hkept in Hr. destruct Hr as (_ & _ & Hst). subst k.
        simpl in Ek, Hst. rewrite andb_true_r in Ek.
        destruct (snd x "State"); [|reflexivity|reflexivity].
        destruct (snd r "State"); discriminate. }
      now rewrite Hst. }
    rewrite <- Hsame. split; [|reflexivity].
    apply mean_number.
    assert (Hrg : In r grp).
    { rewrite Egrp. apply filter_In. split; [assumption|].
      rewrite Er. apply key_eqb_refl. }
    apply Hkept in Hr. destruct Hr as (Hr & Hscore & _).
    pose proof (Hnum r Hr) as Hns.
    destruct (snd r "Score") as [|q|t] eqn:Es; try discriminate.
    apply (numbers_nonempty _ q). apply in_map_iff. exists r. auto.
  - intros k0.
    replace (List.length _) with
      (List.length (filter (fun kg : key * list irow => key_eqb k0 (fst kg)) g));
      [apply Honce|].
    clear. induction g as [|kg g IH]; simpl; [reflexivity|].
    destruct (key_eqb k0 (fst kg)); simpl; now rewrite IH.
  - exact Hrun.
Qed.

(** C10.  The state averages hold a row for a state exactly when some row of
    the filtered hospital table has that state and a score; the average of a
    state is a number, the mean of the scores present in its rows; no state
    comes twice; and two tables with the same columns and the same rows with a
    score give the same averages, so rows without a score have no influence. *)
Theorem state_averages (df_raw df : DataFrame) (sm ss : list string) :
  hospital_table df_raw = true ->
  apply_filters df_raw sm ss = Ok df ->
  exists out, state_avg df = Ok out
    /\ (forall s : string,
          (exists v, In ([Str s], v) out)
          <-> (exists r, In r (rows df) /\ snd r "State" = Str s
                         /\ notna (snd r "Score") = true))
    /\ (forall k v, In (k, v) out ->
          (exists q, v = Num q)
          /\ v = mean (numbers (map (fun r : irow => snd r "Score")
                                    (filter (averaged k) (rows df)))))
    /\ (forall k0, List.length (filter (fun e : key * cell => key_eqb k0 (fst e)) out)
                   <= 1)
    /\ (forall df', columns df' = columns df ->
          filter (fun r : irow => notna (snd r "Score")) (rows df')
          = filter (fun r : irow => notna (snd r "Score")) (rows df) ->
          state_avg df' = Ok out).
Proof.
  intros Hraw Hf. apply state_avg_ok.
  now destruct (apply_filters_hospital _ _ _ _ Hraw Hf).
Qed.

Section Views.

Variable sort_by : (irow -> irow -> bool) -> list irow -> list irow.

(** What is assumed of the sorting algorithm: it permutes its input, and the
    result is in order when the order is total and transitive. *)
Hypothesis sort_by_perm : forall le l, Permutation l (sort_by le l).

Hypothesis sort_by_sorted : forall le l,
  (forall a b, le a b = true \/ le b a = true) ->
  (forall a b c, le a b = true -> le b c = true -> le a c = true) ->
  StronglySorted (fun a b => le a b = true) (sort_by le l).

Lemma sort_by_nil (le : irow -> irow -> bool) : sort_by le [] = [].
Proof.
  apply Permutation_nil. apply sort_by_perm.
Qed.

Lemma sort_values_ok (c : string) (asc : bool) (df : DataFrame) :
  has_column c df = true ->
  numeric_column c df = true ->
  sort_values sort_by c asc df
  = Ok (mkDF (columns df) (sort_by (by_key asc c) (rows df))).
Proof.
  intros Hc Hn. unfold sort_values, require. rewrite Hc. simpl.
  unfold numeric_column in Hn. apply negb_true_iff in Hn.
  now rewrite Hn, andb_false_r.
Qed.

Lemma sort_values_sorted (c : string) (asc : bool) (l : list irow) :
  StronglySorted (fun a b => by_key asc c a b = true) (sort_by (by_key asc c) l).
Proof.
  apply sort_by_sorted.
  - apply by_key_total.
  - apply by_key_trans.
Qed.

Lemma sort_by_incl (le : irow -> irow -> bool) (l : list irow) :
  incl (sort_by le l) l.
Proof.
  intros x Hx. eapply Permutation_in; [|exact Hx].
  apply Permutation_sym, sort_by_perm.
Qed.

Lemma descending_firstn (c : string) (n : nat) (d d' : DataFrame) :
  column c d' = firstn n (column c d) -> descending c d -> descending c d'.
Proof.
  intros E (qs & Hq & Hs). exists (firstn n qs). split.
  - now rewrite E, Hq, firstn_map.
  - now apply StronglySorted_firstn.
Qed.

Lemma ascending_same_column (c : string) (d d' : DataFrame) :
  column c d' = column c d -> ascending c d -> ascending c d'.
Proof.
  intros E (qs & Hq & Hs). exists qs. now rewrite E.
Qed.

Lemma descending_same_column (c : string) (d d' : DataFrame) :
  column c d' = column c d -> descending c d -> descending c d'.
Proof.
  intros E (qs & Hq & Hs). exists qs. now rewrite E.
Qed.

(** The rows with a score, in descending order of score. *)
Lemma ranked_ok (df : DataFrame) :
  hospital_table df = true ->
  exists rk, ranked sort_by df = Ok rk
    /\ columns rk = columns df
    /\ rows rk = sort_by (by_key false "Score")
                         (filter (fun r : irow => notna (snd r "Score")) (rows df))
    /\ numeric_column "Score" rk = true
    /\ existsb isna (column "Score" rk) = false
    /\ descending "Score" rk
    /\ NoDup (map fst (rows rk)).
Proof.
  intros Ht. unfold ranked, require.
  rewrite (hospital_table_columns df "Score" Ht) by (simpl; tauto). simpl.
  set (sc := select (fun r => notna (r "Score")) df).
  assert (Hsc : hospital_table sc = true) by now apply hospital_table_select.
  rewrite sort_values_ok.
  2: { apply hospital_table_columns; [assumption | simpl; tauto]. }
  2: { apply hospital_table_numeric; [assumption | simpl; tauto]. }
  eexists. split; [reflexivity|].
  set (rk := mkDF _ _).
  assert (Hincl : incl (rows rk) (rows sc)) by apply sort_by_incl.
  assert (Hnum : numeric_column "Score" rk = true).
  { apply (numeric_column_incl _ sc); [now apply column_incl|].
    apply hospital_table_numeric; [assumption | simpl; tauto]. }
  assert (Hna : existsb isna (column "Score" rk) = false).
  { apply (existsb_incl_false _ (column "Score" sc)); [now apply column_incl|].
    apply select_notna_column. }
  repeat split; try assumption; try reflexivity.
  - apply descending_of_sorted; try assumption. apply sort_values_sorted.
  - apply (Permutation_NoDup (l := map fst (rows sc))).
    + apply Permutation_map. apply sort_by_perm.
    + now apply hospital_table_labels.
Qed.

(** Tab 4 on a hospital table. *)
Lemma tab4_ok (df : DataFrame) :
  hospital_table df = true ->
  exists rk worst_10 best_10,
    ranked sort_by df = Ok rk
    /\ tab4 sort_by df = Ok (worst_10, best_10)
    /\ Permutation (filter (fun r : irow => notna (snd r "Score")) (rows df))
                   (rows rk)
    /\ descending "Score" rk
    /\ map fst (rows worst_10) = firstn 10 (map fst (rows rk))
    /\ Permutation (skipn (List.length (rows rk) - 10) (map fst (rows rk)))
                   (map fst (rows best_10))
    /\ descending "Score" worst_10
    /\ ascending "Score" best_10
    /\ (20 <= List.length (filter (fun r : irow => notna (snd r "Score")) (rows df)) ->
        List.length (rows worst_10) = 10
        /\ List.length (rows best_10) = 10
        /\ forall i, In i (map fst (rows worst_10)) ->
                     ~ In i (map fst (rows best_10))).
Proof.
  intros Ht.
  destruct (ranked_ok df Ht) as (rk & Hrk & Hcols & Hrows & Hnum & Hna & Hdesc & Hnd).
  assert (Hhas : forall c, In c HOSPITAL_COLUMNS -> has_column c rk = true).
  { intros c Hc. unfold has_column. rewrite Hcols.
    now apply hospital_table_columns. }
  assert (Hshown : forall d, columns d = columns rk ->
            forallb (fun c => has_column c d) ["Facility Name"; "State"; "Score"]
            = true).
  { intros d Hd. apply forallb_forall. intros c Hc. unfold has_column.
    rewrite Hd. apply Hhas. simpl in *. tauto. }
  destruct (getitems_ok _ (head 10 rk) (Hshown _ eq_refl))
    as (worst & Hworst & _ & Hwl & Hwc).
  set (tl := tail 10 rk).
  assert (Htl_incl : incl (rows tl) (rows rk)).
  { intros r Hr. eapply In_skipn. exact Hr. }
  assert (Htl_num : numeric_column "Score" tl = true).
  { apply (numeric_column_incl _ rk); [now apply column_incl | assumption]. }
  pose proof (sort_values_ok "Score" true tl (Hhas "Score" ltac:(simpl; tauto))
                Htl_num) as Hsort.
  set (b0 := mkDF (columns tl) (sort_by (by_key true "Score") (rows tl))) in Hsort.
  assert (Hb0_incl : incl (rows b0) (rows rk)).
  { intros r Hr. apply Htl_incl. eapply sort_by_incl. exact Hr. }
  destruct (getitems_ok _ b0 (Hshown b0 eq_refl)) as (best & Hbest & _ & Hbl & Hbc).
  exists rk, worst, best.
  assert (Htab : tab4 sort_by df = Ok (worst, best)).
  { unfold tab4. rewrite Hrk. simpl. rewrite Hworst. simpl.
    fold tl. rewrite Hsort. simpl. rewrite Hbest. reflexivity. }
  assert (Hperm : Permutation
                    (filter (fun r : irow => notna (snd r "Score")) (rows df))
                    (rows rk)).
  { rewrite Hrows. apply sort_by_perm. }
  split; [exact Hrk|]. split; [exact Htab|]. split; [exact Hperm|].
  split; [exact Hdesc|].
  assert (Hwl' : map fst (rows worst) = firstn 10 (map fst (rows rk))).
  { rewrite Hwl. unfold head. cbn [rows]. symmetry. apply firstn_map. }
  assert (Hbl' : Permutation (skipn (List.length (rows rk) - 10) (map fst (rows rk)))
                             (map fst (rows best))).
  { rewrite Hbl. unfold b0, tl, tail. cbn [rows]. rewrite skipn_map.
    apply Permutation_map. apply sort_by_perm. }
  split; [exact Hwl'|]. split; [exact Hbl'|]. split; [|split].
  - apply (descending_firstn "Score" 10 rk); [|assumption].
    rewrite Hwc by (simpl; tauto). unfold column, head. cbn [rows].
    symmetry. apply firstn_map.
  - apply (ascending_same_column "Score" b0).
    + apply Hbc. simpl. tauto.
    + apply ascending_of_sorted.
      * apply (numeric_column_incl _ rk); [now apply column_incl | assumption].
      * apply (existsb_incl_false _ (column "Score" rk));
          [now apply column_incl | assumption].
      * apply sort_values_sorted.
  - intros H20.
    assert (Hlen : 20 <= List.length (rows rk)).
    { now rewrite <- (Permutation_length Hperm). }
    assert (Hlw : List.length (rows worst) = 10).
    { replace (List.length (rows worst))
        with (List.length (map fst (rows worst))) by apply length_map.
      rewrite Hwl', length_firstn, length_map. unfold irow in *. lia. }
    assert (Hlb : List.length (rows best) = 10).
    { replace (List.length (rows best))
        with (List.length (map fst (rows best))) by apply length_map.
      rewrite <- (Permutation_length Hbl'), length_skipn, length_map.
      unfold irow in *. lia. }
    split; [exact Hlw|]. split; [exact Hlb|].
    intros i Hiw Hib. rewrite Hwl' in Hiw.
    apply (Permutation_in _ (Permutation_sym Hbl')) in Hib.
    revert Hib. apply (firstn_skipn_disjoint 10); try assumption. lia.
Qed.

(** C4.  The ranking tab sorts the rows that have a score in descending order
    of score; its first list is the first ten of them, still in descending
    order, and its second list is the last ten, in ascending order; with
    twenty or more scored rows each list has ten rows and no row is in both. *)
Theorem rankings_ordered_and_disjoint (df_raw df : DataFrame) (sm ss : list string) :
  hospital_table df_raw = true ->
  apply_filters df_raw sm ss = Ok df ->
  exists rk worst_10 best_10,
    ranked sort_by df = Ok rk
    /\ tab4 sort_by df = Ok (worst_10, best_10)
    /\ Permutation (filter (fun r : irow => notna (snd r "Score")) (rows df))
                   (rows rk)
    /\ descending "Score" rk
    /\ map fst (rows worst_10) = firstn 10 (map fst (rows rk))
    /\ Permutation (skipn (List.length (rows rk) - 10) (map fst (rows rk)))
                   (map fst (rows best_10))
    /\ descending "Score" worst_10
    /\ ascending "Score" best_10
    /\ (20 <= List.length (filter (fun r : irow => notna (snd r "Score")) (rows df)) ->
        List.length (rows worst_10) = 10
        /\ List.length (rows best_10) = 10
        /\ forall i, In i (map fst (rows worst_10)) ->
                     ~ In i (map fst (rows best_10))).
Proof.
  intros Hraw Hf. apply tab4_ok.
  now destruct (apply_filters_hospital _ _ _ _ Hraw Hf).
Qed.

Lemma select_column_notna (c : string) (p : row -> bool) (df : DataFrame) :
  (forall r, p r = true -> notna (r c) = true) ->
  existsb isna (column c (select p df)) = false.
Proof.
  intros Hp. unfold column, select. cbn [rows].
  induction (rows df) as [|r l IH]; simpl; [reflexivity|].
  destruct (p (snd r)) eqn:E; simpl; [|assumption].
  unfold isna at 1. now rewrite (Hp _ E).
Qed.

Lemma assign_rows (c : string) (f : row -> cell) (df : DataFrame) :
  Forall2 (fun a b : irow =>
             fst b = fst a
             /\ (forall c', c' <> c -> snd b c' = snd a c')
             /\ snd b c = f (snd a))
          (rows df) (rows (assign c f df)).
Proof.
  unfold assign. cbn [rows].
  induction (rows df) as [|r l IH]; simpl; constructor; auto.
  unfold set_cell. simpl. repeat split.
  - intros c' Hne. destruct (String.eqb c' c) eqn:E; [|reflexivity].
    apply String.eqb_eq in E. contradiction.
  - now rewrite String.eqb_refl.
Qed.

(** Tab 2 for the EDAC group, on a hospital table. *)
Lemma tab2_edac (df : DataFrame) :
  hospital_table df = true ->
  exists df_scatter top_vol sorted,
       tab2 sort_by EDAC df = Ok (VolumeData df_scatter top_vol)
       /\ Forall2 (fun a b : irow =>
                     fst b = fst a
                     /\ (forall c, c <> "bubble_size" -> snd b c = snd a c)
                     /\ (notna (snd a "Number of Patients Returned") = true ->
                         snd b "bubble_size" = snd a "Number of Patients Returned")
                     /\ (snd a "Number of Patients Returned" = NaN ->
                         snd b "bubble_size" = snd a "Number of Patients"))
                  (filter (fun r : irow => notna (snd r "Score")
                                           && notna (snd r "Number of Patients"))
                          (rows df))
                  (rows df_scatter)
       /\ Permutation (rows df_scatter) (rows sorted)
       /\ descending "Number of Patients" sorted
       /\ map fst (rows top_vol) = firstn 15 (map fst (rows sorted))
       /\ (forall c, In c ["Facility Name"; "State"; "Number of Patients"; "Score"] ->
                     column c top_vol = firstn 15 (column c sorted)).
Proof.
  intros Ht.
  set (both := fun r : row => forallb (fun c => notna (r c))
                                      ["Score"; "Number of Patients"]).
  set (d1 := select both df).
  assert (Hd1 : hospital_table d1 = true) by now apply hospital_table_select.
  set (d2 := assign "bubble_size"
                    (fun r => fillna (r "Number of Patients Returned")
                                     (r "Number of Patients")) d1).
  assert (Hhas2 : forall c, In c HOSPITAL_COLUMNS -> has_column c d2 = true).
  { intros c Hc. apply has_column_assign. now apply hospital_table_columns. }
  assert (Hcol2 : column "Number of Patients" d2 = column "Number of Patients" d1).
  { apply column_assign_other. discriminate. }
  assert (Hnum2 : numeric_column "Number of Patients" d2 = true).
  { unfold numeric_column. rewrite Hcol2.
    apply (hospital_table_numeric d1); [assumption | simpl; tauto]. }
  assert (Hna2 : existsb isna (column "Number of Patients" d2) = false).
  { rewrite Hcol2. apply select_column_notna. intros r. unfold both. simpl.
    rewrite !andb_true_iff. tauto. }
  set (sorted := mkDF (columns d2)
                      (sort_by (by_key false "Number of Patients") (rows d2))).
  assert (Hsort : sort_values sort_by "Number of Patients" false d2 = Ok sorted).
  { apply sort_values_ok; [apply Hhas2; simpl; tauto | assumption]. }
  assert (Hshown : forallb (fun c => has_column c (head 15 sorted))
                     ["Facility Name"; "State"; "Number of Patients"; "Score"]
                   = true).
  { apply forallb_forall. intros c Hc. apply Hhas2. simpl in *. tauto. }
  destruct (getitems_ok _ _ Hshown) as (top & Htop & _ & Htl & Htc).
  exists d2, top, sorted.
  split; [|split; [|split; [|split; [|split]]]].
  - unfold tab2. rewrite String.eqb_refl. cbn [negb].
    unfold dropna_any.
    rewrite (require_all_incl _ HOSPITAL_COLUMNS df).
    2: { intros c Hc. simpl in *. tauto. }
    2: { unfold hospital_table in Ht. rewrite !andb_true_iff in Ht. tauto. }
    cbn [bind]. fold both. fold d1. unfold require.
    rewrite (hospital_table_columns d1 _ Hd1) by (simpl; tauto).
    cbn [bind]. fold d2. rewrite Hsort. cbn [bind]. rewrite Htop. reflexivity.
  - pose proof (assign_rows "bubble_size"
                  (fun r => fillna (r "Number of Patients Returned")
                                   (r "Number of Patients")) d1) as Ha.
    fold d2 in Ha.
    replace (filter _ (rows df)) with (rows d1).
    2: { unfold d1, select, both. cbn [rows]. apply filter_ext. intros r.
         simpl. now rewrite andb_true_r. }
    eapply Forall2_impl; [|exact Ha].
    intros a b (Hl & Hother & Hb). repeat split; try assumption.
    + intros Hp. rewrite Hb.
      destruct (snd a "Number of Patients Returned"); [discriminate | |]; reflexivity.
    + intros Hn. now rewrite Hb, Hn.
  - apply sort_by_perm.
  - apply descending_of_sorted.
    + apply (numeric_column_incl _ d2); [|assumption].
      apply column_incl. apply sort_by_incl.
    + apply (existsb_incl_false _ (column "Number of Patients" d2)); [|assumption].
      apply column_incl. apply sort_by_incl.
    + apply sort_values_sorted.
  - rewrite Htl. unfold head. cbn [rows]. symmetry. apply firstn_map.
  - intros c Hc. rewrite (Htc c Hc). unfold column, head. cbn [rows].
    symmetry. apply firstn_map.
Qed.

(** C7.  The volume tab answers "not applicable" for every group but EDAC,
    whatever the table.  For EDAC it keeps exactly the rows with a score and a
    number of patients; the bubble size of a row is its number of patients
    returned when present and its number of patients otherwise; the
    contributor table is the first fifteen of these rows in descending order
    of number of patients. *)
Theorem volume_view (df_raw df : DataFrame) (sm ss : list string) :
  hospital_table df_raw = true ->
  apply_filters df_raw sm ss = Ok df ->
  (forall g d, g <> EDAC -> tab2 sort_by g d = Ok VolumeNotApplicable)
  /\ exists df_scatter top_vol sorted,
       tab2 sort_by EDAC df = Ok (VolumeData df_scatter top_vol)
       /\ Forall2 (fun a b : irow =>
                     fst b = fst a
                     /\ (forall c, c <> "bubble_size" -> snd b c = snd a c)
                     /\ (notna (snd a "Number of Patients Returned") = true ->
                         snd b "bubble_size" = snd a "Number of Patients Returned")
                     /\ (snd a "Number of Patients Returned" = NaN ->
                         snd b "bubble_size" = snd a "Number of Patients"))
                  (filter (fun r : irow => notna (snd r "Score")
                                           && notna (snd r "Number of Patients"))
                          (rows df))
                  (rows df_scatter)
       /\ Permutation (rows df_scatter) (rows sorted)
       /\ descending "Number of Patients" sorted
       /\ map fst (rows top_vol) = firstn 15 (map fst (rows sorted))
       /\ (forall c, In c ["Facility Name"; "State"; "Number of Patients"; "Score"] ->
                     column c top_vol = firstn 15 (column c sorted)).
Proof.
  intros Hraw Hf. split.
  - intros g d Hg. unfold tab2.
    destruct (String.eqb g "EDAC – Excess Hospital Return Days") eqn:E.
    + apply String.eqb_eq in E. contradiction.
    + reflexivity.
  - apply tab2_edac. now destruct (apply_filters_hospital _ _ _ _ Hraw Hf).
Qed.

(** ** Tab 5: state benchmark *)

Lemma config_cases (g : string) (config : benchmark_config) :
  lookup g STATE_BENCHMARK_CONFIG = Some config ->
  config = edac_config \/ config = rate_config.
Proof.
  unfold STATE_BENCHMARK_CONFIG. simpl.
  repeat (match goal with
          | |- context [String.eqb ?a ?b] => destruct (String.eqb a b)
          end; [intros [= <-]; auto|]).
  discriminate.
Qed.

Lemma config_columns (g : string) (config : benchmark_config) :
  lookup g STATE_BENCHMARK_CONFIG = Some config ->
  incl (cfg_columns config) load_state_level_data_num_cols
  /\ In (nth (List.length (cfg_columns config) - 2) (cfg_columns config) "")
        (cfg_columns config).
Proof.
  intros H. destruct (config_cases g config H) as [-> | ->]; split;
    try (intros c Hc; simpl in *; tauto); simpl; tauto.
Qed.

Lemma state_table_numeric (df : DataFrame) (c : string) :
  state_table df = true -> In c load_state_level_data_num_cols ->
  numeric_column c df = true.
Proof.
  unfold state_table. rewrite !andb_true_iff. intros [[_ Hn] _] Hin.
  rewrite forallb_forall in Hn. auto.
Qed.

Lemma apply_filters_state (df_state : DataFrame) (sm ss : list string) :
  state_table df_state = true ->
  exists flt, apply_filters df_state sm ss = Ok flt
    /\ state_table flt = true
    /\ rows flt = filter (state_in ss) (filter (measure_in sm) (rows df_state)).
Proof.
  intros Ht.
  destruct (apply_filters_ok df_state sm ss) as (flt & Hf & Hc & Hr).
  - apply state_table_columns; [assumption | simpl; tauto].
  - apply state_table_columns; [assumption | simpl; tauto].
  - exists flt. split; [exact Hf|]. split; [|exact Hr].
    pose proof (state_table_select (fun r => state_in ss (0, r))
                  (select (fun r => measure_in sm (0, r)) df_state)
                  (state_table_select _ _ Ht)) as H.
    unfold state_table in *. unfold has_column, numeric_column, column in *.
    simpl in H. unfold measure_in, state_in in *. simpl in *.
    rewrite Hc, Hr. exact H.
Qed.

Lemma dropna_all_has_data (cs : list string) (r : irow) :
  negb (forallb (fun c => isna (snd r c)) cs) = has_benchmark_data cs r.
Proof.
  unfold has_benchmark_data, isna.
  induction cs as [|c cs IH]; simpl; [reflexivity|].
  rewrite negb_andb, negb_involutive. now rewrite IH.
Qed.

Lemma map_snd_combine_seq {A : Type} (k : nat) (l : list A) :
  map snd (combine (seq k (List.length l)) l) = l.
Proof.
  revert k. induction l as [|x l IH]; intros k; simpl; [reflexivity|].
  now rewrite IH.
Qed.

(** Tab 5 runs through on a state table, for a group with a configuration. *)
Lemma tab5_ok (g : string) (config : benchmark_config) (sm ss : list string)
  (df_state : DataFrame) :
  state_table df_state = true ->
  lookup g STATE_BENCHMARK_CONFIG = Some config ->
  exists flt state_filtered state_long table,
    apply_filters df_state sm ss = Ok flt
    /\ tab5 sort_by g sm ss df_state
       = Ok (BenchmarkData state_filtered state_long table)
    /\ rows flt = filter (state_in ss) (filter (measure_in sm) (rows df_state))
    /\ rows state_filtered
       = filter (has_benchmark_data (cfg_columns config)) (rows flt)
    /\ map snd (rows state_long) = melted (cfg_columns config) (rows state_filtered)
    /\ Permutation (map fst (rows state_filtered)) (map fst (rows table)).
Proof.
  intros Ht Hcfg.
  destruct (config_columns g config Hcfg) as [Hincl Hnth].
  destruct (apply_filters_state df_state sm ss Ht) as (flt & Hf & Hflt & Hrows).
  set (value_cols := cfg_columns config) in *.
  assert (Hhas : forall d c, columns d = columns flt -> In c STATE_COLUMNS ->
                             has_column c d = true).
  { intros d c Hd Hc. unfold has_column. rewrite Hd.
    now apply state_table_columns. }
  assert (Hvalue : forall d, columns d = columns flt ->
                     forallb (fun c => has_column c d) value_cols = true).
  { intros d Hd. apply forallb_forall. intros c Hc. apply Hhas; [assumption|].
    right. right. now apply Hincl. }
  assert (Hids : forall d, columns d = columns flt ->
                   forallb (fun c => has_column c d) ["State"; "Measure Name"] = true).
  { intros d Hd. apply forallb_forall. intros c Hc. apply Hhas; [assumption|].
    simpl in *. tauto. }
  set (sf := select (fun r => negb (forallb (fun c => isna (r c)) value_cols)) flt).
  assert (Hsf : state_table sf = true) by now apply state_table_select.
  assert (Hall : forallb (fun c => has_column c sf) (["State"; "Measure Name"] ++ value_cols)
                 = true).
  { rewrite forallb_app, (Hids sf eq_refl), (Hvalue sf eq_refl). reflexivity. }
  destruct (getitems_ok _ sf Hall) as (t0 & Ht0 & Ht0c & Ht0l & Ht0col).
  set (key := nth (List.length value_cols - 2) value_cols "") in *.
  assert (Hkey : In key (["State"; "Measure Name"] ++ value_cols)).
  { apply in_or_app. now right. }
  assert (Hsort : sort_values sort_by key false t0
                  = Ok (mkDF (columns t0) (sort_by (by_key false key) (rows t0)))).
  { apply sort_values_ok.
    - unfold has_column. rewrite Ht0c. now apply mem_string_iff.
    - unfold numeric_column. rewrite (Ht0col key Hkey).
      apply (state_table_numeric sf); [assumption | now apply Hincl]. }
  exists flt, sf. eexists. eexists.
  split; [exact Hf|]. split; [|split; [exact Hrows|split; [|split]]].
  - unfold tab5. rewrite Hcfg, Hf. cbn [bind]. fold value_cols.
    unfold dropna_all. rewrite (proj2 (require_all_ok _ _) (Hvalue flt eq_refl)).
    cbn [bind]. fold sf. unfold melt.
    replace (has_column "Hospitals" sf) with false.
    2: { unfold state_table in Hsf. rewrite !andb_true_iff in Hsf.
         destruct Hsf as [[[_ Hh] _] _]. apply negb_true_iff in Hh.
         now rewrite Hh. }
    rewrite (proj2 (require_all_ok _ _) (Hids sf eq_refl)).
    rewrite (proj2 (require_all_ok _ _) (Hvalue sf eq_refl)).
    cbn [bind]. rewrite Ht0. cbn [bind]. fold key. rewrite Hsort. cbn [bind].
    reflexivity.
  - unfold sf, select. cbn [rows]. apply filter_ext. intros r.
    apply dropna_all_has_data.
  - cbn [rows]. unfold irow. rewrite map_snd_combine_seq. reflexivity.
  - cbn [rows]. rewrite <- Ht0l. apply Permutation_map. apply sort_by_perm.
Qed.

Lemma melted_In (value_cols : list string) (rs : list irow) (lr : row) :
  In lr (melted value_cols rs) ->
  exists r v, In r rs /\ In v value_cols
    /\ lr "State" = snd r "State"
    /\ lr "Measure Name" = snd r "Measure Name"
    /\ lr "Performance" = Str v
    /\ lr "Hospitals" = snd r v.
Proof.
  unfold melted. intros H. apply in_flat_map in H.
  destruct H as (v & Hv & H). apply in_map_iff in H. destruct H as (r & <- & Hr).
  exists r, v. repeat split; assumption.
Qed.

Lemma melted_length (value_cols : list string) (rs : list irow) :
  List.length (melted value_cols rs) = List.length value_cols * List.length rs.
Proof.
  unfold melted. induction value_cols as [|v cs IH]; simpl; [reflexivity|].
  now rewrite length_app, length_map, IH.
Qed.

(** C8.  In the state benchmark tab a row of the filtered state table is kept
    exactly when one of the counters of the selected group is present in it,
    whatever its other counters; the long form is made of the kept rows only:
    each of its rows carries the state, the measure and one counter of a kept
    row, and it has one row per kept row and counter. *)
Theorem benchmark_keeps_rows_with_data (g : string) (config : benchmark_config)
  (sm ss : list string) (df_state : DataFrame) :
  state_table df_state = true ->
  lookup g STATE_BENCHMARK_CONFIG = Some config ->
  exists flt state_filtered state_long table,
    apply_filters df_state sm ss = Ok flt
    /\ tab5 sort_by g sm ss df_state
       = Ok (BenchmarkData state_filtered state_long table)
    /\ (forall r, In r (rows flt) ->
          (In r (rows state_filtered)
           <-> exists c, In c (cfg_columns config) /\ notna (snd r c) = true))
    /\ (forall r, In r (rows flt) ->
          (~ In r (rows state_filtered)
           <-> forall c, In c (cfg_columns config) -> snd r c = NaN))
    /\ (forall r, In r (rows state_filtered) -> In r (rows flt))
    /\ (forall lr, In lr (rows state_long) ->
          exists r v, In r (rows state_filtered) /\ In v (cfg_columns config)
            /\ snd lr "State" = snd r "State"
            /\ snd lr "Measure Name" = snd r "Measure Name"
            /\ snd lr "Performance" = Str v
            /\ snd lr "Hospitals" = snd r v)
    /\ List.length (rows state_long)
       = List.length (cfg_columns config) * List.length (rows state_filtered).
Proof.
  intros Ht Hcfg.
  destruct (tab5_ok g config sm ss df_state Ht Hcfg)
    as (flt & sf & long & tbl & Hf & Htab & _ & Hsf & Hlong & _).
  exists flt, sf, long, tbl.
  assert (Hkeep : forall r, In r (rows flt) ->
            (In r (rows sf)
             <-> exists c, In c (cfg_columns config) /\ notna (snd r c) = true)).
  { intros r Hr. rewrite Hsf, filter_In. unfold has_benchmark_data.
    rewrite existsb_exists. tauto. }
  split; [exact Hf|]. split; [exact Htab|]. split; [exact Hkeep|].
  split; [|split; [|split]].
  - intros r Hr. rewrite (Hkeep r Hr). split.
    + intros Hno c Hc. destruct (snd r c) eqn:E; [reflexivity | |];
        exfalso; apply Hno; exists c; rewrite E; auto.
    + intros Hall (c & Hc & Hp). rewrite (Hall c Hc) in Hp. discriminate.
  - intros r Hr. rewrite Hsf in Hr. apply filter_In in Hr. tauto.
  - intros lr Hlr. apply (in_map snd) in Hlr. rewrite Hlong in Hlr.
    now apply melted_In.
  - replace (List.length (rows long)) with (List.length (map snd (rows long)))
      by apply length_map.
    rewrite Hlong. apply melted_length.
Qed.

(** *** The reshape keeps the totals *)

Lemma numbers_app (l1 l2 : list cell) :
  numbers (l1 ++ l2) = numbers l1 ++ numbers l2.
Proof.
  induction l1 as [|v l1 IH]; simpl; [reflexivity|].
  destruct v; simpl; now rewrite IH.
Qed.

Lemma Qsum_app (l1 l2 : list Q) : (Qsum (l1 ++ l2) == Qsum l1 + Qsum l2)%Q.
Proof.
  induction l1 as [|q l1 IH]; simpl.
  - now rewrite Qplus_0_l.
  - rewrite IH. apply Qplus_assoc.
Qed.

Lemma sum_cells_app (l1 l2 : list cell) :
  (sum_cells (l1 ++ l2) == sum_cells l1 + sum_cells l2)%Q.
Proof.
  unfold sum_cells. rewrite numbers_app. apply Qsum_app.
Qed.

Lemma sum_cells_cons (v : cell) (l : list cell) :
  (sum_cells (v :: l) == sum_cells [v] + sum_cells l)%Q.
Proof.
  apply (sum_cells_app [v] l).
Qed.

Lemma Qsum_map_ext {A : Type} (f g : A -> Q) (l : list A) :
  (forall x, f x == g x)%Q -> (Qsum (map f l) == Qsum (map g l))%Q.
Proof.
  intros H. induction l as [|x l IH]; simpl; [reflexivity|].
  now rewrite H, IH.
Qed.

Lemma Qsum_map_plus {A : Type} (f g : A -> Q) (l : list A) :
  (Qsum (map (fun x => f x + g x) l) == Qsum (map f l) + Qsum (map g l))%Q.
Proof.
  induction l as [|x l IH]; simpl.
  - now rewrite Qplus_0_l.
  - rewrite IH. ring.
Qed.

Lemma Qsum_map_zero {A : Type} (l : list A) :
  (Qsum (map (fun _ => 0) l) == 0)%Q.
Proof.
  induction l as [|x l IH]; simpl; [reflexivity|].
  now rewrite IH, Qplus_0_l.
Qed.

Lemma sum_cells_map {A : Type} (f : A -> cell) (l : list A) :
  (sum_cells (map f l) == Qsum (map (fun x => sum_cells [f x]) l))%Q.
Proof.
  induction l as [|x l IH]; simpl map; [reflexivity|].
  rewrite sum_cells_cons, IH. reflexivity.
Qed.

(** Summing column by column or row by row. *)
Lemma sum_cells_exchange {A : Type} (f : A -> string -> cell)
  (cols : list string) (rs : list A) :
  (sum_cells (flat_map (fun v => map (fun r => f r v) rs) cols)
   == Qsum (map (fun r => sum_cells (map (f r) cols)) rs))%Q.
Proof.
  induction cols as [|v cs IH]; simpl flat_map.
  - simpl map. rewrite Qsum_map_zero. reflexivity.
  - rewrite sum_cells_app, IH, sum_cells_map, <- Qsum_map_plus.
    apply Qsum_map_ext. intros r. simpl map. symmetry. apply sum_cells_cons.
Qed.

Lemma melted_filter (value_cols : list string) (s m : cell) (rs : list irow) :
  filter (fun lr : row => cell_eqb (lr "State") s && cell_eqb (lr "Measure Name") m)
         (melted value_cols rs)
  = melted value_cols (filter (same_state_measure s m) rs).
Proof.
  unfold melted. induction value_cols as [|v cs IH]; simpl; [reflexivity|].
  rewrite filter_app, IH. f_equal.
  clear. induction rs as [|r rs IH]; simpl; [reflexivity|].
  unfold same_state_measure at 1.
  change (melt_row ["State"; "Measure Name"] "Performance" "Hospitals" v (snd r) "State")
    with (snd r "State").
  change (melt_row ["State"; "Measure Name"] "Performance" "Hospitals" v (snd r)
            "Measure Name")
    with (snd r "Measure Name").
  destruct (cell_eqb (snd r "State") s && cell_eqb (snd r "Measure Name") m);
    simpl; now rewrite IH.
Qed.

Lemma melted_hospitals (value_cols : list string) (rs : list irow) :
  map (fun lr : row => lr "Hospitals") (melted value_cols rs)
  = flat_map (fun v => map (fun r : irow => snd r v) rs) value_cols.
Proof.
  unfold melted. induction value_cols as [|v cs IH]; simpl; [reflexivity|].
  rewrite map_app, IH, map_map. reflexivity.
Qed.

Lemma filter_map_snd {A B : Type} (p : B -> bool) (g : B -> cell)
  (l : list (A * B)) :
  map (fun r => g (snd r)) (filter (fun r => p (snd r)) l)
  = map g (filter p (map snd l)).
Proof.
  induction l as [|x l IH]; simpl; [reflexivity|].
  destruct (p (snd x)); simpl; now rewrite IH.
Qed.

Lemma filter_single {A : Type} (p : A -> bool) (l : list A) (x : A) :
  NoDup l -> In x l -> p x = true ->
  (forall y, In y l -> p y = true -> y = x) ->
  filter p l = [x].
Proof.
  induction l as [|y l IH]; simpl; intros Hnd Hin Hp Hu; [contradiction|].
  inversion Hnd as [|? ? Hy Hl]; subst.
  destruct Hin as [-> | Hin].
  - rewrite Hp. f_equal. apply filter_none. intros z Hz.
    destruct (p z) eqn:E; [|reflexivity].
    rewrite (Hu z (or_intror Hz) E) in Hz. contradiction.
  - destruct (p y) eqn:E.
    + rewrite (Hu y (or_introl eq_refl) E) in Hy. contradiction.
    + apply IH; auto.
Qed.

(** C5 (as amended).  For every state and measure, the "Hospitals" values of
    the long form under that state and measure add up to the counters of the
    selected group in all the kept rows of that state and measure, absent
    counters adding nothing; when a kept row is the only one of its state and
    measure, this is the total of the counters of that row. *)
Theorem benchmark_reshape_totals (g : string) (config : benchmark_config)
  (sm ss : list string) (df_state : DataFrame) :
  state_table df_state = true ->
  lookup g STATE_BENCHMARK_CONFIG = Some config ->
  exists state_filtered state_long table,
    tab5 sort_by g sm ss df_state
    = Ok (BenchmarkData state_filtered state_long table)
    /\ (forall s m,
          (long_total s m state_long
           == Qsum (map (wide_total (cfg_columns config))
                        (filter (same_state_measure s m) (rows state_filtered))))%Q)
    /\ (forall r, In r (rows state_filtered) ->
          (forall r', In r' (rows state_filtered) ->
             same_state_measure (snd r "State") (snd r "Measure Name") r' = true ->
             r' = r) ->
          (long_total (snd r "State") (snd r "Measure Name") state_long
           == wide_total (cfg_columns config) r)%Q).
Proof.
  intros Ht Hcfg.
  destruct (tab5_ok g config sm ss df_state Ht Hcfg)
    as (flt & sf & long & tbl & Hf & Htab & Hflt & Hsf & Hlong & _).
  exists sf, long, tbl. split; [exact Htab|].
  assert (Htotal : forall s m,
            (long_total s m long
             == Qsum (map (wide_total (cfg_columns config))
                          (filter (same_state_measure s m) (rows sf))))%Q).
  { intros s m. unfold long_total.
    assert (E : map (fun r : irow => snd r "Hospitals")
                    (filter (same_state_measure s m) (rows long))
                = map (fun lr : row => lr "Hospitals")
                      (filter (fun lr : row => cell_eqb (lr "State") s
                                               && cell_eqb (lr "Measure Name") m)
                              (map snd (rows long)))).
    { exact (filter_map_snd
               (fun lr : row => cell_eqb (lr "State") s
                                && cell_eqb (lr "Measure Name") m)
               (fun lr : row => lr "Hospitals") (rows long)). }
    rewrite E, Hlong, melted_filter, melted_hospitals.
    apply (sum_cells_exchange (fun r : irow => snd r)). }
  split; [exact Htotal|].
  intros r Hr Honly. rewrite Htotal.
  rewrite (filter_single _ _ r).
  - simpl. apply Qplus_0_r.
  - apply (NoDup_map_inv fst). rewrite Hsf, Hflt.
    do 3 apply NoDup_map_filter.
    unfold state_table in Ht. rewrite !andb_true_iff in Ht.
    now apply distinct_NoDup.
  - exact Hr.
  - unfold same_state_measure. now rewrite !cell_eqb_refl.
  - exact Honly.
Qed.

(** ** Empty selection *)

Lemma measure_in_nil (l : list irow) : filter (measure_in []) l = [].
Proof.
  apply filter_none. intros r _. unfold measure_in, isin.
  now destruct (snd r "Measure Name").
Qed.

Lemma map_fst_nil (l : list irow) : map fst l = [] -> l = [].
Proof.
  destruct l; [reflexivity | discriminate].
Qed.

(** C6.  With no measure selected the filter returns a table without rows,
    for the hospital table and for the state table, and every tab computes
    its tables on it without raising: the counts of the KPI row are 0, its
    coverage and average are absent, and the tables of the five tabs have no
    rows. *)
Theorem empty_selection (df_raw df_state : DataFrame) (g : string)
  (ss : list string) :
  hospital_table df_raw = true ->
  state_table df_state = true ->
  In g group_options ->
  exists df,
    apply_filters df_raw [] ss = Ok df
    /\ rows df = []
    /\ kpi df = Ok (mkKPI 0 0 NaN None)
    /\ perf df = Ok []
    /\ (tab2 sort_by g df = Ok VolumeNotApplicable
        \/ exists df_scatter top_vol,
             tab2 sort_by g df = Ok (VolumeData df_scatter top_vol)
             /\ rows df_scatter = [] /\ rows top_vol = [])
    /\ state_avg df = Ok []
    /\ (exists worst_10 best_10,
          tab4 sort_by df = Ok (worst_10, best_10)
          /\ rows worst_10 = [] /\ rows best_10 = [])
    /\ (exists state_filtered state_long table,
          tab5 sort_by g [] ss df_state
          = Ok (BenchmarkData state_filtered state_long table)
          /\ rows state_filtered = [] /\ rows state_long = []
          /\ rows table = []).
Proof.
  intros Hraw Hstate Hg.
  destruct (apply_filters_ok df_raw [] ss) as (df & Hf & _ & Hrows).
  { apply hospital_table_columns; [assumption | simpl; tauto]. }
  { apply hospital_table_columns; [assumption | simpl; tauto]. }
  destruct (apply_filters_hospital _ _ _ _ Hraw Hf) as [Ht _].
  rewrite measure_in_nil in Hrows. simpl in Hrows.
  exists df. split; [exact Hf|]. split; [exact Hrows|].
  split; [|split; [|split; [|split; [|split]]]].
  - unfold kpi, require.
    rewrite !(hospital_table_columns df _ Ht) by (simpl; tauto).
    cbn [bind]. unfold valid_score, column. rewrite Hrows. reflexivity.
  - destruct (perf_ok df Ht) as (out & Hp & _ & _ & Hn & _).
    { rewrite Hrows. contradiction. }
    rewrite Hp. destruct out as [|[k n] out]; [reflexivity|].
    destruct (Hn k n (or_introl eq_refl)) as [E Hpos].
    rewrite Hrows in E. simpl in E. lia.
  - destruct (String.eqb g "EDAC – Excess Hospital Return Days") eqn:E.
    + right. apply String.eqb_eq in E. subst g.
      destruct (tab2_edac df Ht) as (sc & top & sorted & Htab & Hsc & Hperm & _ & Htop & _).
      exists sc, top. split; [exact Htab|].
      rewrite Hrows in Hsc. simpl in Hsc.
      assert (Esc : rows sc = [])
        by (destruct (rows sc); [reflexivity | inversion Hsc]).
      split; [exact Esc|].
      rewrite Esc in Hperm. apply Permutation_nil in Hperm.
      rewrite Hperm in Htop. simpl in Htop. now apply map_fst_nil.
    + left. unfold tab2. now rewrite E.
  - destruct (state_avg_ok df Ht) as (out & Ha & _ & Hv & _).
    rewrite Ha. destruct out as [|[k v] out]; [reflexivity|].
    destruct (Hv k v (or_introl eq_refl)) as [(q & Hq) E].
    rewrite Hrows in E. simpl in E. congruence.
  - destruct (tab4_ok df Ht)
      as (rk & worst & best & _ & Htab & Hperm & _ & Hw & Hb & _).
    exists worst, best. split; [exact Htab|].
    rewrite Hrows in Hperm. simpl in Hperm. apply Permutation_nil in Hperm.
    rewrite Hperm in Hw, Hb. simpl in Hw, Hb. split.
    + now apply map_fst_nil.
    + apply map_fst_nil. now apply Permutation_nil.
  - assert (Hcfg : exists config, lookup g STATE_BENCHMARK_CONFIG = Some config).
    { simpl in Hg.
      repeat (destruct Hg as [<- | Hg]; [eexists; reflexivity|]). contradiction. }
    destruct Hcfg as (config & Hcfg).
    destruct (tab5_ok g config [] ss df_state Hstate Hcfg)
      as (flt & sf & long & tbl & _ & Htab & Hflt & Hsf & Hlong & Hperm).
    exists sf, long, tbl. split; [exact Htab|].
    rewrite measure_in_nil in Hflt. simpl in Hflt.
    rewrite Hflt in Hsf. simpl in Hsf.
    rewrite Hsf in Hlong, Hperm. split; [exact Hsf|]. split.
    + destruct (rows long) as [|lr l]; [reflexivity|]. exfalso.
      apply (f_equal (@List.length row)) in Hlong.
      rewrite melted_length in Hlong. simpl in Hlong. lia.
    + apply map_fst_nil. simpl in Hperm. now apply Permutation_nil.
Qed.

End Views.

(** ** Instances on the example tables *)

(** C2, an instance: the example of the specification, three rows counted. *)
Lemma perf_counts_witness :
  exists out, perf hospital_selection = Ok out
    /\ list_sum (map snd out) = 3.
Proof.
  destruct (perf_counts hospital_df hospital_selection [PN30] [] eq_refl eq_refl)
    as (out & Hp & _ & _ & _ & _ & Hsum).
  exists out. split; [exact Hp | exact Hsum].
Defined.

(** C2 as stated fails on the example of the specification: the hospital
    without a score is counted, under "Not Available"; counting over the rows
    with a score would leave it out. *)
Lemma perf_counts_rows_without_score :
  perf hospital_selection
  = Ok [ ([Str PN30; Str "Better than expected"], 1);
         ([Str PN30; Str "Not Available"], 1);
         ([Str PN30; Str "Worse than expected"], 1) ]
  /\ perf_scored_only hospital_selection
     = Ok [ ([Str PN30; Str "Better than expected"], 1);
            ([Str PN30; Str "Worse than expected"], 1) ]
  /\ perf hospital_selection <> perf_scored_only hospital_selection.
Proof.
  assert (H1 : perf hospital_selection
               = Ok [ ([Str PN30; Str "Better than expected"], 1);
                      ([Str PN30; Str "Not Available"], 1);
                      ([Str PN30; Str "Worse than expected"], 1) ])
    by reflexivity.
  assert (H2 : perf_scored_only hospital_selection
               = Ok [ ([Str PN30; Str "Better than expected"], 1);
                      ([Str PN30; Str "Worse than expected"], 1) ])
    by reflexivity.
  split; [exact H1|]. split; [exact H2|].
  rewrite H1, H2. discriminate.
Qed.

(** C4, an instance: twenty-four scored hospitals. *)
Lemma rankings_ordered_and_disjoint_witness :
  exists worst_10 best_10,
    tab4 (@isort_by irow) ranking_selection = Ok (worst_10, best_10)
    /\ List.length (rows worst_10) = 10
    /\ List.length (rows best_10) = 10
    /\ forall i, In i (map fst (rows worst_10)) -> ~ In i (map fst (rows best_10)).
Proof.
  destruct (rankings_ordered_and_disjoint (@isort_by irow)
              (@isort_by_perm irow) (@isort_by_sorted irow)
              ranking_df ranking_selection [PN30] [] eq_refl eq_refl)
    as (rk & worst & best & _ & Htab & _ & _ & _ & _ & _ & _ & H20).
  exists worst, best. split; [exact Htab|].
  apply H20. apply Nat.leb_le. reflexivity.
Defined.

(** C5, an instance: the state example, totals by state and measure. *)
Lemma benchmark_reshape_totals_witness :
  exists state_filtered state_long table,
    tab5 (@isort_by irow) CONDITION [PN30] [] state_df
    = Ok (BenchmarkData state_filtered state_long table)
    /\ forall s m,
         (long_total s m state_long
          == Qsum (map (wide_total (cfg_columns rate_config))
                       (filter (same_state_measure s m) (rows state_filtered))))%Q.
Proof.
  destruct (benchmark_reshape_totals (@isort_by irow) (@isort_by_perm irow)
              CONDITION rate_config [PN30] [] state_df eq_refl eq_refl)
    as (sf & long & tbl & Htab & Htotal & _).
  exists sf, long, tbl. split; [exact Htab | exact Htotal].
Defined.

(** C5 as stated fails when a state and measure come in two rows: the long
    form holds 110 hospitals under that state and measure, the two wide rows
    hold 10 and 100. *)
Lemma benchmark_totals_of_two_rows :
  (b <- tab5 (@isort_by irow) CONDITION [PN30] []
             (load_state_level_data parse_decimal state_csv_two_rows) ;;
   Ok (benchmark_totals (cfg_columns rate_config) b))
  = Ok [ (110%Q, 10%Q); (110%Q, 100%Q) ].
Proof. reflexivity. Qed.

(** C6, an instance: no measure selected, on the example tables. *)
Lemma empty_selection_witness :
  exists df,
    apply_filters hospital_df [] [] = Ok df
    /\ rows df = []
    /\ kpi df = Ok (mkKPI 0 0 NaN None)
    /\ perf df = Ok []
    /\ state_avg df = Ok [].
Proof.
  destruct (empty_selection (@isort_by irow) (@isort_by_perm irow)
              (@isort_by_sorted irow) hospital_df state_df EDAC []
              eq_refl eq_refl (or_introl eq_refl))
    as (df & Hf & Hrows & Hkpi & Hperf & _ & Havg & _).
  exists df. repeat split; assumption.
Defined.

(** C7, an instance: two hospitals of the EDAC example have a score and a
    number of patients. *)
Lemma volume_view_witness :
  tab2 (@isort_by irow) HWR edac_selection = Ok VolumeNotApplicable
  /\ exists df_scatter top_vol sorted,
       tab2 (@isort_by irow) EDAC edac_selection
       = Ok (VolumeData df_scatter top_vol)
       /\ Permutation (rows df_scatter) (rows sorted)
       /\ descending "Number of Patients" sorted
       /\ map fst (rows top_vol) = firstn 15 (map fst (rows sorted)).
Proof.
  destruct (volume_view (@isort_by irow) (@isort_by_perm irow)
              (@isort_by_sorted irow) edac_df edac_selection
              [RETURN_DAYS_PN] [] eq_refl eq_refl)
    as (Hna & sc & top & sorted & Htab & _ & Hperm & Hdesc & Htop & _).
  split.
  - apply Hna. discriminate.
  - exists sc, top, sorted. repeat split; assumption.
Defined.

(** C8, an instance: the state example, where the row of AK has no counter. *)
Lemma benchmark_keeps_rows_with_data_witness :
  exists flt state_filtered state_long table,
    apply_filters state_df [PN30] [] = Ok flt
    /\ tab5 (@isort_by irow) CONDITION [PN30] [] state_df
       = Ok (BenchmarkData state_filtered state_long table)
    /\ List.length (rows state_long)
       = List.length (cfg_columns rate_config) * List.length (rows state_filtered).
Proof.
  destruct (benchmark_keeps_rows_with_data (@isort_by irow) (@isort_by_perm irow)
              CONDITION rate_config [PN30] [] state_df eq_refl eq_refl)
    as (flt & sf & long & tbl & Hf & Htab & _ & _ & _ & _ & Hlen).
  exists flt, sf, long, tbl. repeat split; assumption.
Defined.

(** C10, an instance: the example of the specification. *)
Lemma state_averages_witness :
  exists out, state_avg hospital_selection = Ok out
    /\ ((exists v, In ([Str "CA"], v) out)
        <-> (exists r, In r (rows hospital_selection)
                       /\ snd r "State" = Str "CA"
                       /\ notna (snd r "Score") = true)).
Proof.
  destruct (state_averages hospital_df hospital_selection [PN30] []
              eq_refl eq_refl) as (out & Ha & Hiff & _).
  exists out. split; [exact Ha | exact (Hiff "CA")].
Defined.

(* ================================================================== *)
(** * Part 5: further properties of the script                        *)
(* ================================================================== *)

(** ** The loaders *)

Section Coercion.

Variable to_number : string -> option Q.




End Coercion.


(** ** The sidebar and the filter *)

Lemma apply_filters_inv (df d : DataFrame) (sm ss : list string) :
  apply_filters df sm ss = Ok d ->
  has_column "Measure Name" df = true
  /\ (ss = [] \/ has_column "State" df = true)
  /\ columns d = columns df
  /\ rows d = filter (state_in ss) (filter (measure_in sm) (rows df)).
Proof.
  unfold apply_filters, require.
  destruct (has_column "Measure Name" df) eqn:Hm; [|discriminate].
  cbn [bind]. destruct ss as [|s ss].
  - intros [= <-]. repeat split; auto. cbn [rows select]. unfold state_in.
    now rewrite filter_true.
  - change (has_column "State" (select (fun r => isin sm (r "Measure Name")) df))
      with (has_column "State" df).
    destruct (has_column "State" df) eqn:Hs; [|discriminate].
    cbn [bind]. intros [= <-]. repeat split; auto.
Qed.

(** X3.  The filter needs the "Measure Name" column always and the "State"
    column only when a state is selected: it raises KeyError for the first
    of them that is needed and missing, and otherwise returns the table with
    the same columns and, in their order, the rows whose measure is selected
    and, when states are selected, whose state is selected. *)
Theorem apply_filters_cases (df : DataFrame) (sm ss : list string) :
  match apply_filters df sm ss with
  | Ok d =>
      has_column "Measure Name" df = true
      /\ (ss = [] \/ has_column "State" df = true)
      /\ columns d = columns df
      /\ rows d = filter (state_in ss) (filter (measure_in sm) (rows df))
  | Raise e =>
      (e = KeyError "Measure Name" /\ has_column "Measure Name" df = false)
      \/ (e = KeyError "State" /\ has_column "Measure Name" df = true
          /\ ss <> [] /\ has_column "State" df = false)
  end.
Proof.
  destruct (apply_filters df sm ss) as [d|e] eqn:E.
  - now apply apply_filters_inv.
  - revert E. unfold apply_filters, require.
    destruct (has_column "Measure Name" df) eqn:Hm.
    + cbn [bind]. destruct ss as [|s ss]; [discriminate|].
      change (has_column "State" (select (fun r => isin sm (r "Measure Name")) df))
        with (has_column "State" df).
      destruct (has_column "State" df) eqn:Hs; [discriminate|].
      cbn [bind]. intros [= <-]. right. repeat split; auto. discriminate.
    + cbn [bind]. intros [= <-]. now left.
Qed.

Lemma filter_idem {A : Type} (p : A -> bool) (l : list A) :
  filter p (filter p l) = filter p l.
Proof.
  apply filter_all. intros x Hx. apply filter_In in Hx. tauto.
Qed.

Lemma filter_comm {A : Type} (p q : A -> bool) (l : list A) :
  filter p (filter q l) = filter q (filter p l).
Proof.
  rewrite !filter_filter_and. apply filter_ext. intros x. apply andb_comm.
Qed.

(** X4.  Filtering a filtered table again with the same selection returns
    it unchanged, and the result does not depend on which of the two tests,
    measure or state, is applied first. *)
Theorem apply_filters_idempotent (df d : DataFrame) (sm ss : list string) :
  apply_filters df sm ss = Ok d ->
  apply_filters d sm ss = Ok d
  /\ rows d = filter (measure_in sm) (filter (state_in ss) (rows df)).
Proof.
  intros H. destruct (apply_filters_inv _ _ _ _ H) as (Hm & Hs & Hc & Hr).
  split; [|now rewrite Hr, filter_comm].
  assert (Hsel : forall p : irow -> bool,
            (forall r, In r (rows d) -> p r = true) ->
            mkDF (columns d) (filter p (rows d)) = d).
  { intros p Hp. rewrite (filter_all p _ Hp). now destruct d. }
  unfold apply_filters, require, has_column. rewrite Hc.
  fold (has_column "Measure Name" df). rewrite Hm. cbn [bind].
  assert (E1 : select (fun r => isin sm (r "Measure Name")) d = d).
  { apply (Hsel (measure_in sm)). intros r Hr'. rewrite Hr in Hr'.
    apply filter_In in Hr'. destruct Hr' as [Hr' _].
    apply filter_In in Hr'. tauto. }
  rewrite E1. destruct ss as [|s ss]; [reflexivity|].
  destruct Hs as [Hs|Hs]; [discriminate|].
  unfold has_column. rewrite Hc. fold (has_column "State" df). rewrite Hs.
  cbn [bind]. f_equal.
  apply (Hsel (state_in (s :: ss))). intros r Hr'. rewrite Hr in Hr'.
  apply filter_In in Hr'. tauto.
Qed.

(** X4, an instance: the selection of the hospital example. *)
Lemma apply_filters_idempotent_witness :
  apply_filters hospital_selection [PN30] [] = Ok hospital_selection.
Proof.
  exact (proj1 (apply_filters_idempotent hospital_df hospital_selection
                  [PN30] [] eq_refl)).
Defined.





(** *** The options of the state filter *)

(** What the options are when they are computed. *)
Lemma state_options_ok (df : DataFrame) (opts : list cell) :
  state_options df = Ok opts ->
  has_column "State" df = true
  /\ StronglySorted (fun a b => cell_leb a b = true) opts
  /\ (forall v, In v opts ->
        notna v = true /\ exists r, In r (rows df) /\ snd r "State" = v)
  /\ (forall r, In r (rows df) -> notna (snd r "State") = true ->
        exists v, In v opts /\ cell_eqb (snd r "State") v = true)
  /\ (forall v0, List.length (filter (cell_eqb v0) opts) <= 1)
  /\ (existsb is_num opts && existsb is_str opts = false).
Proof.
  unfold state_options, require.
  destruct (has_column "State" df) eqn:Hc; [|discriminate]. cbn [bind].
  set (present := filter notna (column "State" df)).
  set (states := unique cell_eqb present).
  destruct (existsb is_num states && existsb is_str states) eqn:Hmix;
    [discriminate|].
  intros [= <-].
  assert (Hperm : Permutation states (isort_by cell_leb states))
    by apply isort_by_perm.
  split; [reflexivity|]. split; [|split; [|split; [|split]]].
  - apply isort_by_sorted; [apply cell_leb_total | apply cell_leb_trans].
  - intros v Hv. apply (Permutation_in _ (Permutation_sym Hperm)) in Hv.
    apply unique_from_In in Hv. apply filter_In in Hv. destruct Hv as [Hv Hn].
    split; [exact Hn|]. unfold column in Hv. apply in_map_iff in Hv.
    destruct Hv as (r & <- & Hr). eauto.
  - intros r Hr Hn.
    destruct (unique_from_covers cell cell_eqb cell_eqb_refl [] present
                (snd r "State")) as [H | (v & Hv & Ev)].
    + apply filter_In. split; [|exact Hn]. unfold column.
      apply in_map_iff. eauto.
    + discriminate.
    + exists v. split; [|exact Ev]. now apply (Permutation_in _ Hperm).
  - intros v0. rewrite <- (Permutation_filter_length _ _ _ Hperm).
    apply (unique_from_once cell cell_eqb cell_eqb_sym cell_eqb_trans).
  - rewrite <- Hmix. f_equal.
    + clear - Hperm. apply eq_true_iff_eq. rewrite !existsb_exists.
      split; intros (x & Hx & Hp); exists x; split; auto.
      * eapply Permutation_in; [apply Permutation_sym|]; eassumption.
      * eapply Permutation_in; eassumption.
    + clear - Hperm. apply eq_true_iff_eq. rewrite !existsb_exists.
      split; intros (x & Hx & Hp); exists x; split; auto.
      * eapply Permutation_in; [apply Permutation_sym|]; eassumption.
      * eapply Permutation_in; eassumption.
Qed.


(** X7.  Selecting every option of the state filter is not selecting none:
    with all states selected the filter keeps the rows of the selected
    measures that have a state, with no state selected it keeps all rows of
    the selected measures, with or without a state. *)
Theorem selecting_all_states (df_raw : DataFrame) (sm ss : list string) :
  has_column "Measure Name" df_raw = true ->
  state_options df_raw = Ok (map Str ss) ->
  ss <> [] ->
  exists all none,
    apply_filters df_raw sm ss = Ok all
    /\ apply_filters df_raw sm [] = Ok none
    /\ rows all = filter (fun r : irow => notna (snd r "State"))
                         (filter (measure_in sm) (rows df_raw))
    /\ rows none = filter (measure_in sm) (rows df_raw).
Proof.
  intros Hm Hopts Hne.
  destruct (state_options_ok _ _ Hopts) as (Hs & _ & Hin & Hcov & _).
  destruct (apply_filters_ok df_raw sm ss Hm Hs) as (all & Hall & _ & Hrows).
  destruct (apply_filters_ok df_raw sm [] Hm Hs) as (none & Hnone & _ & Hrows0).
  exists all, none. split; [exact Hall|]. split; [exact Hnone|]. split.
  - rewrite Hrows. apply filter_ext_in. intros r Hr. apply filter_In in Hr.
    destruct Hr as [Hr _]. unfold state_in.
    destruct ss as [|s0 ss0]; [contradiction|].
    destruct (notna (snd r "State")) eqn:Hn.
    + destruct (Hcov r Hr Hn) as (v & Hv & Ev). apply in_map_iff in Hv.
      destruct Hv as (s & <- & Hs'). apply cell_eqb_str in Ev. rewrite Ev.
      change (mem_string s (s0 :: ss0) = true). now apply mem_string_iff.
    + now destruct (snd r "State").
  - rewrite Hrows0. unfold state_in. apply filter_true.
Qed.

(** X7, an instance: the two states of the hospital example. *)
Lemma selecting_all_states_witness :
  exists all none,
    apply_filters hospital_df [PN30] ["CA"; "TX"] = Ok all
    /\ apply_filters hospital_df [PN30] [] = Ok none
    /\ rows all = filter (fun r : irow => notna (snd r "State"))
                         (filter (measure_in [PN30]) (rows hospital_df))
    /\ rows none = filter (measure_in [PN30]) (rows hospital_df).
Proof.
  apply (selecting_all_states hospital_df [PN30] ["CA"; "TX"]).
  - reflexivity.
  - reflexivity.
  - discriminate.
Defined.

(** ** The KPI row *)

Lemma unique_from_length {K : Type} (eqb : K -> K -> bool) (seen l : list K) :
  List.length (unique_from eqb seen l) <= List.length l.
Proof.
  revert seen. induction l as [|x l IH]; intros seen; simpl; [lia|].
  destruct (existsb (eqb x) seen); simpl.
  - specialize (IH seen). lia.
  - specialize (IH (x :: seen)). lia.
Qed.

Lemma unique_from_NoDup {K : Type} (eqb : K -> K -> bool) (seen l : list K) :
  (forall a, eqb a a = true) ->
  NoDup (unique_from eqb seen l)
  /\ forall y, In y (unique_from eqb seen l) -> existsb (eqb y) seen = false.
Proof.
  intros Hrefl. revert seen. induction l as [|x l IH]; intros seen; simpl.
  - split; [constructor | contradiction].
  - destruct (existsb (eqb x) seen) eqn:E; [apply IH|].
    destruct (IH (x :: seen)) as [Hnd Hseen]. split.
    + constructor; [|exact Hnd]. intros Hin. specialize (Hseen x Hin).
      simpl in Hseen. now rewrite Hrefl in Hseen.
    + intros y [<- | Hy]; [exact E|]. specialize (Hseen y Hy). simpl in Hseen.
      apply orb_false_iff in Hseen. tauto.
Qed.

Lemma nunique_le_length (l : list cell) : nunique l <= List.length l.
Proof.
  unfold nunique, unique.
  pose proof (unique_from_length cell_eqb [] (filter notna l)).
  pose proof (filter_length_le notna l). lia.
Qed.

Lemma nunique_le_choices (l : list cell) (choices : list string) :
  (forall v, In v l -> exists s, v = Str s /\ In s choices) ->
  nunique l <= List.length choices.
Proof.
  intros H. unfold nunique, unique.
  rewrite <- (length_map Str choices). apply NoDup_incl_length.
  - apply (unique_from_NoDup cell_eqb [] _ cell_eqb_refl).
  - intros v Hv. apply unique_from_In in Hv. apply filter_In in Hv.
    destruct Hv as [Hv _]. destruct (H v Hv) as (s & -> & Hs).
    now apply in_map.
Qed.




(** The KPI row of a hospital table. *)
Lemma kpi_value (df : DataFrame) :
  hospital_table df = true ->
  kpi df
  = Ok (mkKPI (nunique (column "Facility ID" df))
              (nunique (column "Measure Name" df))
              (bool_mean (valid_score df))
              (if existsb (fun b : bool => b) (valid_score df)
               then Some (mean (numbers (column "Score"
                                           (select (fun r => notna (r "Score")) df))))
               else None)).
Proof.
  intros Ht. unfold kpi, require.
  rewrite !(hospital_table_columns df _ Ht) by (simpl; tauto). cbn [bind].
  assert (Hn : require_numeric "Score" df = Ok tt).
  { unfold require_numeric.
    pose proof (hospital_table_numeric df "Score" Ht (or_introl eq_refl)) as Hn.
    unfold numeric_column in Hn. apply negb_true_iff in Hn. now rewrite Hn. }
  rewrite Hn. cbn [bind].
  now destruct (existsb _ (valid_score df)).
Qed.

(** X8.  In the KPI row the number of hospitals is at most the number of
    rows of the filtered table, and the number of measures is at most the
    number of selected measures; it is at least 1 when the table has a row. *)
Theorem kpi_counts_bounded (df_raw df : DataFrame) (sm ss : list string) :
  hospital_table df_raw = true ->
  apply_filters df_raw sm ss = Ok df ->
  exists k, kpi df = Ok k
    /\ kpi_hospitals k <= List.length (rows df)
    /\ kpi_measures k <= List.length sm
    /\ (rows df <> [] -> 1 <= kpi_measures k).
Proof.
  intros Hraw Hf. destruct (apply_filters_hospital _ _ _ _ Hraw Hf) as [Ht _].
  eexists. split; [apply (kpi_value df Ht)|]. cbn [kpi_hospitals kpi_measures].
  split; [|split].
  - pose proof (nunique_le_length (column "Facility ID" df)) as H.
    unfold column in H at 2. now rewrite length_map in H.
  - apply nunique_le_choices. intros v Hv. unfold column in Hv.
    apply in_map_iff in Hv. destruct Hv as (r & <- & Hr).
    destruct (filtered_measure_name _ _ _ _ r Hraw Hf Hr) as (m & Hm & Hin).
    eauto.
  - intros Hne. destruct (rows df) as [|r l] eqn:E; [contradiction|].
    destruct (filtered_measure_name _ _ _ _ r Hraw Hf) as (m & Hm & _).
    { rewrite E. now left. }
    unfold nunique, unique, column. rewrite E. cbn [map]. rewrite Hm.
    simpl. lia.
Qed.

(** X8, an instance: the hospital example. *)
Lemma kpi_counts_bounded_witness :
  exists k, kpi hospital_selection = Ok k
    /\ kpi_hospitals k <= 3 /\ kpi_measures k <= 1.
Proof.
  destruct (kpi_counts_bounded hospital_df hospital_selection [PN30] []
              eq_refl eq_refl) as (k & Hk & Hh & Hm & _).
  exists k. repeat split; assumption.
Defined.



(** ** Tab 3: the state averages are between the scores *)



(** ** The tables of the tabs, row by row *)

Lemma getitems_rows (cs : list string) (df : DataFrame) :
  forallb (fun c => has_column c df) cs = true ->
  exists d, getitems cs df = Ok d
    /\ columns d = cs
    /\ Forall2 (same_on cs) (rows df) (rows d).
Proof.
  intros H. unfold getitems. rewrite (proj2 (require_all_ok cs df) H).
  cbn [bind]. eexists. split; [reflexivity|]. split; [reflexivity|].
  cbn [rows]. induction (rows df) as [|r l IH]; simpl; constructor; auto.
  split; [reflexivity|]. intros c Hc. cbn [snd].
  apply mem_string_iff in Hc. now rewrite Hc.
Qed.

Lemma Forall2_In_r {A B : Type} (R : A -> B -> Prop) (l : list A) (l' : list B)
  (b : B) :
  Forall2 R l l' -> In b l' -> exists a, In a l /\ R a b.
Proof.
  induction 1 as [|x y l l' Hxy _ IH]; simpl; [contradiction|].
  intros [<- | Hb]; [exists x; auto|].
  destruct (IH Hb) as (a & Ha & Hab). exists a. auto.
Qed.

Lemma same_on_labels (cs : list string) (l l' : list irow) :
  Forall2 (same_on cs) l l' -> map fst l' = map fst l.
Proof.
  induction 1 as [|x y l l' [Hl _] _ IH]; simpl; congruence.
Qed.

Lemma same_on_column (cs : list string) (c : string) (l l' : list irow) :
  In c cs -> Forall2 (same_on cs) l l' ->
  map (fun r : irow => snd r c) l' = map (fun r : irow => snd r c) l.
Proof.
  intros Hc. induction 1 as [|x y l l' [_ Hxy] _ IH]; simpl; [reflexivity|].
  now rewrite IH, (Hxy c Hc).
Qed.

Lemma StronglySorted_across {A : Type} (R : A -> A -> Prop) (n : nat)
  (l : list A) (a b : A) :
  StronglySorted R l -> In a (firstn n l) -> In b (skipn n l) -> R a b.
Proof.
  intros Hs. revert n. induction Hs as [|x l Hs IH Hx]; intros n Ha Hb.
  - destruct n; contradiction.
  - destruct n as [|n]; [contradiction|]. simpl in Ha, Hb.
    destruct Ha as [<- | Ha]; [|eauto].
    rewrite Forall_forall in Hx. apply Hx. eapply In_skipn. exact Hb.
Qed.

Lemma In_firstn_or_skipn {A : Type} (n : nat) (l : list A) (x : A) :
  In x l -> In x (firstn n l) \/ In x (skipn n l).
Proof.
  intros H. rewrite <- (firstn_skipn n l) in H. now apply in_app_or.
Qed.

Lemma descends_geb (x y : cell) :
  is_str x = false -> is_str y = false ->
  cell_geb x y = true -> descends x y.
Proof.
  destruct x as [|p|s], y as [|q|t]; simpl; try discriminate; auto.
  intros _ _. apply Qle_bool_iff.
Qed.

Section Tables.

Variable sort_by : (irow -> irow -> bool) -> list irow -> list irow.

Hypothesis sort_by_perm : forall le l, Permutation l (sort_by le l).

Hypothesis sort_by_sorted : forall le l,
  (forall a b, le a b = true \/ le b a = true) ->
  (forall a b c, le a b = true -> le b c = true -> le a c = true) ->
  StronglySorted (fun a b => le a b = true) (sort_by le l).

(** Tab 4 on a hospital table, row by row. *)
Lemma tab4_rows (df : DataFrame) :
  hospital_table df = true ->
  exists rk worst_10 best_10 resorted,
    tab4 sort_by df = Ok (worst_10, best_10)
    /\ rows rk = sort_by (by_key false "Score")
                         (filter (fun r : irow => notna (snd r "Score")) (rows df))
    /\ StronglySorted (fun a b => by_key false "Score" a b = true) (rows rk)
    /\ Forall2 (same_on ["Facility Name"; "State"; "Score"])
               (firstn 10 (rows rk)) (rows worst_10)
    /\ Permutation (skipn (List.length (rows rk) - 10) (rows rk)) resorted
    /\ Forall2 (same_on ["Facility Name"; "State"; "Score"])
               resorted (rows best_10).
Proof.
  intros Ht.
  destruct (ranked_ok sort_by sort_by_perm sort_by_sorted df Ht)
    as (rk & Hrk & Hcols & Hrows & Hnum & _ & _ & _).
  assert (Hshown : forall d, columns d = columns rk ->
            forallb (fun c => has_column c d) ["Facility Name"; "State"; "Score"]
            = true).
  { intros d Hd. apply forallb_forall. intros c Hc. unfold has_column.
    rewrite Hd, Hcols. apply (hospital_table_columns df c Ht).
    simpl in *. tauto. }
  destruct (getitems_rows _ (head 10 rk) (Hshown _ eq_refl))
    as (worst & Hworst & _ & Hw).
  set (tl := tail 10 rk).
  assert (Htl_num : numeric_column "Score" tl = true).
  { apply (numeric_column_incl _ rk); [|assumption].
    apply column_incl. intros r Hr. eapply In_skipn. exact Hr. }
  assert (Htl_score : has_column "Score" tl = true).
  { pose proof (Hshown tl eq_refl) as H. rewrite forallb_forall in H.
    apply H. simpl. tauto. }
  pose proof (sort_values_ok sort_by "Score" true tl Htl_score Htl_num) as Hsort.
  set (b0 := mkDF (columns tl) (sort_by (by_key true "Score") (rows tl))) in Hsort.
  destruct (getitems_rows _ b0 (Hshown b0 eq_refl)) as (best & Hbest & _ & Hb).
  exists rk, worst, best, (rows b0).
  split; [|split; [exact Hrows|split; [|split; [exact Hw|split; [|exact Hb]]]]].
  - unfold tab4. rewrite Hrk. cbn [bind]. rewrite Hworst. cbn [bind].
    fold tl. rewrite Hsort. cbn [bind]. rewrite Hbest. reflexivity.
  - rewrite Hrows. apply (sort_values_sorted sort_by sort_by_sorted).
  - apply sort_by_perm.
Qed.

(** X11.  The two ranking lists hold the extremes: no hospital with a score
    that is left out of the first list has a higher score than a hospital in
    it, and none that is left out of the second list has a lower score than
    a hospital in it. *)
Theorem rankings_hold_extremes (df_raw df : DataFrame) (sm ss : list string) :
  hospital_table df_raw = true ->
  apply_filters df_raw sm ss = Ok df ->
  exists worst_10 best_10,
    tab4 sort_by df = Ok (worst_10, best_10)
    /\ (forall a r p q,
          In a (rows worst_10) -> In r (rows df) ->
          ~ In (fst r) (map fst (rows worst_10)) ->
          snd a "Score" = Num p -> snd r "Score" = Num q -> (q <= p)%Q)
    /\ (forall b r p q,
          In b (rows best_10) -> In r (rows df) ->
          ~ In (fst r) (map fst (rows best_10)) ->
          snd b "Score" = Num p -> snd r "Score" = Num q -> (p <= q)%Q).
Proof.
  intros Hraw Hf. destruct (apply_filters_hospital _ _ _ _ Hraw Hf) as [Ht _].
  destruct (tab4_rows df Ht)
    as (rk & worst & best & b0 & Htab & Hrows & Hsorted & Hw & Hperm & Hb).
  exists worst, best. split; [exact Htab|].
  assert (Hin : forall r q, In r (rows df) -> snd r "Score" = Num q ->
                            In r (rows rk)).
  { intros r q Hr Hq. rewrite Hrows. apply (Permutation_in _ (sort_by_perm _ _)).
    apply filter_In. split; [exact Hr|]. now rewrite Hq. }
  assert (Hgeb : forall x y p q, by_key false "Score" x y = true ->
                   snd x "Score" = Num p -> snd y "Score" = Num q -> (q <= p)%Q).
  { intros x y p q H Hx Hy. unfold by_key, key_order in H. rewrite Hx, Hy in H.
    now apply Qle_bool_iff. }
  split.
  - intros a r p q Ha Hr Hout Hp Hq.
    destruct (Forall2_In_r _ _ _ a Hw Ha) as (a' & Ha' & Hl & Hc).
    rewrite (Hc "Score") in Hp by (simpl; tauto).
    destruct (In_firstn_or_skipn 10 _ r (Hin r q Hr Hq)) as [H|H].
    + exfalso. apply Hout. rewrite (same_on_labels _ _ _ Hw).
      now apply in_map.
    + apply (Hgeb a' r); auto.
      exact (StronglySorted_across _ 10 _ a' r Hsorted Ha' H).
  - intros b r p q Hbin Hr Hout Hp Hq.
    destruct (Forall2_In_r _ _ _ b Hb Hbin) as (b' & Hb' & Hl & Hc).
    rewrite (Hc "Score") in Hp by (simpl; tauto).
    apply (Permutation_in _ (Permutation_sym Hperm)) in Hb'.
    destruct (In_firstn_or_skipn (List.length (rows rk) - 10) _ r (Hin r q Hr Hq))
      as [H|H].
    + apply (Hgeb r b'); auto.
      exact (StronglySorted_across _ _ _ r b' Hsorted H Hb').
    + exfalso. apply Hout. rewrite (same_on_labels _ _ _ Hb).
      apply in_map. now apply (Permutation_in _ Hperm).
Qed.

(** X12.  With ten scored hospitals or fewer the two ranking lists show the
    same hospitals: each holds every row of the filtered table that has a
    score. *)
Theorem rankings_of_few_rows (df_raw df : DataFrame) (sm ss : list string) :
  hospital_table df_raw = true ->
  apply_filters df_raw sm ss = Ok df ->
  List.length (filter (fun r : irow => notna (snd r "Score")) (rows df)) <= 10 ->
  exists worst_10 best_10,
    tab4 sort_by df = Ok (worst_10, best_10)
    /\ Permutation (map fst (filter (fun r : irow => notna (snd r "Score"))
                                    (rows df)))
                   (map fst (rows worst_10))
    /\ Permutation (map fst (rows worst_10)) (map fst (rows best_10)).
Proof.
  intros Hraw Hf Hfew. destruct (apply_filters_hospital _ _ _ _ Hraw Hf) as [Ht _].
  destruct (tab4_ok sort_by sort_by_perm sort_by_sorted df Ht)
    as (rk & worst & best & _ & Htab & Hperm & _ & Hw & Hb & _).
  exists worst, best. split; [exact Htab|].
  assert (Hlen : List.length (rows rk) <= 10).
  { now rewrite <- (Permutation_length Hperm). }
  assert (Hw' : map fst (rows worst) = map fst (rows rk)).
  { rewrite Hw. apply firstn_all2. rewrite length_map. unfold irow in *. lia. }
  replace (List.length (rows rk) - 10) with 0 in Hb by lia.
  cbn [skipn] in Hb. split.
  - rewrite Hw'. now apply Permutation_map.
  - now rewrite Hw'.
Qed.

End Tables.

(** X11, an instance: the twenty-four hospitals. *)
Lemma rankings_hold_extremes_witness :
  exists worst_10 best_10,
    tab4 (@isort_by irow) ranking_selection = Ok (worst_10, best_10)
    /\ forall a r p q,
         In a (rows worst_10) -> In r (rows ranking_selection) ->
         ~ In (fst r) (map fst (rows worst_10)) ->
         snd a "Score" = Num p -> snd r "Score" = Num q -> (q <= p)%Q.
Proof.
  destruct (rankings_hold_extremes (@isort_by irow) (@isort_by_perm irow)
              (@isort_by_sorted irow) ranking_df ranking_selection [PN30] []
              eq_refl eq_refl) as (worst & best & Htab & Hw & _).
  exists worst, best. split; [exact Htab | exact Hw].
Defined.

(** X12, an instance: the hospital example has two scored hospitals. *)
Lemma rankings_of_few_rows_witness :
  exists worst_10 best_10,
    tab4 (@isort_by irow) hospital_selection = Ok (worst_10, best_10)
    /\ Permutation (map fst (rows worst_10)) (map fst (rows best_10)).
Proof.
  destruct (rankings_of_few_rows (@isort_by irow) (@isort_by_perm irow)
              (@isort_by_sorted irow) hospital_df hospital_selection [PN30] []
              eq_refl eq_refl) as (worst & best & Htab & _ & Hsame).
  - apply Nat.leb_le. reflexivity.
  - exists worst, best. split; [exact Htab | exact Hsame].
Defined.

Lemma numeric_cell (c : string) (df : DataFrame) (r : irow) :
  numeric_column c df = true -> In r (rows df) -> is_str (snd r c) = false.
Proof.
  unfold numeric_column, column. intros Hn Hr. apply negb_true_iff in Hn.
  destruct (is_str (snd r c)) eqn:E; [|reflexivity].
  rewrite <- Hn. symmetry. apply existsb_exists. exists (snd r c).
  split; [|exact E]. apply in_map_iff. eauto.
Qed.

Lemma present_number (v : cell) :
  notna v = true -> is_str v = false -> exists q, v = Num q.
Proof.
  destruct v as [|q|s]; simpl; try discriminate. eauto.
Qed.

Lemma map_snd_combine_seq_map {A B : Type} (k : nat) (f : A -> B) (l : list A) :
  map snd (combine (seq k (List.length l)) (map f l)) = map f l.
Proof.
  rewrite <- (length_map f l). apply map_snd_combine_seq.
Qed.

Lemma StronglySorted_weaken {A : Type} (R R' : A -> A -> Prop) (l : list A) :
  (forall a b, In a l -> In b l -> R a b -> R' a b) ->
  StronglySorted R l -> StronglySorted R' l.
Proof.
  intros H Hs. induction Hs as [|x l Hs IH Hx]; constructor.
  - apply IH. intros a b Ha Hb. apply H; now right.
  - rewrite Forall_forall in *. intros b Hb.
    apply H; [now left | now right | now apply Hx].
Qed.

(** The frame of the state averages, cell by cell. *)
Lemma state_frame_cells (avg : list (key * cell)) :
  map (fun r : irow => (snd r "State", snd r "Score"))
      (rows (reset_index ["State"] "Score" avg))
  = map (fun kv : key * cell => (hd NaN (fst kv), snd kv)) avg.
Proof.
  unfold reset_index. cbn [rows]. unfold irow.
  rewrite <- (map_map snd (fun r : row => (r "State", r "Score"))).
  rewrite map_snd_combine_seq_map, map_map.
  apply map_ext. intros [k v]. destruct k; reflexivity.
Qed.

Lemma rename_score_cells (d : DataFrame) :
  map (fun r : irow => (snd r "State", snd r "Average Score"))
      (rows (rename "Score" "Average Score" d))
  = map (fun r : irow => (snd r "State", snd r "Score")) (rows d).
Proof.
  unfold rename. cbn [rows]. rewrite map_map. apply map_ext.
  intros r. reflexivity.
Qed.

Lemma rename_score_column (d : DataFrame) :
  column "Average Score" (rename "Score" "Average Score" d) = column "Score" d.
Proof.
  unfold column, rename. cbn [rows]. rewrite map_map. apply map_ext.
  intros r. reflexivity.
Qed.

(** Every bar of the benchmark chart has a colour and a place in the legend. *)
Lemma config_colours (g : string) (config : benchmark_config) (v : string) :
  lookup g STATE_BENCHMARK_CONFIG = Some config ->
  In v (cfg_columns config) ->
  (exists colour, lookup v (cfg_colors config) = Some colour)
  /\ In v PERF_ORDER_STATE.
Proof.
  intros Hcfg Hv.
  destruct (config_cases g config Hcfg) as [-> | ->]; simpl in Hv;
    repeat (destruct Hv as [<- | Hv]; [split; [eexists; reflexivity | simpl; tauto]|]);
    contradiction.
Qed.

Section Summaries.

Variable sort_by : (irow -> irow -> bool) -> list irow -> list irow.

Hypothesis sort_by_perm : forall le l, Permutation l (sort_by le l).

Hypothesis sort_by_sorted : forall le l,
  (forall a b, le a b = true \/ le b a = true) ->
  (forall a b c, le a b = true -> le b c = true -> le a c = true) ->
  StronglySorted (fun a b => le a b = true) (sort_by le l).

(** X13.  In the volume tab of the EDAC group every point of the scatter has
    a bubble size that is a number, and the table of high-volume
    contributors holds the fifteen largest patient counts of the scatter, in
    descending order: no hospital left out has more patients than one that
    is shown. *)
Theorem volume_bubbles_and_top (df_raw df : DataFrame) (sm ss : list string) :
  hospital_table df_raw = true ->
  apply_filters df_raw sm ss = Ok df ->
  exists df_scatter top_vol qs,
    tab2 sort_by EDAC df = Ok (VolumeData df_scatter top_vol)
    /\ (forall b, In b (rows df_scatter) -> exists q, snd b "bubble_size" = Num q)
    /\ Permutation (column "Number of Patients" df_scatter) (map Num qs)
    /\ StronglySorted (fun p q => (q <= p)%Q) qs
    /\ column "Number of Patients" top_vol = map Num (firstn 15 qs)
    /\ (forall p q, In p (firstn 15 qs) -> In q (skipn 15 qs) -> (q <= p)%Q).
Proof.
  intros Hraw Hf. destruct (apply_filters_hospital _ _ _ _ Hraw Hf) as [Ht _].
  destruct (tab2_edac sort_by sort_by_perm sort_by_sorted df Ht)
    as (sc & top & sorted & Htab & Hrel & Hperm & (qs & Hq & Hs) & _ & Hcol).
  exists sc, top, qs. split; [exact Htab|].
  split; [|split; [|split; [exact Hs|split]]].
  - intros b Hb.
    destruct (Forall2_In_r _ _ _ b Hrel Hb) as (a & Ha & _ & _ & Hret & Hnan).
    apply filter_In in Ha. destruct Ha as [Ha Hpresent].
    apply andb_true_iff in Hpresent. destruct Hpresent as [_ Hpat].
    pose proof (numeric_cell "Number of Patients Returned" df a
                  (hospital_table_numeric df _ Ht
                     (or_intror (or_intror (or_intror (or_introl eq_refl))))) Ha)
      as Hr.
    pose proof (numeric_cell "Number of Patients" df a
                  (hospital_table_numeric df _ Ht
                     (or_intror (or_intror (or_introl eq_refl)))) Ha) as Hp.
    assert (Hcases : snd a "Number of Patients Returned" = NaN
                     \/ notna (snd a "Number of Patients Returned") = true).
    { destruct (snd a "Number of Patients Returned"); simpl; auto. }
    destruct Hcases as [E | E].
    + rewrite (Hnan E). now apply present_number.
    + rewrite (Hret E). now apply present_number.
  - rewrite <- Hq. unfold column. now apply Permutation_map.
  - rewrite Hcol by (simpl; tauto). now rewrite Hq, firstn_map.
  - intros p q Hp Hq'. exact (StronglySorted_across _ 15 _ p q Hs Hp Hq').
Qed.

(** The table under the map runs through once the averages are numbers. *)
Lemma tab3_state_table_ok (df : DataFrame) (avg : list (key * cell)) :
  state_avg df = Ok avg ->
  (forall k v, In (k, v) avg -> exists q, v = Num q) ->
  exists table,
    tab3_state_table sort_by df = Ok table
    /\ columns table = ["State"; "Average Score"]
    /\ Permutation (map (fun kv : key * cell => (hd NaN (fst kv), snd kv)) avg)
                   (map (fun r : irow => (snd r "State", snd r "Average Score"))
                        (rows table))
    /\ descending "Average Score" table.
Proof.
  intros Havg Hnum. unfold tab3_state_table. rewrite Havg. cbn [bind].
  set (frame := reset_index ["State"] "Score" avg).
  pose proof (state_frame_cells avg) as Hcells. fold frame in Hcells.
  assert (Hcol : column "Score" frame = map snd avg).
  { unfold column.
    transitivity (map snd (map (fun r : irow => (snd r "State", snd r "Score"))
                               (rows frame))).
    - rewrite map_map. reflexivity.
    - rewrite Hcells, map_map. reflexivity. }
  assert (Hall : forall v, In v (column "Score" frame) -> exists q, v = Num q).
  { rewrite Hcol. intros v Hv. apply in_map_iff in Hv.
    destruct Hv as ([k v'] & <- & Hin). eauto. }
  assert (Hstr : numeric_column "Score" frame = true).
  { unfold numeric_column. apply negb_true_iff.
    destruct (existsb is_str (column "Score" frame)) eqn:E; [|reflexivity].
    apply existsb_exists in E. destruct E as (v & Hv & Hs).
    destruct (Hall v Hv) as [q ->]. discriminate. }
  assert (Hna : existsb isna (column "Score" frame) = false).
  { destruct (existsb isna (column "Score" frame)) eqn:E; [|reflexivity].
    apply existsb_exists in E. destruct E as (v & Hv & Hs).
    destruct (Hall v Hv) as [q ->]. discriminate. }
  rewrite (sort_values_ok sort_by "Score" false frame eq_refl Hstr). cbn [bind].
  set (sorted := mkDF (columns frame) (sort_by (by_key false "Score") (rows frame))).
  assert (Hincl : incl (rows sorted) (rows frame))
    by apply (sort_by_incl sort_by sort_by_perm).
  eexists. split; [reflexivity|]. split; [reflexivity|]. split.
  - rewrite rename_score_cells, <- Hcells. apply Permutation_map.
    apply sort_by_perm.
  - destruct (descending_of_sorted "Score" sorted) as (qs & Hq & Hs).
    + apply (numeric_column_incl _ frame); [now apply column_incl | exact Hstr].
    + apply (existsb_incl_false _ (column "Score" frame));
        [now apply column_incl | exact Hna].
    + apply (sort_values_sorted sort_by sort_by_sorted).
    + exists qs. now rewrite rename_score_column.
Qed.

(** X14.  The table under the map lists each state of [state_avg] once with
    its average, under the columns "State" and "Average Score", from the
    highest average to the lowest. *)
Theorem state_table_ranks_averages (df_raw df : DataFrame) (sm ss : list string) :
  hospital_table df_raw = true ->
  apply_filters df_raw sm ss = Ok df ->
  exists avg table,
    state_avg df = Ok avg
    /\ tab3_state_table sort_by df = Ok table
    /\ columns table = ["State"; "Average Score"]
    /\ Permutation (map (fun kv : key * cell => (hd NaN (fst kv), snd kv)) avg)
                   (map (fun r : irow => (snd r "State", snd r "Average Score"))
                        (rows table))
    /\ descending "Average Score" table.
Proof.
  intros Hraw Hf. destruct (apply_filters_hospital _ _ _ _ Hraw Hf) as [Ht _].
  destruct (state_avg_ok df Ht) as (avg & Havg & _ & Hv & _).
  destruct (tab3_state_table_ok df avg Havg) as (table & Htab & H).
  - intros k v Hin. exact (proj1 (Hv k v Hin)).
  - exists avg, table. auto.
Qed.

(** Tab 5 on a state table, with the rows of the summary table. *)
Lemma tab5_table (g : string) (config : benchmark_config) (sm ss : list string)
  (df_state : DataFrame) :
  state_table df_state = true ->
  lookup g STATE_BENCHMARK_CONFIG = Some config ->
  exists state_filtered state_long table shown,
    tab5 sort_by g sm ss df_state
    = Ok (BenchmarkData state_filtered state_long table)
    /\ columns table = ["State"; "Measure Name"] ++ cfg_columns config
    /\ Forall2 (same_on (["State"; "Measure Name"] ++ cfg_columns config))
               (rows state_filtered) shown
    /\ rows table
       = sort_by (by_key false (nth (List.length (cfg_columns config) - 2)
                                    (cfg_columns config) ""))
                 shown
    /\ (forall r, In r shown ->
          is_str (snd r (nth (List.length (cfg_columns config) - 2)
                             (cfg_columns config) "")) = false).
Proof.
  intros Ht Hcfg.
  destruct (config_columns g config Hcfg) as [Hincl Hnth].
  destruct (apply_filters_state df_state sm ss Ht) as (flt & Hf & Hflt & Hrows).
  set (value_cols := cfg_columns config) in *.
  assert (Hhas : forall d c, columns d = columns flt -> In c STATE_COLUMNS ->
                             has_column c d = true).
  { intros d c Hd Hc. unfold has_column. rewrite Hd.
    now apply state_table_columns. }
  assert (Hvalue : forall d, columns d = columns flt ->
                     forallb (fun c => has_column c d) value_cols = true).
  { intros d Hd. apply forallb_forall. intros c Hc. apply Hhas; [assumption|].
    right. right. now apply Hincl. }
  assert (Hids : forall d, columns d = columns flt ->
                   forallb (fun c => has_column c d) ["State"; "Measure Name"] = true).
  { intros d Hd. apply forallb_forall. intros c Hc. apply Hhas; [assumption|].
    simpl in *. tauto. }
  set (sf := select (fun r => negb (forallb (fun c => isna (r c)) value_cols)) flt).
  assert (Hsf : state_table sf = true) by now apply state_table_select.
  assert (Hall : forallb (fun c => has_column c sf) (["State"; "Measure Name"] ++ value_cols)
                 = true).
  { rewrite forallb_app, (Hids sf eq_refl), (Hvalue sf eq_refl). reflexivity. }
  destruct (getitems_rows _ sf Hall) as (t0 & Ht0 & Ht0c & Ht0r).
  set (key := nth (List.length value_cols - 2) value_cols "") in *.
  assert (Hkey : In key (["State"; "Measure Name"] ++ value_cols)).
  { apply in_or_app. now right. }
  assert (Hnum : numeric_column key t0 = true).
  { unfold numeric_column, column. rewrite (same_on_column _ key _ _ Hkey Ht0r).
    apply (state_table_numeric sf); [assumption | now apply Hincl]. }
  assert (Hsort : sort_values sort_by key false t0
                  = Ok (mkDF (columns t0) (sort_by (by_key false key) (rows t0)))).
  { apply sort_values_ok; [|exact Hnum].
    unfold has_column. rewrite Ht0c. now apply mem_string_iff. }
  exists sf. eexists.
  exists (mkDF (columns t0) (sort_by (by_key false key) (rows t0))), (rows t0).
  split; [|split; [exact Ht0c|split; [exact Ht0r|split; [reflexivity|]]]].
  - unfold tab5. rewrite Hcfg, Hf. cbn [bind]. fold value_cols.
    unfold dropna_all. rewrite (proj2 (require_all_ok _ _) (Hvalue flt eq_refl)).
    cbn [bind]. fold sf. unfold melt.
    replace (has_column "Hospitals" sf) with false.
    2: { unfold state_table in Hsf. rewrite !andb_true_iff in Hsf.
         destruct Hsf as [[[_ Hh] _] _]. apply negb_true_iff in Hh.
         now rewrite Hh. }
    rewrite (proj2 (require_all_ok _ _) (Hids sf eq_refl)).
    rewrite (proj2 (require_all_ok _ _) (Hvalue sf eq_refl)).
    cbn [bind]. rewrite Ht0. cbn [bind]. fold key. rewrite Hsort. cbn [bind].
    reflexivity.
  - intros r Hr. now apply (numeric_cell key t0).
Qed.

(** X15.  The summary table of the state benchmark shows the kept rows, each
    once, under "State", "Measure Name" and the counters of the group, with
    the cells of the kept row; it is ordered by the last counter but one
    (the hospitals doing worse, or with more return days), from the highest
    count down, the rows without that counter last. *)
Theorem benchmark_table_order (g : string) (config : benchmark_config)
  (sm ss : list string) (df_state : DataFrame) :
  state_table df_state = true ->
  lookup g STATE_BENCHMARK_CONFIG = Some config ->
  exists state_filtered state_long table sort_key,
    tab5 sort_by g sm ss df_state
    = Ok (BenchmarkData state_filtered state_long table)
    /\ (sort_key = "Number of Hospitals More"
        \/ sort_key = "Number of Hospitals Worse")
    /\ In sort_key (cfg_columns config)
    /\ columns table = ["State"; "Measure Name"] ++ cfg_columns config
    /\ Permutation (map fst (rows state_filtered)) (map fst (rows table))
    /\ (forall t, In t (rows table) ->
          exists r, In r (rows state_filtered)
            /\ same_on (["State"; "Measure Name"] ++ cfg_columns config) r t)
    /\ StronglySorted (fun a b => descends (snd a sort_key) (snd b sort_key))
                      (rows table).
Proof.
  intros Ht Hcfg.
  destruct (tab5_table g config sm ss df_state Ht Hcfg)
    as (sf & long & table & shown & Htab & Hcols & Hshown & Hrows & Hnum).
  exists sf, long, table.
  exists (nth (List.length (cfg_columns config) - 2) (cfg_columns config) "").
  split; [exact Htab|]. split; [|split; [|split; [exact Hcols|split; [|split]]]].
  - destruct (config_cases g config Hcfg) as [-> | ->]; simpl; auto.
  - apply (config_columns g config Hcfg).
  - rewrite Hrows, <- (same_on_labels _ _ _ Hshown).
    apply Permutation_map. apply sort_by_perm.
  - intros t Hin. rewrite Hrows in Hin.
    apply (sort_by_incl sort_by sort_by_perm) in Hin.
    apply (Forall2_In_r _ _ _ t Hshown Hin).
  - rewrite Hrows.
    apply (StronglySorted_weaken
             (fun a b => by_key false
                           (nth (List.length (cfg_columns config) - 2)
                                (cfg_columns config) "") a b = true)).
    + intros a b Ha Hb Hab.
      apply (sort_by_incl sort_by sort_by_perm) in Ha, Hb.
      apply descends_geb; auto.
    + apply (sort_values_sorted sort_by sort_by_sorted).
Qed.

(** X16.  Every row of the long form of the state benchmark names, under
    "Performance", a counter of the group that has a colour in the
    configuration of the group and a place in the order of the legend. *)
Theorem benchmark_categories_have_colours (g : string) (config : benchmark_config)
  (sm ss : list string) (df_state : DataFrame) :
  state_table df_state = true ->
  lookup g STATE_BENCHMARK_CONFIG = Some config ->
  exists state_filtered state_long table,
    tab5 sort_by g sm ss df_state
    = Ok (BenchmarkData state_filtered state_long table)
    /\ forall lr, In lr (rows state_long) ->
         exists v colour,
           snd lr "Performance" = Str v
           /\ In v (cfg_columns config)
           /\ lookup v (cfg_colors config) = Some colour
           /\ In v PERF_ORDER_STATE.
Proof.
  intros Ht Hcfg.
  destruct (tab5_ok sort_by sort_by_perm g config sm ss df_state Ht Hcfg)
    as (flt & sf & long & table & _ & Htab & _ & _ & Hlong & _).
  exists sf, long, table. split; [exact Htab|].
  intros lr Hlr.
  assert (Hin : In (snd lr) (melted (cfg_columns config) (rows sf))).
  { rewrite <- Hlong. now apply in_map. }
  destruct (melted_In _ _ _ Hin) as (r & v & _ & Hv & _ & _ & Hperf & _).
  destruct (config_colours g config v Hcfg Hv) as [[colour Hc] Ho].
  exists v, colour. auto.
Qed.

End Summaries.

(** X13, an instance: the EDAC example. *)
Lemma volume_bubbles_and_top_witness :
  exists df_scatter top_vol,
    tab2 (@isort_by irow) EDAC edac_selection = Ok (VolumeData df_scatter top_vol)
    /\ forall b, In b (rows df_scatter) -> exists q, snd b "bubble_size" = Num q.
Proof.
  destruct (volume_bubbles_and_top (@isort_by irow) (@isort_by_perm irow)
              (@isort_by_sorted irow) edac_df edac_selection
              [RETURN_DAYS_PN] [] eq_refl eq_refl)
    as (sc & top & qs & Htab & Hbubble & _).
  exists sc, top. split; [exact Htab | exact Hbubble].
Defined.

(** X14, an instance: the hospital example. *)
Lemma state_table_ranks_averages_witness :
  exists table,
    tab3_state_table (@isort_by irow) hospital_selection = Ok table
    /\ columns table = ["State"; "Average Score"]
    /\ descending "Average Score" table.
Proof.
  destruct (state_table_ranks_averages (@isort_by irow) (@isort_by_perm irow)
              (@isort_by_sorted irow) hospital_df hospital_selection [PN30] []
              eq_refl eq_refl)
    as (avg & table & _ & Htab & Hcols & _ & Hdesc).
  exists table. repeat split; assumption.
Defined.

(** X15, an instance: the state example. *)
Lemma benchmark_table_order_witness :
  exists state_filtered state_long table,
    tab5 (@isort_by irow) CONDITION [PN30] [] state_df
    = Ok (BenchmarkData state_filtered state_long table)
    /\ StronglySorted (fun a b => descends (snd a "Number of Hospitals Worse")
                                           (snd b "Number of Hospitals Worse"))
                      (rows table).
Proof.
  destruct (benchmark_table_order (@isort_by irow) (@isort_by_perm irow)
              (@isort_by_sorted irow) CONDITION rate_config [PN30] [] state_df
              eq_refl eq_refl)
    as (sf & long & table & key & Htab & [E | E] & Hin & _ & _ & _ & Hsorted).
  - exfalso. subst key. simpl in Hin.
    repeat (destruct Hin as [Hin | Hin]; [discriminate Hin|]). exact Hin.
  - subst key. exists sf, long, table. split; [exact Htab | exact Hsorted].
Defined.

(** X16, an instance: the state example. *)
Lemma benchmark_categories_have_colours_witness :
  exists state_filtered state_long table,
    tab5 (@isort_by irow) CONDITION [PN30] [] state_df
    = Ok (BenchmarkData state_filtered state_long table)
    /\ forall lr, In lr (rows state_long) ->
         exists v colour,
           snd lr "Performance" = Str v
           /\ lookup v (cfg_colors rate_config) = Some colour.
Proof.
  destruct (benchmark_categories_have_colours (@isort_by irow)
              (@isort_by_perm irow) CONDITION rate_config [PN30] [] state_df
              eq_refl eq_refl)
    as (sf & long & table & Htab & Hcol).
  exists sf, long, table. split; [exact Htab|].
  intros lr Hlr. destruct (Hcol lr Hlr) as (v & colour & Hp & _ & Hc & _).
  exists v, colour. split; [exact Hp | exact Hc].
Defined.

(** ** From the files to the page *)


Lemma fillna_present (v : cell) (s : string) : fillna v (Str s) <> NaN.
Proof.
  destruct v; discriminate.
Qed.

Lemma cell_eqb_nan (a : cell) : cell_eqb a NaN = true -> a = NaN.
Proof.
  destruct a; simpl; [reflexivity | discriminate | discriminate].
Qed.



Section Pipeline.

Variable to_number : string -> option Q.

Variable sort_by : (irow -> irow -> bool) -> list irow -> list irow.

Hypothesis sort_by_perm : forall le l, Permutation l (sort_by le l).

Hypothesis sort_by_sorted : forall le l,
  (forall a b, le a b = true \/ le b a = true) ->
  (forall a b c, le a b = true -> le b c = true -> le a c = true) ->
  StronglySorted (fun a b => le a b = true) (sort_by le l).



(** X17.  The cleaning of the loader reaches the performance chart: for a
    hospital file with the columns the script reads, every bar of the chart
    belongs to a selected measure and to a category that is present, and
    the only missing-value marker a category can be is "Not Available", the
    label given to the rows without a category. *)
Theorem perf_categories_clean (f : csv) (sm ss : list string) (df : DataFrame) :
  forallb (fun c => mem_string c (header f)) HOSPITAL_COLUMNS = true ->
  apply_filters (load_data to_number f) sm ss = Ok df ->
  exists out, perf df = Ok out
    /\ forall k n, In (k, n) out ->
         exists m cat, k = [Str m; cat] /\ In m sm
           /\ cat <> NaN
           /\ forall t, In t na_vals -> cat = Str t -> t = "Not Available".
Proof.
  intros Hhdr Hf.
  pose proof (load_data_hospital_table to_number f Hhdr) as Hraw.
  destruct (apply_filters_hospital _ _ _ _ Hraw Hf) as [Ht Hrows].
  destruct (perf_ok df Ht) as (out & Hperf & _ & _ & Hcount & _).
  { intros r Hr. destruct (filtered_measure_name _ _ _ _ r Hraw Hf Hr) as (m & Hm & _).
    eauto. }
  exists out. split; [exact Hperf|]. intros k n Hin.
  destruct (Hcount k n Hin) as [Hn Hpos].
  destruct (filter (fun r : irow => key_eqb (perf_key (snd r)) k) (rows df))
    as [|r l] eqn:E; [simpl in Hn; lia|].
  assert (Hr : In r (filter (fun r : irow => key_eqb (perf_key (snd r)) k) (rows df)))
    by (rewrite E; now left).
  apply filter_In in Hr. destruct Hr as [Hr Hkey].
  destruct (filtered_measure_name _ _ _ _ r Hraw Hf Hr) as (m & Hm & Hsel).
  unfold perf_key in Hkey. rewrite Hm in Hkey.
  destruct k as [|x [|y [|z k]]]; simpl in Hkey;
    rewrite ?andb_false_r in Hkey; try discriminate.
  rewrite andb_true_r in Hkey. apply andb_true_iff in Hkey.
  destruct Hkey as [Hx Hy].
  destruct x as [|p|s]; try discriminate. simpl in Hx.
  apply String.eqb_eq in Hx. subst s.
  exists m, y. split; [reflexivity|]. split; [exact Hsel|]. split.
  - intros ->. apply cell_eqb_nan in Hy. revert Hy. apply fillna_present.
  - intros t Ht' ->. apply cell_eqb_str in Hy.
    unfold display_category in Hy.
    destruct (snd r "Compared to National") as [|q|s] eqn:Ecat; simpl in Hy.
    + now injection Hy as <-.
    + discriminate.
    + injection Hy as ->. exfalso.
      assert (Hraw_r : In r (rows (load_data to_number f))).
      { rewrite Hrows in Hr. apply filter_In in Hr. destruct Hr as [Hr _].
        apply filter_In in Hr. tauto. }
      destruct (load_data_cell_inv to_number f r Hraw_r) as (rec & _ & Hc).
      specialize (Hc "Compared to National"). cbn [mem_string] in Hc.
      simpl in Hc. rewrite Ecat in Hc. symmetry in Hc.
      revert Hc. now apply replace_with_nan_clean.
Qed.


End Pipeline.

(** X17, an instance: the hospital example. *)
Lemma perf_categories_clean_witness :
  exists out, perf hospital_selection = Ok out
    /\ forall k n, In (k, n) out ->
         exists m cat, k = [Str m; cat] /\ cat <> NaN.
Proof.
  destruct (perf_categories_clean parse_decimal hospital_csv [PN30] []
              hospital_selection eq_refl eq_refl) as (out & Hperf & Hkeys).
  exists out. split; [exact Hperf|]. intros k n Hin.
  destruct (Hkeys k n Hin) as (m & cat & Hk & _ & Hcat & _).
  exists m, cat. split; [exact Hk | exact Hcat].
Defined.

